(** * plex-match-maker: the scan-and-reconcile core

    A shallow embedding of [plex_client.py], [scheduler.py], [models.py] and
    the manual trigger of [routes.py], followed by the properties of the
    specification that concern them.

    Conventions.
    - Python [str] is [string]; a value that may be [None] is an [option].
    - Python [int] is [Z]; [len] is [Z.of_nat (length _)].
    - Exceptions are values of [exn]; a computation that may raise returns a
      [result]; [try ... except] is [try_except].
    - Epoch seconds are [Z]; a naive [datetime] is the number of seconds of
      its wall clock, also a [Z]. *)

From Stdlib Require Import ZArith List String Ascii Bool Lia Permutation Sorted.
Import ListNotations.
Open Scope string_scope.
Open Scope Z_scope.

Set Implicit Arguments.

(* ------------------------------------------------------------------------- *)
(** * Python exceptions and results *)

Module Py.

(** The exceptions the program can meet.  [HTTPError] is what
    [response.raise_for_status()] raises; [RequestException] stands for the
    other exceptions of [requests] (connection refused, timeout);
    [Exception] is any other exception. *)
Inductive exn : Type :=
| HTTPError (status_code : Z) (text : string)
| RequestException (text : string)
| ValueError (text : string)
| TypeError (text : string)
| Exception (text : string).

(** [str(e)] *)
Definition str (e : exn) : string :=
  match e with
  | HTTPError _ t | RequestException t | ValueError t
  | TypeError t | Exception t => t
  end.

(** The classes named in [except] clauses.  [HTTPError] is a subclass of
    [RequestException], and everything is an [Exception]. *)
Inductive exn_class : Type :=
| C_HTTPError | C_RequestException | C_ValueError | C_TypeError | C_Exception.

Definition isinstance (e : exn) (c : exn_class) : bool :=
  match c, e with
  | C_Exception, _ => true
  | C_HTTPError, HTTPError _ _ => true
  | C_RequestException, (HTTPError _ _ | RequestException _) => true
  | C_ValueError, ValueError _ => true
  | C_TypeError, TypeError _ => true
  | _, _ => false
  end.

Inductive result (A : Type) : Type :=
| Ok (a : A)
| Raise (e : exn).
Arguments Ok {A} a.
Arguments Raise {A} e.

Definition bind {A B} (m : result A) (f : A -> result B) : result B :=
  match m with
  | Ok a => f a
  | Raise e => Raise e
  end.

(** One [except cls1, cls2, ... as e: handler] clause. *)
Definition clause (A : Type) : Type := (list exn_class * (exn -> result A))%type.

Definition catches (cs : list exn_class) (e : exn) : bool :=
  existsb (isinstance e) cs.

(** The first clause whose classes contain the exception handles it; an
    exception that no clause names goes on. *)
Fixpoint dispatch {A} (e : exn) (handlers : list (clause A)) : result A :=
  match handlers with
  | [] => Raise e
  | (cs, h) :: rest => if catches cs e then h e else dispatch e rest
  end.

Definition try_except {A} (body : result A) (handlers : list (clause A)) : result A :=
  match body with
  | Ok a => Ok a
  | Raise e => dispatch e handlers
  end.

End Py.

Import Py.

Declare Scope py_scope.
Delimit Scope py_scope with py.
Notation "x <- m ;; k" := (Py.bind m (fun x => k))
  (at level 61, m at next level, right associativity) : py_scope.
Notation "m ;;; k" := (Py.bind m (fun _ => k))
  (at level 61, right associativity) : py_scope.
Open Scope py_scope.

(** A Python [str] is held as its UTF-8 bytes.  A byte [10xxxxxx] goes on
    with the character begun before it, any other byte begins one. *)
Definition continues (a : ascii) : bool :=
  match a with
  | Ascii _ _ _ _ _ _ b6 b7 => b7 && negb b6
  end.

(** [len(s)]: the number of characters. *)
Fixpoint len (s : string) : nat :=
  match s with
  | EmptyString => 0%nat
  | String a rest => if continues a then len rest else S (len rest)
  end.

(** [s[:n]]: the first [n] characters. *)
Fixpoint slice_to (n : nat) (s : string) : string :=
  match s with
  | EmptyString => EmptyString
  | String a rest =>
      if continues a then String a (slice_to n rest)
      else match n with
           | O => EmptyString
           | S m => String a (slice_to m rest)
           end
  end.

(** [f"{x}"] of a value that may be [None]. *)
Definition fstr (x : option string) : string :=
  match x with
  | Some s => s
  | None => "None"
  end.

(** Truth value of an optional string: [None] and [''] are false. *)
Definition truthy (x : option string) : bool :=
  match x with
  | Some s => negb (s =? "")%string
  | None => false
  end.

Definition opt_string_eqb (a b : option string) : bool :=
  match a, b with
  | Some x, Some y => (x =? y)%string
  | None, None => true
  | _, _ => false
  end.

(* ------------------------------------------------------------------------- *)
(** * Responses: [xml.etree.ElementTree] elements *)

#[local] Unset Elimination Schemes.
Inductive Element : Type :=
| Elem (tag : string) (attrib : list (string * string)) (children : list Element).

#[local] Set Elimination Schemes.

Definition attrib_of (e : Element) : list (string * string) := let 'Elem _ a _ := e in a.
Definition children_of (e : Element) : list Element := let 'Elem _ _ c := e in c.

Fixpoint lookup_attr (k : string) (a : list (string * string)) : option string :=
  match a with
  | [] => None
  | (k', v) :: rest => if (k' =? k)%string then Some v else lookup_attr k rest
  end.

(** [e.get(k)] *)
Definition get (e : Element) (k : string) : option string :=
  lookup_attr k (attrib_of e).

(** [e.get(k, default)] *)
Definition get_default (e : Element) (k : string) (d : string) : string :=
  match get e k with
  | Some v => v
  | None => d
  end.

(** [e.iter(tag)]: the element itself and its descendants carrying the tag,
    in document order. *)
Fixpoint iter (tag : string) (e : Element) : list Element :=
  match e with
  | Elem t _ cs =>
      (if (t =? tag)%string then [e] else []) ++ flat_map (iter tag) cs
  end.

(** [root.findall('.//tag')]: the descendants of [root] carrying the tag. *)
Definition findall (tag : string) (root : Element) : list Element :=
  flat_map (iter tag) (children_of root).

(** [root.findall('.//Video') + root.findall('.//Track') + root.findall('.//Photo')] *)
Definition media_elements (root : Element) : list Element :=
  findall "Video" root ++ findall "Track" root ++ findall "Photo" root.

(* ------------------------------------------------------------------------- *)
(** * Classification of an identifier ([is_guid_matched], plex_client.py)

    [true] is Matched, [false] is Unmatched.  The argument is [None] when the
    lookup found no item with the key asked for. *)

Definition is_guid_matched (media_guid : option string) : bool :=
  if negb (truthy media_guid) then false
  else
    match media_guid with
    | Some g =>
        if String.prefix "plex://" g || String.prefix "local://" g then false
        else true
    | None => false
    end.

(* ------------------------------------------------------------------------- *)
(** * Computations that change a state and may raise

    A method that assigns to [self], or a routine that updates its local
    counters, is a function from the state to a result and the new state.
    An assignment made before an exception is raised stays made. *)

Module St.

Definition M (S A : Type) : Type := S -> result A * S.

Definition ret {S A} (a : A) : M S A := fun s => (Ok a, s).

Definition bind {S A B} (m : M S A) (f : A -> M S B) : M S B :=
  fun s =>
    match m s with
    | (Ok a, s') => f a s'
    | (Raise e, s') => (Raise e, s')
    end.

Definition lift {S A} (r : result A) : M S A := fun s => (r, s).

Definition gets {S A} (f : S -> A) : M S A := fun s => (Ok (f s), s).

Definition modify {S} (f : S -> S) : M S unit := fun s => (Ok tt, f s).

Definition clause (S A : Type) : Type := (list exn_class * (exn -> M S A))%type.

Fixpoint dispatch {S A} (e : exn) (handlers : list (clause S A)) : M S A :=
  match handlers with
  | [] => fun s => (Raise e, s)
  | (cs, h) :: rest => if catches cs e then h e else dispatch e rest
  end.

(** The handler runs in the state the body had reached. *)
Definition try_except {S A} (body : M S A) (handlers : list (clause S A)) : M S A :=
  fun s =>
    match body s with
    | (Ok a, s') => (Ok a, s')
    | (Raise e, s') => dispatch e handlers s'
    end.

(** [for x in xs: body] *)
Fixpoint for_each {S A} (xs : list A) (body : A -> M S unit) : M S unit :=
  match xs with
  | [] => ret tt
  | x :: rest => bind (body x) (fun _ => for_each rest body)
  end.

(** A computation on a part [T] of the state [S]. *)
Definition zoom {S T A} (proj : S -> T) (inj : T -> S -> S) (m : M T A) : M S A :=
  fun s => let (r, t') := m (proj s) in (r, inj t' s).

End St.

Declare Scope st_scope.
Delimit Scope st_scope with st.
Bind Scope st_scope with St.M.
Notation "x <- m ;; k" := (St.bind m (fun x => k))
  (at level 61, m at next level, right associativity) : st_scope.
Notation "m ;;; k" := (St.bind m (fun _ => k))
  (at level 61, right associativity) : st_scope.

(* ------------------------------------------------------------------------- *)
(** * The environment of the program

    Everything the program reads from outside itself: the process
    environment, the time zone database, Python's own conversions, and the
    remote server.  The server answers a request by its path; the answer
    already includes [raise_for_status()] and, for a GET, the parse of the
    body.  An [Env] is a server in one state: its answer to a request does
    not depend on the requests made before, and two scans in the same [Env]
    are two scans of an unchanged remote.

    routes.py imports [scheduler_next_run] from scheduler.py and calls it
    for the pages it renders; the body of that function is not embedded, so
    the function is a parameter here: what a call of it returns, or the
    exception it raises. *)

Record Env : Type := {
  PLEX_TOKEN : string;                     (* os.getenv('PLEX_TOKEN', '') *)
  TZ : string;                             (* config.TZ, by zone name *)
  known_zone : string -> bool;             (* pytz.timezone(name) does not raise *)
  py_int : string -> option Z;             (* int(s); None is ValueError *)
  fromtimestamp : Z -> result Z;           (* datetime.fromtimestamp *)
  http_get : string -> result Element;     (* session.get + raise_for_status + ET.fromstring *)
  http_put : string -> list (string * string) -> result unit;
                                           (* session.put + raise_for_status *)
  scheduler_next_run : result string       (* scheduler_next_run(), see above *)
}.

(* ------------------------------------------------------------------------- *)
(** * plex_client.py *)

Module ServerInfo.
Record t : Type := {
  friendlyName : string;
  version : string;
  platform : string
}.
End ServerInfo.

Module MediaInfo.
(** The dictionary [media_info] built by [get_recent_media]. *)
Record t : Type := {
  key : option string;
  title : option string;
  type : option string;
  addedAt : Z;
  addedAt_server : Z * string;
  year : option string;
  summary : string
}.
End MediaInfo.

Module LibrarySummary.
(** The dictionary built by [get_libraries] for one library. *)
Record t : Type := {
  key : option string;
  title : option string;
  type : option string;
  agent : string
}.
End LibrarySummary.

(** [recent_media.sort(key=lambda x: x['addedAt'], reverse=True)]: newest
    first, entries with equal keys keep their order. *)
Fixpoint insert_desc (x : MediaInfo.t) (l : list MediaInfo.t) : list MediaInfo.t :=
  match l with
  | [] => [x]
  | y :: ys =>
      if MediaInfo.addedAt x >=? MediaInfo.addedAt y then x :: y :: ys
      else y :: insert_desc x ys
  end.

Definition sort_desc (l : list MediaInfo.t) : list MediaInfo.t :=
  fold_right insert_desc [] l.

(** A loop that threads an accumulator and stops at the first exception. *)
Fixpoint fold_result {A B} (f : A -> B -> result A) (xs : list B) (acc : A) : result A :=
  match xs with
  | [] => Ok acc
  | x :: rest => acc' <- f acc x ;; fold_result f rest acc'
  end.

Module PlexClient.

(** The attributes of a client that its methods read or assign.  The server
    at [plex_url] and the [requests] session are the request oracles of the
    environment. *)
Record t : Type := {
  plex_token : string;
  server_info : option ServerInfo.t;
  server_timezone : option string
}.

Definition set_server_info (v : ServerInfo.t) (self : t) : t :=
  {| plex_token := plex_token self;
     server_info := Some v;
     server_timezone := server_timezone self |}.

Definition set_server_timezone (v : string) (self : t) : t :=
  {| plex_token := plex_token self;
     server_info := server_info self;
     server_timezone := Some v |}.

Section Methods.

Variable E : Env.

(** [__init__] *)
Definition init : t :=
  {| plex_token := PLEX_TOKEN E;
     server_info := None;
     server_timezone := None |}.

Definition _make_request (self : t) (endpoint : string) : result Element :=
  if (plex_token self =? "")%string then
    Raise (Exception "PLEX_TOKEN environment variable is required")
  else http_get E endpoint.

(** [pytz.timezone(name)] *)
Definition pytz_timezone (name : string) : result string :=
  if known_zone E name then Ok name
  else Raise (Exception ("UnknownTimeZoneError: " ++ name)).

(** [int(s)] *)
Definition int_ (s : string) : result Z :=
  match py_int E s with
  | Some z => Ok z
  | None => Raise (ValueError ("invalid literal for int() with base 10: " ++ s))
  end.

(** The value of the [TimezoneName] setting in the preferences. *)
Definition timezone_pref (prefs_root : Element) : option string :=
  match find (fun setting => opt_string_eqb (get setting "id") (Some "TimezoneName"))
             (findall "Setting" prefs_root) with
  | Some setting => get setting "value"
  | None => None
  end.

Definition read_timezone : St.M t unit :=
  (self <- St.gets (fun s => s) ;;
   prefs_root <- St.lift (_make_request self "/:/prefs") ;;
   let pref := timezone_pref prefs_root in
   if truthy pref then
     zone <- St.lift (pytz_timezone (fstr pref)) ;;
     St.modify (set_server_timezone zone)
   else
     St.modify (set_server_timezone (TZ E)))%st.

Definition connect : St.M t bool :=
  St.try_except
    (self <- St.gets (fun s => s) ;;
     root <- St.lift (_make_request self "/") ;;
     St.modify (set_server_info
                  {| ServerInfo.friendlyName := get_default root "friendlyName" "Unknown";
                     ServerInfo.version := get_default root "version" "Unknown";
                     ServerInfo.platform := get_default root "platform" "Unknown" |}) ;;;
     St.try_except read_timezone
       [([C_Exception], fun _ => St.modify (set_server_timezone (TZ E)))] ;;;
     St.ret true)%st
    [([C_RequestException], fun _ => St.ret false);
     ([C_Exception], fun _ => St.ret false)].

(** [if not self.server_info: if not self.connect(): ...]: true when the
    method may go on. *)
Definition ensure_connected : St.M t bool :=
  (info <- St.gets server_info ;;
   match info with
   | Some _ => St.ret true
   | None => connect
   end)%st.

(** The [try] block of [get_libraries]. *)
Definition libraries_body (self : t) : result (list LibrarySummary.t) :=
  root <- _make_request self "/library/sections" ;;
  Ok (map (fun directory =>
             {| LibrarySummary.key := get directory "key";
                LibrarySummary.title := get directory "title";
                LibrarySummary.type := get directory "type";
                LibrarySummary.agent := get_default directory "agent" "Unknown" |})
          (findall "Directory" root)).

Definition get_libraries : St.M t (list LibrarySummary.t) :=
  (connected <- ensure_connected ;;
   if negb connected then St.ret []
   else
     self <- St.gets (fun s => s) ;;
     St.lift (Py.try_except (libraries_body self)
                [([C_Exception], fun _ => Ok [])]))%st.

(** [self.server_timezone.localize(dt)] *)
Definition localize (self : t) (dt : Z) : result (Z * string) :=
  match server_timezone self with
  | Some zone => Ok (dt, zone)
  | None => Raise (Exception "'NoneType' object has no attribute 'localize'")
  end.

(** [summary[:200] + '...'] when the summary is longer than 200
    characters. *)
Definition truncate_summary (summary : string) : string :=
  if negb (summary =? "")%string && (Z.of_nat (len summary) >? 200)
  then (slice_to 200 summary ++ "...")%string
  else summary.

(** The body of the loop over the items of a library. *)
Definition recent_item (self : t) (cutoff_timestamp : Z)
           (recent_media : list MediaInfo.t) (item : Element)
  : result (list MediaInfo.t) :=
  let added_at_str := get item "addedAt" in
  if truthy added_at_str then
    Py.try_except
      (added_at_timestamp <- int_ (fstr added_at_str) ;;
       added_at_dt <- fromtimestamp E added_at_timestamp ;;
       if added_at_timestamp >=? cutoff_timestamp then
         added_at_server <- localize self added_at_dt ;;
         let summary := truncate_summary (get_default item "summary" "") in
         Ok (app recent_media
               [ {| MediaInfo.key := get item "key";
                    MediaInfo.title := get item "title";
                    MediaInfo.type := get item "type";
                    MediaInfo.addedAt := added_at_dt;
                    MediaInfo.addedAt_server := added_at_server;
                    MediaInfo.year := get item "year";
                    MediaInfo.summary := summary |} ])
       else Ok recent_media)
      [([C_ValueError; C_TypeError], fun _ => Ok recent_media)]
  else Ok recent_media.

(** [now] is the epoch second read by [datetime.now(self.server_timezone)];
    subtracting a [timedelta] keeps the zone offset, so the cutoff is
    [hours] hours earlier on the epoch scale. *)
Definition cutoff_of (now hours : Z) : Z := now - hours * 3600.

Definition recent_media_body (self : t) (library_key : string) (hours now : Z)
  : result (list MediaInfo.t) :=
  let cutoff_timestamp := cutoff_of now hours in
  root <- _make_request self ("/library/sections/" ++ library_key ++ "/all") ;;
  recent_media <- fold_result (recent_item self cutoff_timestamp)
                               (media_elements root) [] ;;
  Ok (sort_desc recent_media).

Definition get_recent_media (library_key : string) (hours now : Z)
  : St.M t (list MediaInfo.t) :=
  (connected <- ensure_connected ;;
   if negb connected then St.ret []
   else
     self <- St.gets (fun s => s) ;;
     St.lift
       (Py.try_except (recent_media_body self library_key hours now)
          [([C_HTTPError], fun _ => Ok []);
           ([C_Exception], fun _ => Ok [])]))%st.

(** [e.response.status_code] of an [HTTPError] *)
Definition status_code (e : exn) : Z :=
  match e with
  | HTTPError code _ => code
  | _ => 0
  end.

(** The candidate phase: fetch the candidates and apply the first. *)
Definition apply_first_match (self : t) (media_key : option string)
           (media_title : string) : result (bool * string) :=
  matches_root <- _make_request self (fstr media_key ++ "/matches") ;;
  let matches := findall "SearchResult" matches_root in
  match matches with
  | [] => Ok (true, "No matches available for: " ++ media_title)
  | first_match :: _ =>
      let match_guid := get first_match "guid" in
      let match_name := get_default first_match "name" "Unknown" in
      if truthy match_guid then
        http_put E (fstr media_key ++ "/match") [("guid", fstr match_guid)] ;;;
        Ok (true, "Matched: " ++ media_title ++ " → " ++ match_name)
      else
        Ok (true, "Match found but no guid available for: " ++ media_title)
  end.

(** The [try] block of [match_with_agent]. *)
Definition match_body (self : t) (library_key : string)
           (media_key : option string) (agent_name : string)
  : result (bool * string) :=
  media_root <- _make_request self (fstr media_key) ;;
  let found := find (fun item => opt_string_eqb (get item "key") media_key)
                    (media_elements media_root) in
  let media_title :=
    match found with
    | Some item => get_default item "title" "Unknown"
    | None => "Unknown"
    end in
  let media_guid :=
    match found with
    | Some item => Some (get_default item "guid" "")
    | None => None
    end in
  let is_matched := is_guid_matched media_guid in
  if is_matched then
    http_put E (fstr media_key ++ "/refresh") [] ;;;
    Ok (true, "Refreshed matched media: " ++ media_title)
  else
    Py.try_except (apply_first_match self media_key media_title)
      [([C_HTTPError],
        fun matches_error =>
          if status_code matches_error =? 404 then
            Ok (true, "No matches available for: " ++ media_title)
          else
            Ok (false, "Error getting matches: " ++ str matches_error))].

Definition match_with_agent (library_key : string) (media_key : option string)
           (agent_name : string) : St.M t (bool * string) :=
  (connected <- ensure_connected ;;
   if negb connected then St.ret (false, "Not connected to Plex server")
   else
     self <- St.gets (fun s => s) ;;
     St.lift
       (Py.try_except (match_body self library_key media_key agent_name)
          [([C_HTTPError],
            fun e =>
              let error_msg :=
                if status_code e =? 404 then
                  "Library " ++ library_key ++ " or media " ++ fstr media_key
                    ++ " not found"
                else
                  "HTTP error processing media " ++ fstr media_key ++ ": " ++ str e
              in Ok (false, error_msg));
           ([C_Exception],
            fun e =>
              let error_msg :=
                "Failed to process media " ++ fstr media_key ++ " with agent "
                  ++ agent_name ++ ": " ++ str e
              in Ok (false, error_msg))]))%st.

(** The [try] block of [validate_library_config]. *)
Definition validate_body (self : t) (library_key : string) : result (bool * string) :=
  root <- _make_request self ("/library/sections/" ++ library_key) ;;
  let library_title := get_default root "title1" ("Library " ++ library_key) in
  Ok (true, "Library '" ++ library_title ++ "' is valid").

Definition validate_library_config (library_key : string) : St.M t (bool * string) :=
  (connected <- ensure_connected ;;
   if negb connected then St.ret (false, "Unable to connect to Plex server")
   else
     self <- St.gets (fun s => s) ;;
     St.lift
       (Py.try_except (validate_body self library_key)
          [([C_HTTPError],
            fun e =>
              if status_code e =? 404 then
                Ok (false, "Library with ID " ++ library_key ++ " not found on Plex server")
              else
                Ok (false, "HTTP error validating library " ++ library_key ++ ": " ++ str e));
           ([C_Exception],
            fun e =>
              Ok (false, "Error validating library " ++ library_key ++ ": " ++ str e))]))%st.

End Methods.

End PlexClient.

(* ------------------------------------------------------------------------- *)
(** * models.py

    The rows of the three tables.  The primary keys of [MediaItem] and
    [ScanLog] and the [processed_at], [created_at] and [updated_at] stamps are
    assigned by the database and play no part below.  The constraints the
    models declare are those of [Session] further down. *)

Module LibraryConfig.
Record t : Type := {
  id : Z;
  library_key : string;
  library_name : string;
  library_type : string;
  agent_name : string;
  enabled : bool
}.
End LibraryConfig.

Module MediaItem.
Record t : Type := {
  library_config_id : Z;
  plex_key : option string;
  title : option string;
  media_type : option string;
  added_at : Z;
  agent_matched : option string;
  match_successful : bool;
  error_message : option string
}.

(** The columns of the unique constraint [_library_media_uc]. *)
Definition uc (r : t) : Z * option string := (library_config_id r, plex_key r).
End MediaItem.

Module ScanLog.
Record t : Type := {
  scan_started_at : Z;
  scan_completed_at : option Z;
  total_libraries : Z;
  total_media_found : Z;
  total_matched : Z;
  total_errors : Z;
  status : string;
  error_message : option string
}.

(** [ScanLog()] with the column defaults, stamped when it is inserted. *)
Definition new (now : Z) : t :=
  {| scan_started_at := now;
     scan_completed_at := None;
     total_libraries := 0;
     total_media_found := 0;
     total_matched := 0;
     total_errors := 0;
     status := "running";
     error_message := None |}.

Definition set_scan_completed_at (v : Z) (r : t) : t :=
  {| scan_started_at := scan_started_at r; scan_completed_at := Some v;
     total_libraries := total_libraries r; total_media_found := total_media_found r;
     total_matched := total_matched r; total_errors := total_errors r;
     status := status r; error_message := error_message r |}.

Definition set_total_libraries (v : Z) (r : t) : t :=
  {| scan_started_at := scan_started_at r; scan_completed_at := scan_completed_at r;
     total_libraries := v; total_media_found := total_media_found r;
     total_matched := total_matched r; total_errors := total_errors r;
     status := status r; error_message := error_message r |}.

Definition set_total_media_found (v : Z) (r : t) : t :=
  {| scan_started_at := scan_started_at r; scan_completed_at := scan_completed_at r;
     total_libraries := total_libraries r; total_media_found := v;
     total_matched := total_matched r; total_errors := total_errors r;
     status := status r; error_message := error_message r |}.

Definition set_total_matched (v : Z) (r : t) : t :=
  {| scan_started_at := scan_started_at r; scan_completed_at := scan_completed_at r;
     total_libraries := total_libraries r; total_media_found := total_media_found r;
     total_matched := v; total_errors := total_errors r;
     status := status r; error_message := error_message r |}.

Definition set_total_errors (v : Z) (r : t) : t :=
  {| scan_started_at := scan_started_at r; scan_completed_at := scan_completed_at r;
     total_libraries := total_libraries r; total_media_found := total_media_found r;
     total_matched := total_matched r; total_errors := v;
     status := status r; error_message := error_message r |}.

Definition set_status (v : string) (r : t) : t :=
  {| scan_started_at := scan_started_at r; scan_completed_at := scan_completed_at r;
     total_libraries := total_libraries r; total_media_found := total_media_found r;
     total_matched := total_matched r; total_errors := total_errors r;
     status := v; error_message := error_message r |}.

Definition set_error_message (v : string) (r : t) : t :=
  {| scan_started_at := scan_started_at r; scan_completed_at := scan_completed_at r;
     total_libraries := total_libraries r; total_media_found := total_media_found r;
     total_matched := total_matched r; total_errors := total_errors r;
     status := status r; error_message := Some v |}.
End ScanLog.

Record Database : Type := {
  library_configs : list LibraryConfig.t;
  media_items : list MediaItem.t
}.

(* ------------------------------------------------------------------------- *)
(** * scheduler.py *)

Module Scheduler.

(** What [scan_libraries] works on: the tables, its local variables, the
    successive committed versions of its [ScanLog] row, and the number of
    times the clock was read. *)
Record state : Type := {
  db : Database;
  plex_client : PlexClient.t;
  scan_log : ScanLog.t;
  committed : list ScanLog.t;
  ticks : nat;
  total_media_found : Z;
  total_matched : Z;
  total_errors : Z
}.

Definition set_db (v : Database) (s : state) : state :=
  {| db := v; plex_client := plex_client s; scan_log := scan_log s;
     committed := committed s; ticks := ticks s;
     total_media_found := total_media_found s;
     total_matched := total_matched s; total_errors := total_errors s |}.

Definition set_plex_client (v : PlexClient.t) (s : state) : state :=
  {| db := db s; plex_client := v; scan_log := scan_log s;
     committed := committed s; ticks := ticks s;
     total_media_found := total_media_found s;
     total_matched := total_matched s; total_errors := total_errors s |}.

Definition set_scan_log (v : ScanLog.t) (s : state) : state :=
  {| db := db s; plex_client := plex_client s; scan_log := v;
     committed := committed s; ticks := ticks s;
     total_media_found := total_media_found s;
     total_matched := total_matched s; total_errors := total_errors s |}.

Definition set_committed (v : list ScanLog.t) (s : state) : state :=
  {| db := db s; plex_client := plex_client s; scan_log := scan_log s;
     committed := v; ticks := ticks s;
     total_media_found := total_media_found s;
     total_matched := total_matched s; total_errors := total_errors s |}.

Definition set_ticks (v : nat) (s : state) : state :=
  {| db := db s; plex_client := plex_client s; scan_log := scan_log s;
     committed := committed s; ticks := v;
     total_media_found := total_media_found s;
     total_matched := total_matched s; total_errors := total_errors s |}.

Definition set_total_media_found (v : Z) (s : state) : state :=
  {| db := db s; plex_client := plex_client s; scan_log := scan_log s;
     committed := committed s; ticks := ticks s;
     total_media_found := v;
     total_matched := total_matched s; total_errors := total_errors s |}.

Definition set_total_matched (v : Z) (s : state) : state :=
  {| db := db s; plex_client := plex_client s; scan_log := scan_log s;
     committed := committed s; ticks := ticks s;
     total_media_found := total_media_found s;
     total_matched := v; total_errors := total_errors s |}.

Definition set_total_errors (v : Z) (s : state) : state :=
  {| db := db s; plex_client := plex_client s; scan_log := scan_log s;
     committed := committed s; ticks := ticks s;
     total_media_found := total_media_found s;
     total_matched := total_matched s; total_errors := v |}.

(** [MediaItem.query.filter_by(library_config_id=..., plex_key=...).first()] *)
Definition existing_item (config_id : Z) (key : option string)
           (items : list MediaItem.t) : option MediaItem.t :=
  find (fun r => (MediaItem.library_config_id r =? config_id)
                 && opt_string_eqb (MediaItem.plex_key r) key) items.

(** ** The session

    [db.session] as [scan_libraries] uses it.  [add] only registers an
    object; the rows are written by a flush, which runs before every query
    (autoflush) and at [commit].  A flush that meets a row the table refuses
    raises, the transaction is rolled back (what was flushed since the last
    commit is gone, the objects added are dropped and the rows loaded are
    expired), and from then on every statement of the session raises until
    [rollback()] is called, which [scan_libraries] never does.  The database
    server itself is taken to answer: a statement fails only by a
    [nullable=False] or the [UniqueConstraint] of models.py (the lengths
    declared for the [String] columns are not enforced, as with SQLite). *)

Record session : Type := {
  stored : Database;                  (* the tables as last committed *)
  pending : list MediaItem.t;         (* added, not yet flushed *)
  inactive : bool                     (* a flush has failed *)
}.

(** The session and, in [frame], the tables as its transaction sees them
    together with the variables of the routine. *)
Record world : Type := {
  orm : session;
  frame : state
}.

(** The exceptions of SQLAlchemy are [Exception]s; the text holds the name
    of the class. *)
Definition integrity_error : exn := Exception "IntegrityError".

Definition pending_rollback_error : exn := Exception "PendingRollbackError".

(** [nullable=False] on [plex_key], [title] and [media_type]; the other
    columns of a [MediaItem] so declared always hold a value here. *)
Definition not_null (r : MediaItem.t) : bool :=
  match MediaItem.plex_key r, MediaItem.title r, MediaItem.media_type r with
  | Some _, Some _, Some _ => true
  | _, _, _ => false
  end.

(** The table takes the row: no column that must hold a value is empty and
    no row holds the pair of [_library_media_uc] already. *)
Definition insertable (rows : list MediaItem.t) (r : MediaItem.t) : bool :=
  not_null r &&
  match existing_item (MediaItem.library_config_id r) (MediaItem.plex_key r) rows with
  | Some _ => false
  | None => true
  end.

(** The INSERTs of a flush, in the order the objects were added. *)
Fixpoint insert_all (rows new : list MediaItem.t) : option (list MediaItem.t) :=
  match new with
  | [] => Some rows
  | r :: rest => if insertable rows r then insert_all (rows ++ [r]) rest else None
  end.

Definition rolled_back (w : world) : world :=
  {| orm := {| stored := stored (orm w); pending := []; inactive := true |};
     frame := set_db (stored (orm w)) (frame w) |}.

Definition flush : St.M world unit :=
  fun w =>
    if inactive (orm w) then (Raise pending_rollback_error, w)
    else
      match insert_all (media_items (db (frame w))) (pending (orm w)) with
      | Some rows =>
          (Ok tt,
           {| orm := {| stored := stored (orm w); pending := []; inactive := false |};
              frame := set_db {| library_configs := library_configs (db (frame w));
                                 media_items := rows |} (frame w) |})
      | None => (Raise integrity_error, rolled_back w)
      end.

(** A query: the flush, then the rows as the transaction sees them. *)
Definition query {A} (q : Database -> A) : St.M world A :=
  (flush ;;; St.gets (fun w => q (db (frame w))))%st.

(** Reading a column of a row the session loaded, which reloads the row
    once the session has expired it. *)
Definition loaded : St.M world unit :=
  fun w => if inactive (orm w) then (Raise pending_rollback_error, w) else (Ok tt, w).

(** [db.session.add(media_item)] *)
Definition session_add (r : MediaItem.t) : St.M world unit :=
  St.modify (fun w => {| orm := {| stored := stored (orm w);
                                   pending := pending (orm w) ++ [r];
                                   inactive := inactive (orm w) |};
                         frame := frame w |}).

(** [db.session.commit()]: the flush, then what the transaction saw is
    stored, and with it the current [scan_log]. *)
Definition commit : St.M world unit :=
  (flush ;;;
   St.modify (fun w =>
                {| orm := {| stored := db (frame w);
                             pending := pending (orm w);
                             inactive := inactive (orm w) |};
                   frame := set_committed (committed (frame w) ++ [scan_log (frame w)])
                                          (frame w) |}))%st.

(** An assignment to the variables of the routine. *)
Definition assign (f : state -> state) : St.M world unit :=
  St.modify (fun w => {| orm := orm w; frame := f (frame w) |}).

Definition read {A} (f : state -> A) : St.M world A :=
  St.gets (fun w => f (frame w)).

Section Scan.

Variable E : Env.

(** The clock: its [n]-th reading, in epoch seconds. *)
Variable clock : nat -> Z.

(** [datetime.now(...)] *)
Definition now : St.M world Z :=
  fun w => (Ok (clock (ticks (frame w))),
            {| orm := orm w; frame := set_ticks (S (ticks (frame w))) (frame w) |}).

Definition on_client {A} (m : St.M PlexClient.t A) : St.M world A :=
  St.zoom (fun w => plex_client (frame w))
          (fun c w => {| orm := orm w; frame := set_plex_client c (frame w) |}) m.

Definition update_scan_log (f : ScanLog.t -> ScanLog.t) : St.M world unit :=
  assign (fun s => set_scan_log (f (scan_log s)) s).

(** The body of the loop over the recent items of a library
    (inside its [try]). *)
Definition process_media (config : LibraryConfig.t) (media : MediaInfo.t)
  : St.M world unit :=
  (existing <- query (fun d => existing_item (LibraryConfig.id config)
                                             (MediaInfo.key media) (media_items d)) ;;
   match existing with
   | Some _ => St.ret tt
   | None =>
       outcome <- on_client (PlexClient.match_with_agent E
                               (LibraryConfig.library_key config)
                               (MediaInfo.key media)
                               (LibraryConfig.agent_name config)) ;;
       let success := fst outcome in
       let message := snd outcome in
       let media_item :=
         {| MediaItem.library_config_id := LibraryConfig.id config;
            MediaItem.plex_key := MediaInfo.key media;
            MediaItem.title := MediaInfo.title media;
            MediaItem.media_type := MediaInfo.type media;
            MediaItem.added_at := MediaInfo.addedAt media;
            MediaItem.agent_matched := Some (LibraryConfig.agent_name config);
            MediaItem.match_successful := success;
            MediaItem.error_message := if negb success then Some message else None |} in
       (if negb success
        then assign (fun s => set_total_errors (total_errors s + 1) s)
        else assign (fun s => set_total_matched (total_matched s + 1) s)) ;;;
       session_add media_item
   end)%st.

(** The loop over the recent items, each in its [try]. *)
Definition media_loop (config : LibraryConfig.t) (recent_media : list MediaInfo.t)
  : St.M world unit :=
  St.for_each recent_media
    (fun media =>
       St.try_except (process_media config media)
         [([C_Exception],
           fun _ => assign (fun s => set_total_errors (total_errors s + 1) s))]).

(** The body of the loop over the enabled libraries (inside its [try]);
    its first line reads [config.library_name] for the log. *)
Definition scan_library (config : LibraryConfig.t) : St.M world unit :=
  (loaded ;;;
   t <- now ;;
   recent_media <- on_client (PlexClient.get_recent_media E
                                (LibraryConfig.library_key config) 24 t) ;;
   assign (fun s => set_total_media_found
                      (total_media_found s + Z.of_nat (List.length recent_media)) s) ;;;
   media_loop config recent_media)%st.

(** The loop over the enabled libraries; the handler too reads
    [config.library_name] for the log, before it counts the error. *)
Definition library_loop (configs : list LibraryConfig.t) : St.M world unit :=
  St.for_each configs
    (fun config =>
       St.try_except (scan_library config)
         [([C_Exception],
           fun _ =>
             (loaded ;;;
              assign (fun s => set_total_errors (total_errors s + 1) s))%st)]).

(** [LibraryConfig.query.filter_by(enabled=True).all()] *)
Definition enabled_configs (d : Database) : list LibraryConfig.t :=
  filter LibraryConfig.enabled (library_configs d).

(** The lines that update the scan log once the loops are over, and the
    commit. *)
Definition report : St.M world unit :=
  (found <- read total_media_found ;;
   update_scan_log (ScanLog.set_total_media_found found) ;;;
   matched <- read total_matched ;;
   update_scan_log (ScanLog.set_total_matched matched) ;;;
   errors <- read total_errors ;;
   update_scan_log (ScanLog.set_total_errors errors) ;;;
   update_scan_log (ScanLog.set_status "completed") ;;;
   t <- now ;;
   update_scan_log (ScanLog.set_scan_completed_at t) ;;;
   commit)%st.

(** The outer [try] block. *)
Definition scan_body : St.M world unit :=
  (assign (set_plex_client (PlexClient.init E)) ;;;
   connected <- on_client (PlexClient.connect E) ;;
   if negb connected then
     update_scan_log (ScanLog.set_status "failed") ;;;
     update_scan_log (ScanLog.set_error_message "Failed to connect to Plex server") ;;;
     t <- now ;;
     update_scan_log (ScanLog.set_scan_completed_at t) ;;;
     commit
   else
     configs <- query enabled_configs ;;
     update_scan_log (ScanLog.set_total_libraries (Z.of_nat (List.length configs))) ;;;
     assign (set_total_media_found 0) ;;;
     assign (set_total_matched 0) ;;;
     assign (set_total_errors 0) ;;;
     library_loop configs ;;;
     report)%st.

(** The handler of the outer [try]. *)
Definition on_fatal (e : exn) : St.M world unit :=
  (update_scan_log (ScanLog.set_status "failed") ;;;
   update_scan_log (ScanLog.set_error_message (str e)) ;;;
   t <- now ;;
   update_scan_log (ScanLog.set_scan_completed_at t) ;;;
   commit)%st.

Definition scan_libraries : St.M world unit :=
  (t <- now ;;
   assign (set_scan_log (ScanLog.new t)) ;;;
   commit ;;;
   St.try_except scan_body [([C_Exception], on_fatal)])%st.

(** The state in which [scan_libraries] is entered on the database [d]: a
    new session, nothing committed yet, the clock not yet read; the locals
    hold nothing the routine reads before it assigns them. *)
Definition entry (d : Database) : world :=
  {| orm := {| stored := d; pending := []; inactive := false |};
     frame := {| db := d;
                 plex_client := PlexClient.init E;
                 scan_log := ScanLog.new 0;
                 committed := [];
                 ticks := 0%nat;
                 total_media_found := 0;
                 total_matched := 0;
                 total_errors := 0 |} |}.

(** The end of [with app.app_context()]: the session is removed, and what
    it had not committed is rolled back. *)
Definition leave (w : world) : state := set_db (stored (orm w)) (frame w).

Definition run_scan (d : Database) : result unit * state :=
  let (r, w) := scan_libraries (entry d) in (r, leave w).

End Scan.

End Scheduler.

(* ------------------------------------------------------------------------- *)
(** * Notions used in the statements *)

(** A client that has completed its handshake. *)
Definition connected (c : PlexClient.t) : Prop :=
  exists info, PlexClient.server_info c = Some info.

(** The list [get_recent_media] returns on the client [c]. *)
Definition recent (E : Env) (c : PlexClient.t) (library_key : string)
           (hours now : Z) : list MediaInfo.t :=
  match fst (PlexClient.get_recent_media E library_key hours now c) with
  | Ok l => l
  | Raise _ => []
  end.

(** The pair [match_with_agent] returns on the client [c]. *)
Definition reconcile (E : Env) (c : PlexClient.t) (library_key : string)
           (media_key : option string) (agent_name : string) : bool * string :=
  match fst (PlexClient.match_with_agent E library_key media_key agent_name c) with
  | Ok v => v
  | Raise _ => (false, "")
  end.

(** The title and identifier [match_with_agent] reads off the lookup
    response for the item [media_key]. *)
Definition looked_up (media_root : Element) (media_key : option string)
  : string * option string :=
  match find (fun item => opt_string_eqb (get item "key") media_key)
             (media_elements media_root) with
  | Some item => (get_default item "title" "Unknown", Some (get_default item "guid" ""))
  | None => ("Unknown", None)
  end.

(** What one item of a library response adds to the listing whose cutoff is
    [cutoff_timestamp]: the loop body of [get_recent_media] run on an empty
    list. *)
Definition window_entry (E : Env) (c : PlexClient.t) (cutoff_timestamp : Z)
           (item : Element) : list MediaInfo.t :=
  match PlexClient.recent_item E c cutoff_timestamp [] item with
  | Ok l => l
  | Raise _ => []
  end.

(* ------------------------------------------------------------------------- *)
(** * Concrete servers, for the examples *)

Module Scenario.

Fixpoint digits (acc : Z) (s : string) : option Z :=
  match s with
  | EmptyString => Some acc
  | String ch rest =>
      let n := Z.of_nat (nat_of_ascii ch) in
      if (48 <=? n) && (n <=? 57) then digits (10 * acc + (n - 48)) rest else None
  end.

(** [int(s)] on a string of ASCII digits. *)
Definition decimal (s : string) : option Z :=
  match s with
  | EmptyString => None
  | _ => digits 0 s
  end.

(** A request table: the answer listed for the path, else a 404. *)
Fixpoint route {A} (table : list (string * result A)) (path : string) : result A :=
  match table with
  | [] => Raise (HTTPError 404 "404 Client Error: Not Found")
  | (p, r) :: rest => if (p =? path)%string then r else route rest path
  end.

Definition env (token : string) (gets : list (string * result Element))
           (puts : list (string * result unit)) : Env :=
  {| PLEX_TOKEN := token;
     TZ := "UTC";
     known_zone := fun _ => true;
     py_int := decimal;
     fromtimestamp := fun ts => Ok ts;
     http_get := route gets;
     http_put := fun path _ => route puts path;
     scheduler_next_run := Ok "12:00" |}.

Definition server_root : Element :=
  Elem "MediaContainer"
       [("friendlyName", "home"); ("version", "1.40"); ("platform", "Linux")] [].

Definition video (key title added_at guid : string) : Element :=
  Elem "Video"
       [("key", key); ("title", title); ("type", "movie");
        ("addedAt", added_at); ("guid", guid)] [].

Definition container (items : list Element) : Element :=
  Elem "MediaContainer" [("title1", "Movies")] items.

Definition candidate (guid name : string) : Element :=
  Elem "SearchResult" [("guid", guid); ("name", name)] [].

Definition refused : exn := RequestException "Connection refused".

(** A client that has shaken hands with a server in zone UTC. *)
Definition client : PlexClient.t :=
  {| PlexClient.plex_token := "token";
     PlexClient.server_info :=
       Some {| ServerInfo.friendlyName := "home";
               ServerInfo.version := "1.40";
               ServerInfo.platform := "Linux" |};
     PlexClient.server_timezone := Some "UTC" |}.

(** An unmatched item whose candidate listing answers 404. *)
Definition env_no_matches_endpoint : Env :=
  env "token"
      [("/", Ok server_root);
       ("/library/metadata/7",
        Ok (container [video "/library/metadata/7" "Foo" "1000" "plex://internal"]))]
      [].

(** The scenario of the specification: one unmatched item and one candidate. *)
Definition env_one_candidate : Env :=
  env "token"
      [("/", Ok server_root);
       ("/library/sections/5/all",
        Ok (container [video "/lib/5/x1" "x1" "996400" "plex://internal"]));
       ("/lib/5/x1", Ok (container [video "/lib/5/x1" "x1" "996400" "plex://internal"]));
       ("/lib/5/x1/matches", Ok (container [candidate "tmdb://999" "Foo"]))]
      [("/lib/5/x1/match", Ok tt)].


Definition library (id : Z) (key name : string) : LibraryConfig.t :=
  {| LibraryConfig.id := id;
     LibraryConfig.library_key := key;
     LibraryConfig.library_name := name;
     LibraryConfig.library_type := "movie";
     LibraryConfig.agent_name := "TheMovieDB";
     LibraryConfig.enabled := true |}.

(** The library of the scenario, nothing processed yet. *)
Definition db_one_library : Database :=
  {| library_configs := [library 1 "5" "Movies"]; media_items := [] |}.

(** Three enabled libraries, nothing processed yet. *)
Definition db_three_libraries : Database :=
  {| library_configs := [library 1 "1" "Movies"; library 2 "2" "Shows";
                         library 3 "3" "Concerts"];
     media_items := [] |}.

(** The first and the third library each hold one matched item inside the
    window; listing the second fails with a connection error. *)
Definition env_second_library_down : Env :=
  env "token"
      [("/", Ok server_root);
       ("/library/sections/1/all",
        Ok (container [video "/library/metadata/11" "A" "990000" "imdb://tt11"]));
       ("/library/sections/2/all", Raise refused);
       ("/library/sections/3/all",
        Ok (container [video "/library/metadata/31" "C" "995000" "tvdb://31"]));
       ("/library/metadata/11",
        Ok (container [video "/library/metadata/11" "A" "990000" "imdb://tt11"]));
       ("/library/metadata/31",
        Ok (container [video "/library/metadata/31" "C" "995000" "tvdb://31"]))]
      [("/library/metadata/11/refresh", Ok tt);
       ("/library/metadata/31/refresh", Ok tt)].

(** No credential token; the server itself would answer. *)
Definition env_no_token : Env :=
  env "" [("/", Ok server_root)] [].

(** A token, and a server that refuses the connection. *)
Definition env_refused : Env :=
  env "token" [("/", Raise refused)] [].

(** A scan that runs while the clock reads [t]. *)
Definition at_time (t : Z) : nat -> Z := fun _ => t.

End Scenario.

(* ------------------------------------------------------------------------- *)
(** * The effect of a scan on the ledger and the counters

    The ledger is the list of [MediaItem] rows; a tally is the ledger with
    the three counters of [scan_libraries].  The functions below say what
    the loops of a scan with the connected client [c] do to a tally as long
    as the table takes the rows; they are tied to [scan_libraries] by the
    lemmas [library_loop_run] and [run_scan_cases], which also say what
    becomes of a scan when the table refuses a row. *)

Module Tally.
Record t : Type := {
  ledger : list MediaItem.t;
  found : Z;
  matched : Z;
  errors : Z
}.

(** The ledger as found, the counters at zero. *)
Definition start (rows : list MediaItem.t) : t :=
  {| ledger := rows; found := 0; matched := 0; errors := 0 |}.
End Tally.

Definition tally_of (s : Scheduler.state) : Tally.t :=
  {| Tally.ledger := media_items (Scheduler.db s);
     Tally.found := Scheduler.total_media_found s;
     Tally.matched := Scheduler.total_matched s;
     Tally.errors := Scheduler.total_errors s |}.

Definition with_tally (T : Tally.t) (s : Scheduler.state) : Scheduler.state :=
  {| Scheduler.db := {| library_configs := library_configs (Scheduler.db s);
                        media_items := Tally.ledger T |};
     Scheduler.plex_client := Scheduler.plex_client s;
     Scheduler.scan_log := Scheduler.scan_log s;
     Scheduler.committed := Scheduler.committed s;
     Scheduler.ticks := Scheduler.ticks s;
     Scheduler.total_media_found := Tally.found T;
     Scheduler.total_matched := Tally.matched T;
     Scheduler.total_errors := Tally.errors T |}.

(** The tally of a scan that has flushed the rows [L]. *)
Definition tally_at (L : list MediaItem.t) (w : Scheduler.world) : Tally.t :=
  {| Tally.ledger := L;
     Tally.found := Scheduler.total_media_found (Scheduler.frame w);
     Tally.matched := Scheduler.total_matched (Scheduler.frame w);
     Tally.errors := Scheduler.total_errors (Scheduler.frame w) |}.

(** The world of a scan whose session is sound, that has flushed the rows
    [L], holds the rows [p] still to flush, has counted what [T] says and
    has read the clock [k] times more than in [w]. *)
Definition tracking (L p : list MediaItem.t) (T : Tally.t) (k : nat)
           (w : Scheduler.world) : Scheduler.world :=
  {| Scheduler.orm := {| Scheduler.stored := Scheduler.stored (Scheduler.orm w);
                         Scheduler.pending := p;
                         Scheduler.inactive := false |};
     Scheduler.frame :=
       Scheduler.set_ticks (Scheduler.ticks (Scheduler.frame w) + k)%nat
         (with_tally {| Tally.ledger := L;
                        Tally.found := Tally.found T;
                        Tally.matched := Tally.matched T;
                        Tally.errors := Tally.errors T |}
                     (Scheduler.frame w)) |}.

(** The world in which a scan of the database [d] whose handshake gave the
    client [c] enters the loop over the libraries. *)
Definition at_libraries (clock : nat -> Z) (d : Database) (c : PlexClient.t)
  : Scheduler.world :=
  {| Scheduler.orm := {| Scheduler.stored := d;
                         Scheduler.pending := [];
                         Scheduler.inactive := false |};
     Scheduler.frame :=
       {| Scheduler.db := d;
          Scheduler.plex_client := c;
          Scheduler.scan_log :=
            ScanLog.set_total_libraries
              (Z.of_nat (List.length (Scheduler.enabled_configs d)))
              (ScanLog.new (clock 0%nat));
          Scheduler.committed := [ScanLog.new (clock 0%nat)];
          Scheduler.ticks := 1;
          Scheduler.total_media_found := 0;
          Scheduler.total_matched := 0;
          Scheduler.total_errors := 0 |} |}.

(** The next flush of the session raises. *)
Definition doomed (w : Scheduler.world) : Prop :=
  Scheduler.inactive (Scheduler.orm w) = true \/
  Scheduler.insert_all (media_items (Scheduler.db (Scheduler.frame w)))
                       (Scheduler.pending (Scheduler.orm w)) = None.

(** Nothing was committed between [w] and [w']. *)
Definition uncommitted (w w' : Scheduler.world) : Prop :=
  Scheduler.stored (Scheduler.orm w') = Scheduler.stored (Scheduler.orm w) /\
  Scheduler.committed (Scheduler.frame w') = Scheduler.committed (Scheduler.frame w).

(** How a part of a scan ends once the session is doomed: it returns with
    the session still doomed, or it raises with the session inactive. *)
Definition ends_doomed {A} (out : result A * Scheduler.world) : Prop :=
  (exists a, fst out = Ok a /\ doomed (snd out)) \/
  (exists e, fst out = Raise e /\ Scheduler.inactive (Scheduler.orm (snd out)) = true).

(** The rows of [rows'] after those of [rows] all hold a value in every
    column that must hold one. *)
Definition accepted (rows rows' : list MediaItem.t) : Prop :=
  exists new, rows' = (rows ++ new)%list /\ forallb Scheduler.not_null new = true.

(** Among the rows of [rows'] after those of [rows] there is one with an
    empty column that must hold a value. *)
Definition rejects (rows rows' : list MediaItem.t) : Prop :=
  exists new r, rows' = (rows ++ new)%list /\ In r new /\ Scheduler.not_null r = false.

Section Summary.

Variable E : Env.
Variable c : PlexClient.t.

(** The row recorded for a new item. *)
Definition media_row (config : LibraryConfig.t) (media : MediaInfo.t) : MediaItem.t :=
  let outcome := reconcile E c (LibraryConfig.library_key config)
                           (MediaInfo.key media) (LibraryConfig.agent_name config) in
  {| MediaItem.library_config_id := LibraryConfig.id config;
     MediaItem.plex_key := MediaInfo.key media;
     MediaItem.title := MediaInfo.title media;
     MediaItem.media_type := MediaInfo.type media;
     MediaItem.added_at := MediaInfo.addedAt media;
     MediaItem.agent_matched := Some (LibraryConfig.agent_name config);
     MediaItem.match_successful := fst outcome;
     MediaItem.error_message := if negb (fst outcome) then Some (snd outcome) else None |}.

Definition tally_media (config : LibraryConfig.t) (T : Tally.t) (media : MediaInfo.t)
  : Tally.t :=
  match Scheduler.existing_item (LibraryConfig.id config) (MediaInfo.key media)
                                (Tally.ledger T) with
  | Some _ => T
  | None =>
      let row := media_row config media in
      {| Tally.ledger := Tally.ledger T ++ [row];
         Tally.found := Tally.found T;
         Tally.matched :=
           if MediaItem.match_successful row then Tally.matched T + 1 else Tally.matched T;
         Tally.errors :=
           if MediaItem.match_successful row then Tally.errors T else Tally.errors T + 1 |}
  end.

(** One library, listed when the clock reads [now]. *)
Definition tally_library (now : Z) (config : LibraryConfig.t) (T : Tally.t) : Tally.t :=
  let recent_media := recent E c (LibraryConfig.library_key config) 24 now in
  fold_left (tally_media config) recent_media
            {| Tally.ledger := Tally.ledger T;
               Tally.found := Tally.found T + Z.of_nat (List.length recent_media);
               Tally.matched := Tally.matched T;
               Tally.errors := Tally.errors T |}.

(** The libraries in turn, the first listed at the [k]-th reading of the
    clock. *)
Fixpoint tally_libraries (clock : nat -> Z) (k : nat) (configs : list LibraryConfig.t)
         (T : Tally.t) : Tally.t :=
  match configs with
  | [] => T
  | config :: rest =>
      tally_libraries clock (S k) rest (tally_library (clock k) config T)
  end.

(** The item carries a key, a title and a type, the columns of its row
    that must hold a value. *)
Definition item_complete (media : MediaInfo.t) : bool :=
  match MediaInfo.key media, MediaInfo.title media, MediaInfo.type media with
  | Some _, Some _, Some _ => true
  | _, _, _ => false
  end.

(** Every item the libraries list carries them, the first library listed at
    the [k]-th reading of the clock. *)
Fixpoint listings_complete (clock : nat -> Z) (k : nat) (configs : list LibraryConfig.t)
  : bool :=
  match configs with
  | [] => true
  | config :: rest =>
      forallb item_complete (recent E c (LibraryConfig.library_key config) 24 (clock k))
      && listings_complete clock (S k) rest
  end.

(** The number of items inside the window of each library, added up. *)
Fixpoint window_sizes (clock : nat -> Z) (k : nat) (configs : list LibraryConfig.t) : Z :=
  match configs with
  | [] => 0
  | config :: rest =>
      Z.of_nat (List.length (recent E c (LibraryConfig.library_key config) 24 (clock k)))
      + window_sizes clock (S k) rest
  end.

End Summary.

(** The rows of a ledger whose reconciliation succeeded, and failed. *)
Definition count_matched (rows : list MediaItem.t) : Z :=
  Z.of_nat (List.length (filter MediaItem.match_successful rows)).

Definition count_failed (rows : list MediaItem.t) : Z :=
  Z.of_nat (List.length (filter (fun r => negb (MediaItem.match_successful r)) rows)).

(** The pair is in the ledger. *)
Definition recorded (config_id : Z) (key : option string) (rows : list MediaItem.t) : Prop :=
  exists r, Scheduler.existing_item config_id key rows = Some r.

(** The client a scan works with once its handshake succeeded. *)
Definition scan_client (E : Env) : PlexClient.t :=
  snd (PlexClient.connect E (PlexClient.init E)).

(** The handshake of a scan succeeds. *)
Definition handshake_ok (E : Env) : Prop :=
  fst (PlexClient.connect E (PlexClient.init E)) = Ok true.

(** [T'] is [T] with the rows [new] appended, the counters of matched and
    failed items raised by what [new] holds, and [found] raised by [n]. *)
Definition extends (T T' : Tally.t) (new : list MediaItem.t) (n : Z) : Prop :=
  Tally.ledger T' = (Tally.ledger T ++ new)%list /\
  Tally.found T' = Tally.found T + n /\
  Tally.matched T' = Tally.matched T + count_matched new /\
  Tally.errors T' = Tally.errors T + count_failed new.

(* ------------------------------------------------------------------------- *)
(** * Scans started while another is running

    [manual_scan] (routes.py) starts [scan_libraries] on a new thread each
    time it is requested, without looking whether a scan is running; the
    scheduler runs the same function for the recurring trigger.  The model
    below interleaves the executions at the two places where an execution
    meets the ledger: the query for an existing row, and the insertion of
    the row once the item is reconciled.  The table keeps the unique
    constraint of [MediaItem] on (library_config_id, plex_key): a row that
    would break it is rejected.  A recurring trigger is let to start an
    execution in any state; should the scheduler hold one back, the system
    has fewer interleavings than the model, not more. *)

Module Concurrent.

Inductive trigger : Type := Recurring | Manual.

(** One execution of [scan_libraries]: the listed items it still has to
    look at, and the row of the item it is reconciling, if any. *)
Record thread : Type := {
  work : list (LibraryConfig.t * MediaInfo.t);
  pending : option MediaItem.t
}.

Record system : Type := {
  threads : list thread;
  table : list MediaItem.t
}.

Inductive event : Type :=
| Trigger (tr : trigger) (listed : list (LibraryConfig.t * MediaInfo.t))
| Check (i : nat)
| Add (i : nat)
| Finish (i : nat).

(** An insertion under the unique constraint. *)
Definition insert_unique (r : MediaItem.t) (rows : list MediaItem.t) : list MediaItem.t :=
  match Scheduler.existing_item (MediaItem.library_config_id r) (MediaItem.plex_key r) rows with
  | Some _ => rows
  | None => rows ++ [r]
  end.

Definition replace_thread (i : nat) (t : thread) (ts : list thread) : list thread :=
  firstn i ts ++ t :: skipn (S i) ts.

Definition remove_thread (i : nat) (ts : list thread) : list thread :=
  firstn i ts ++ skipn (S i) ts.

Section Steps.

Variable E : Env.
Variable c : PlexClient.t.

(** One step of the system; [None] when the event cannot happen. *)
Definition exec (ev : event) (s : system) : option system :=
  match ev with
  | Trigger _ listed =>
      Some {| threads := threads s ++ [ {| work := listed; pending := None |} ];
              table := table s |}
  | Check i =>
      match nth_error (threads s) i with
      | Some {| work := (config, media) :: rest; pending := None |} =>
          match Scheduler.existing_item (LibraryConfig.id config) (MediaInfo.key media)
                                        (table s) with
          | Some _ =>
              Some {| threads := replace_thread i {| work := rest; pending := None |}
                                                (threads s);
                      table := table s |}
          | None =>
              Some {| threads :=
                        replace_thread i
                          {| work := rest;
                             pending := Some (media_row E c config media) |}
                          (threads s);
                      table := table s |}
          end
      | _ => None
      end
  | Add i =>
      match nth_error (threads s) i with
      | Some {| work := rest; pending := Some r |} =>
          Some {| threads := replace_thread i {| work := rest; pending := None |}
                                            (threads s);
                  table := insert_unique r (table s) |}
      | _ => None
      end
  | Finish i =>
      match nth_error (threads s) i with
      | Some {| work := []; pending := None |} =>
          Some {| threads := remove_thread i (threads s); table := table s |}
      | _ => None
      end
  end.

Fixpoint run (evs : list event) (s : system) : option system :=
  match evs with
  | [] => Some s
  | ev :: rest =>
      match exec ev s with
      | Some s' => run rest s'
      | None => None
      end
  end.

End Steps.

(** The number of executions of [scan_libraries] in progress. *)
Definition active (s : system) : nat := List.length (threads s).

(** No scan running, nothing processed yet. *)
Definition idle : system := {| threads := []; table := [] |}.

End Concurrent.

(** Two manual scans requested one after the other, both listing the item
    of the scenario before either has recorded it. *)
Module Race.

Definition item : MediaInfo.t :=
  {| MediaInfo.key := Some "/lib/5/x1";
     MediaInfo.title := Some "x1";
     MediaInfo.type := Some "movie";
     MediaInfo.addedAt := 996400;
     MediaInfo.addedAt_server := (996400, "UTC");
     MediaInfo.year := None;
     MediaInfo.summary := "" |}.

Definition listed : list (LibraryConfig.t * MediaInfo.t) :=
  [(Scenario.library 1 "5" "Movies", item)].

Definition row : MediaItem.t :=
  media_row Scenario.env_one_candidate Scenario.client
            (Scenario.library 1 "5" "Movies") item.

Definition two_requests : list Concurrent.event :=
  [Concurrent.Trigger Concurrent.Manual listed;
   Concurrent.Trigger Concurrent.Manual listed].

(** Both executions query the ledger before either inserts. *)
Definition both_check : list Concurrent.event :=
  two_requests ++ [Concurrent.Check 0; Concurrent.Check 1].

Definition to_the_end : list Concurrent.event :=
  both_check ++ [Concurrent.Add 0; Concurrent.Add 1;
                 Concurrent.Finish 0; Concurrent.Finish 0].

End Race.

(* ------------------------------------------------------------------------- *)
(** * config.py *)

Module Config.

(** [tz_name = os.getenv("TZ", "UTC")], then [pytz.timezone(tz_name)], and
    [pytz.UTC] when the name is unknown.  [env_TZ] is the variable, [None]
    when it is not set. *)
Definition TZ (known_zone : string -> bool) (env_TZ : option string) : string :=
  let tz_name := match env_TZ with
                 | Some v => v
                 | None => "UTC"
                 end in
  if known_zone tz_name then tz_name else "UTC".

End Config.

(* ------------------------------------------------------------------------- *)
(** * routes.py: the views that change or check the configuration

    A view takes the request and the database and gives a response and the
    database it leaves.  The response is what the view flashes and where it
    sends the browser, or the values it hands to [render_template]; the
    template itself is not part of the source.  [get_or_404] is [NotFound].
    The rows these views write meet the constraints of models.py (the
    fields are checked before, see [add_config_post]) and the database
    server is taken to answer, so the [except] around a commit is not
    entered. *)

Module Routes.

Record request : Type := {
  method : string;
  form : list (string * string)
}.

(** [request.form.get(k)] *)
Definition form_get (r : request) (k : string) : option string :=
  lookup_attr k (form r).

(** [k in request.form] *)
Definition form_has (r : request) (k : string) : bool :=
  match lookup_attr k (form r) with
  | Some _ => true
  | None => false
  end.

Inductive page : Type :=
| Redirect (endpoint : string)
| RenderAdd (libraries : list LibrarySummary.t) (next_run : string)
| RenderEdit (config : LibraryConfig.t) (next_run : string)
| RenderValidate (validation_results : list (LibraryConfig.t * bool * string))
                 (next_run : string)
| NotFound.

Record response : Type := {
  flashes : list (string * string);     (* message, category *)
  body : page
}.

(** [", ".join(words)] *)
Fixpoint join (words : list string) : string :=
  match words with
  | [] => ""
  | [w] => w
  | w :: rest => w ++ ", " ++ join rest
  end.

(** [LibraryConfig.query.get_or_404(config_id)] *)
Definition get_config (config_id : Z) (d : Database) : option LibraryConfig.t :=
  find (fun c => LibraryConfig.id c =? config_id) (library_configs d).

(** The table with the first row of that primary key replaced, or removed. *)
Fixpoint replace_config (config_id : Z) (v : LibraryConfig.t)
         (configs : list LibraryConfig.t) : list LibraryConfig.t :=
  match configs with
  | [] => []
  | c :: rest =>
      if LibraryConfig.id c =? config_id then v :: rest
      else c :: replace_config config_id v rest
  end.

Fixpoint remove_config (config_id : Z) (configs : list LibraryConfig.t)
  : list LibraryConfig.t :=
  match configs with
  | [] => []
  | c :: rest =>
      if LibraryConfig.id c =? config_id then rest
      else c :: remove_config config_id rest
  end.

Section Views.

Variable E : Env.

(** [add_config], GET: the libraries the server offers.  The arguments of
    [render_template] are evaluated before it is called, the call of
    [scheduler_next_run] among them. *)
Definition add_config_get : result response :=
  let (connect_result, client) := PlexClient.connect E (PlexClient.init E) in
  connected <- connect_result ;;
  if negb connected then
    Ok {| flashes :=
            [("Failed to connect to Plex server. Please check your PLEX_URL and PLEX_TOKEN environment variables.",
              "danger")];
          body := Redirect "config" |}
  else
    libraries <- fst (PlexClient.get_libraries E client) ;;
    match libraries with
    | [] =>
        Ok {| flashes :=
                [("No libraries found on Plex server. Please check your Plex server configuration.",
                  "warning")];
              body := Redirect "config" |}
    | _ =>
        next_run <- scheduler_next_run E ;;
        Ok {| flashes := []; body := RenderAdd libraries next_run |}
    end.

(** The names of the required fields the form leaves out or leaves empty. *)
Definition missing_fields (r : request) : list string :=
  (if truthy (form_get r "library_key") then [] else ["Library Key"]) ++
  (if truthy (form_get r "library_name") then [] else ["Library Name"]) ++
  (if truthy (form_get r "library_type") then [] else ["Library Type"]) ++
  (if truthy (form_get r "agent_name") then [] else ["Agent Name"]).

(** [add_config], POST.  [new_id] is the primary key the database gives
    the row. *)
Definition add_config_post (new_id : Z) (r : request) (d : Database)
  : response * Database :=
  let library_key := form_get r "library_key" in
  let library_name := form_get r "library_name" in
  let library_type := form_get r "library_type" in
  let agent_name := form_get r "agent_name" in
  if negb (truthy library_key && truthy library_name
           && truthy library_type && truthy agent_name) then
    ({| flashes := [("Missing required fields: " ++ join (missing_fields r), "danger")];
        body := Redirect "add_config" |}, d)
  else
    match find (fun c => (LibraryConfig.library_key c =? fstr library_key)%string)
               (library_configs d) with
    | Some _ =>
        ({| flashes := [("Configuration for this library already exists.", "warning")];
            body := Redirect "config" |}, d)
    | None =>
        let new_config :=
          {| LibraryConfig.id := new_id;
             LibraryConfig.library_key := fstr library_key;
             LibraryConfig.library_name := fstr library_name;
             LibraryConfig.library_type := fstr library_type;
             LibraryConfig.agent_name := fstr agent_name;
             LibraryConfig.enabled := true |} in
        ({| flashes := [("Configuration added for library: " ++ fstr library_name,
                         "success")];
            body := Redirect "config" |},
         {| library_configs := library_configs d ++ [new_config];
            media_items := media_items d |})
    end.

Definition add_config (new_id : Z) (r : request) (d : Database)
  : result response * Database :=
  if (method r =? "GET")%string then (add_config_get, d)
  else let (resp, d') := add_config_post new_id r d in (Ok resp, d').

(** [edit_config]: the page of a GET is rendered with the value of
    [scheduler_next_run()], as the page of [add_config] is. *)
Definition edit_config (config_id : Z) (r : request) (d : Database)
  : result response * Database :=
  match get_config config_id d with
  | None => (Ok {| flashes := []; body := NotFound |}, d)
  | Some config =>
      if (method r =? "GET")%string then
        (next_run <- scheduler_next_run E ;;
         Ok {| flashes := []; body := RenderEdit config next_run |}, d)
      else
        let config' :=
          {| LibraryConfig.id := LibraryConfig.id config;
             LibraryConfig.library_key := LibraryConfig.library_key config;
             LibraryConfig.library_name :=
               match form_get r "library_name" with
               | Some v => v
               | None => LibraryConfig.library_name config
               end;
             LibraryConfig.library_type := LibraryConfig.library_type config;
             LibraryConfig.agent_name :=
               match form_get r "agent_name" with
               | Some v => v
               | None => LibraryConfig.agent_name config
               end;
             LibraryConfig.enabled := form_has r "enabled" |} in
        (Ok {| flashes := [("Configuration updated for library: "
                              ++ LibraryConfig.library_name config', "success")];
               body := Redirect "config" |},
         {| library_configs := replace_config config_id config' (library_configs d);
            media_items := media_items d |})
  end.

(** [delete_config]: the row goes, and with it the media items of the
    library ([cascade='all, delete-orphan'] on [LibraryConfig.media_items]). *)
Definition delete_config (config_id : Z) (d : Database) : response * Database :=
  match get_config config_id d with
  | None => ({| flashes := []; body := NotFound |}, d)
  | Some config =>
      ({| flashes := [("Configuration deleted for library: "
                         ++ LibraryConfig.library_name config, "success")];
          body := Redirect "config" |},
       {| library_configs := remove_config config_id (library_configs d);
          media_items :=
            filter (fun row => negb (MediaItem.library_config_id row
                                     =? LibraryConfig.id config))
                   (media_items d) |})
  end.

(** The loop of [validate_configs]. *)
Fixpoint validate_each (configs : list LibraryConfig.t)
  : St.M PlexClient.t (list (LibraryConfig.t * bool * string)) :=
  match configs with
  | [] => St.ret []
  | config :: rest =>
      (outcome <- PlexClient.validate_library_config E (LibraryConfig.library_key config) ;;
       results <- validate_each rest ;;
       St.ret ((config, fst outcome, snd outcome) :: results))%st
  end.

Definition validate_configs (d : Database) : result response :=
  let configs := library_configs d in
  let (connect_result, client) := PlexClient.connect E (PlexClient.init E) in
  connected <- connect_result ;;
  if negb connected then
    Ok {| flashes :=
            [("Failed to connect to Plex server. Please check your PLEX_URL and PLEX_TOKEN.",
              "danger")];
          body := Redirect "config" |}
  else
    validation_results <- fst (validate_each configs client) ;;
    next_run <- scheduler_next_run E ;;
    Ok {| flashes := []; body := RenderValidate validation_results next_run |}.

End Views.

End Routes.

(* ------------------------------------------------------------------------- *)
(** * More notions used in the statements *)

(** Every media item belongs to a library of the database. *)
Definition no_orphans (d : Database) : Prop :=
  forall row, In row (media_items d) ->
              In (MediaItem.library_config_id row)
                 (map LibraryConfig.id (library_configs d)).

(** The list [get_libraries] returns on the client [c]. *)
Definition libraries_of (E : Env) (c : PlexClient.t) : list LibrarySummary.t :=
  match fst (PlexClient.get_libraries E c) with
  | Ok l => l
  | Raise _ => []
  end.

(** The pair [validate_library_config] returns on the client [c]. *)
Definition validation (E : Env) (c : PlexClient.t) (library_key : string) : bool * string :=
  match fst (PlexClient.validate_library_config E library_key c) with
  | Ok v => v
  | Raise _ => (false, "")
  end.

(** The zone [connect] settles on once the handshake request has
    succeeded: the [TimezoneName] preference when the preferences can be
    read and pytz knows the name, the local default otherwise. *)
Definition settled_zone (E : Env) (c : PlexClient.t) : string :=
  match PlexClient._make_request E c "/:/prefs" with
  | Ok prefs_root =>
      let pref := PlexClient.timezone_pref prefs_root in
      if truthy pref && known_zone E (fstr pref) then fstr pref else TZ E
  | Raise _ => TZ E
  end.

(** Newest first. *)
Definition newest_first (l : list MediaInfo.t) : Prop :=
  StronglySorted (fun a b => MediaInfo.addedAt a >= MediaInfo.addedAt b) l.

(** The entries stamped [t], in the order they have in [l]. *)
Definition stamped (t : Z) (l : list MediaInfo.t) : list MediaInfo.t :=
  filter (fun m => MediaInfo.addedAt m =? t) l.

(** [r] is the row a scan makes for an item that one of the libraries
    [configs] lists, the first of them being listed at reading [k] of the
    clock. *)
Definition row_of_listing (E : Env) (c : PlexClient.t) (clock : nat -> Z) (k : nat)
           (configs : list LibraryConfig.t) (r : MediaItem.t) : Prop :=
  exists i config media,
    nth_error configs i = Some config /\
    In media (recent E c (LibraryConfig.library_key config) 24 (clock (k + i)%nat)) /\
    r = media_row E c config media.

(** More concrete servers, for the examples. *)
Module Scenario2.

Definition setting (id value : string) : Element :=
  Elem "Setting" [("id", id); ("value", value)] [].

Definition directory (key title agent : string) : Element :=
  Elem "Directory" [("key", key); ("title", title); ("type", "movie"); ("agent", agent)] [].

(** A directory that names no agent. *)
Definition bare_directory (key title : string) : Element :=
  Elem "Directory" [("key", key); ("title", title); ("type", "show")] [].

(** A client that holds a token and has not shaken hands yet. *)
Definition fresh_client : PlexClient.t :=
  {| PlexClient.plex_token := "token";
     PlexClient.server_info := None;
     PlexClient.server_timezone := None |}.

(** pytz knows these two zones only. *)
Definition two_zones (name : string) : bool :=
  (name =? "UTC")%string || (name =? "Europe/Prague")%string.

(** A server whose preferences name a zone, with two libraries, of which the
    first exists and the second does not. *)
Definition env_prefs (zone : string) : Env :=
  {| PLEX_TOKEN := "token";
     TZ := Config.TZ two_zones (Some "Mars/Olympus");
     known_zone := two_zones;
     py_int := Scenario.decimal;
     fromtimestamp := fun ts => Ok ts;
     http_get :=
       Scenario.route
         [("/", Ok (Elem "MediaContainer" [("friendlyName", "home")] []));
          ("/:/prefs",
           Ok (Elem "MediaContainer" []
                    [setting "FriendlyName" "home"; setting "TimezoneName" zone]));
          ("/library/sections",
           Ok (Elem "MediaContainer" []
                    [directory "5" "Movies" "tv.plex.agents.movie";
                     bare_directory "6" "Shows"]));
          ("/library/sections/5", Ok (Elem "MediaContainer" [("title1", "Movies")] []));
          ("/library/sections/7", Raise (RequestException "Read timed out"))];
     http_put := fun path _ => Scenario.route [] path;
     scheduler_next_run := Ok "12:00" |}.

(** What reading the next run time of a job that is not there raises. *)
Definition no_job : exn :=
  Exception "AttributeError: 'NoneType' object has no attribute 'next_run_time'".

(** The same server, in a process where the call of [scheduler_next_run]
    raises. *)
Definition env_no_next_run : Env :=
  let E := env_prefs "UTC" in
  {| PLEX_TOKEN := PLEX_TOKEN E;
     TZ := TZ E;
     known_zone := known_zone E;
     py_int := py_int E;
     fromtimestamp := fromtimestamp E;
     http_get := http_get E;
     http_put := http_put E;
     scheduler_next_run := Raise no_job |}.

(** [datetime.fromtimestamp]: a stamp past the year 9999 is a [ValueError],
    one past the range of [time_t] an [OverflowError]. *)
Definition overflowing (ts : Z) : result Z :=
  if ts <? 253402300800 then Ok ts
  else if ts <? 9223372036854775808 then Raise (ValueError "year is out of range")
  else Raise (Exception "OverflowError: timestamp out of range for platform time_t").

Definition long_summary : string :=
  let s16 := "0123456789abcdef" in
  let s64 := (s16 ++ s16 ++ s16 ++ s16)%string in
  (s64 ++ s64 ++ s64 ++ s64)%string.

(** 150 times the letter e with an acute accent, two bytes each. *)
Definition accented_summary : string :=
  let e := String "195" (String "169" EmptyString) in
  let e10 := (e ++ e ++ e ++ e ++ e ++ e ++ e ++ e ++ e ++ e)%string in
  let e50 := (e10 ++ e10 ++ e10 ++ e10 ++ e10)%string in
  (e50 ++ e50 ++ e50)%string.

Definition described (key added_at summary : string) : Element :=
  Elem "Video" [("key", key); ("title", key); ("type", "movie");
                ("addedAt", added_at); ("summary", summary)] [].

(** Library 5 holds three items inside the window, two of them with the same
    stamp, one outside it, one with no stamp and one with a stamp that is no
    number; library 6 holds one item inside the window and one whose stamp
    overflows; library 7 holds an item at the edge of the window, one a
    second before it, one inside and one stamped past the year 9999. *)
Definition env_listing : Env :=
  {| PLEX_TOKEN := "token";
     TZ := "UTC";
     known_zone := fun _ => true;
     py_int := Scenario.decimal;
     fromtimestamp := overflowing;
     http_get :=
       Scenario.route
         [("/", Ok Scenario.server_root);
          ("/library/sections/5/all",
           Ok (Scenario.container
                 [described "/a" "950000" "short";
                  described "/b" "990000" long_summary;
                  described "/c" "950000" "";
                  described "/old" "900000" "";
                  Elem "Video" [("key", "/nostamp")] [];
                  described "/nan" "yesterday" ""]));
          ("/library/sections/6/all",
           Ok (Scenario.container
                 [described "/d" "950000" "";
                  described "/e" "100000000000000000000" ""]));
          ("/library/sections/7/all",
           Ok (Scenario.container
                 [described "/x" "913600" "";
                  described "/far" "1000000000000" "";
                  described "/y" "990000" accented_summary;
                  described "/z" "913599" ""]))];
     http_put := fun path _ => Scenario.route [] path;
     scheduler_next_run := Ok "12:00" |}.

(** An unmatched item with two candidates; a matched item; an item whose
    first candidate has no identifier; an item whose candidate listing times
    out. *)
Definition env_matching : Env :=
  Scenario.env "token"
    [("/", Ok Scenario.server_root);
     ("/m/1", Ok (Scenario.container [Scenario.video "/m/1" "One" "1" "plex://x"]));
     ("/m/1/matches",
      Ok (Scenario.container [Scenario.candidate "tmdb://1" "First";
                              Scenario.candidate "tmdb://2" "Second"]));
     ("/m/2", Ok (Scenario.container [Scenario.video "/m/2" "Two" "1" "imdb://tt2"]));
     ("/m/3", Ok (Scenario.container [Scenario.video "/m/3" "Three" "1" ""]));
     ("/m/3/matches",
      Ok (Scenario.container [Elem "SearchResult" [("name", "Nameless")] []]));
     ("/m/4", Ok (Scenario.container [Scenario.video "/m/4" "Four" "1" "local://4"]));
     ("/m/4/matches", Raise (RequestException "Read timed out"));
     ("/m/5", Ok (Scenario.container []));
     ("/m/5/matches", Ok (Scenario.container []))]
    [("/m/1/match", Ok tt); ("/m/2/refresh", Ok tt)].

(** An item the server sends without a title. *)
Definition untitled (key added_at guid : string) : Element :=
  Elem "Video" [("key", key); ("type", "movie"); ("addedAt", added_at); ("guid", guid)] [].

(** Library 5 holds two matched items: one with a title, and one without,
    stamped 913600. *)
Definition env_untitled : Env :=
  Scenario.env "token"
    [("/", Ok Scenario.server_root);
     ("/library/sections/5/all",
      Ok (Scenario.container [untitled "/u" "913600" "imdb://tt1";
                              Scenario.video "/v" "V" "990000" "imdb://tt2"]));
     ("/u", Ok (Scenario.container [untitled "/u" "913600" "imdb://tt1"]));
     ("/v", Ok (Scenario.container [Scenario.video "/v" "V" "990000" "imdb://tt2"]))]
    [("/u/refresh", Ok tt); ("/v/refresh", Ok tt)].

(** Library 5 holds an unmatched item with a candidate, two matched items
    and an unmatched item whose candidate listing times out. *)
Definition env_counters : Env :=
  Scenario.env "token"
    [("/", Ok Scenario.server_root);
     ("/library/sections/5/all",
      Ok (Scenario.container [Scenario.video "/m/1" "One" "990000" "plex://x";
                              Scenario.video "/m/2" "Two" "980000" "imdb://tt2";
                              Scenario.video "/m/3" "Three" "960000" "imdb://tt3";
                              Scenario.video "/m/4" "Four" "970000" "local://4"]));
     ("/m/1", Ok (Scenario.container [Scenario.video "/m/1" "One" "990000" "plex://x"]));
     ("/m/1/matches", Ok (Scenario.container [Scenario.candidate "tmdb://1" "First"]));
     ("/m/2", Ok (Scenario.container [Scenario.video "/m/2" "Two" "980000" "imdb://tt2"]));
     ("/m/3", Ok (Scenario.container [Scenario.video "/m/3" "Three" "960000" "imdb://tt3"]));
     ("/m/4", Ok (Scenario.container [Scenario.video "/m/4" "Four" "970000" "local://4"]));
     ("/m/4/matches", Raise (RequestException "Read timed out"))]
    [("/m/1/match", Ok tt); ("/m/2/refresh", Ok tt); ("/m/3/refresh", Ok tt)].

(** The library of [env_counters], its second item recorded already. *)
Definition db_counters : Database :=
  {| library_configs := [Scenario.library 1 "5" "Movies"];
     media_items :=
       [ {| MediaItem.library_config_id := 1;
            MediaItem.plex_key := Some "/m/2";
            MediaItem.title := Some "Two";
            MediaItem.media_type := Some "movie";
            MediaItem.added_at := 980000;
            MediaItem.agent_matched := Some "TheMovieDB";
            MediaItem.match_successful := true;
            MediaItem.error_message := None |} ] |}.

(** A form sent by POST. *)
Definition post (form : list (string * string)) : Routes.request :=
  {| Routes.method := "POST"; Routes.form := form |}.

(** The form of the page that adds a library. *)
Definition add_form (key name : string) : Routes.request :=
  post [("library_key", key); ("library_name", name);
        ("library_type", "movie"); ("agent_name", "TheMovieDB")].

(** The three libraries after a scan that recorded one item of the first and
    one of the third. *)
Definition db_scanned : Database :=
  Scheduler.db (snd (Scheduler.run_scan Scenario.env_second_library_down
                       (Scenario.at_time 1000000) Scenario.db_three_libraries)).

(** Three configurations for the server of [env_prefs]. *)
Definition db_prefs : Database :=
  {| library_configs := [Scenario.library 1 "5" "Movies"; Scenario.library 2 "6" "Shows";
                         Scenario.library 3 "7" "Music"];
     media_items := [] |}.

End Scenario2.
(* ------------------------------------------------------------------------- *)
(** * Facts about strings *)

Lemma prefix_app (p s : string) :
  String.prefix p s = true <-> exists rest, s = (p ++ rest)%string.
Proof.
  revert s; induction p as [|c p IH]; intros s; simpl.
  - split; [intros _; exists s; reflexivity | destruct s; reflexivity].
  - destruct s as [|d s].
    + split; [discriminate | intros [rest H]; discriminate].
    + simpl. destruct (Ascii.ascii_dec c d) as [->|Hcd].
      * rewrite IH. split; intros [rest H]; exists rest.
        -- now rewrite H.
        -- now inversion H.
      * split; [discriminate | intros [rest H]; inversion H; congruence].
Qed.

(* ------------------------------------------------------------------------- *)
(** * Classification theorems *)

Lemma is_guid_matched_false_iff (g : option string) :
  is_guid_matched g = false <->
  g = None \/ g = Some "" \/
  (exists rest, g = Some ("plex://" ++ rest)%string) \/
  (exists rest, g = Some ("local://" ++ rest)%string).
Proof.
  unfold is_guid_matched, truthy.
  destruct g as [s|]; [|split; auto].
  destruct (String.eqb_spec s "") as [->|Hne]; simpl.
  - split; auto.
  - destruct (String.prefix "plex://" s) eqn:Hp; simpl.
    + apply prefix_app in Hp as [rest ->].
      split; [intros _; right; right; left; exists rest; reflexivity | reflexivity].
    + destruct (String.prefix "local://" s) eqn:Hl; simpl.
      * apply prefix_app in Hl as [rest ->].
        split; [intros _; right; right; right; exists rest; reflexivity | reflexivity].
      * split; [discriminate|].
        intros [H|[H|[[rest H]|[rest H]]]]; try discriminate.
        -- inversion H; contradiction.
        -- inversion H as [H'].
           assert (String.prefix "plex://" s = true)
             by (apply prefix_app; exists rest; assumption).
           congruence.
        -- inversion H as [H'].
           assert (String.prefix "local://" s = true)
             by (apply prefix_app; exists rest; assumption).
           congruence.
Qed.

(** C1. The classification is a function of the identifier alone: an
    identifier is Unmatched ([is_guid_matched] is false) exactly when it is
    missing, empty, or starts with the server's own "plex://" or "local://"
    namespace, and Matched ([is_guid_matched] is true) otherwise; "",
    "plex://abc" and "local://x" are Unmatched, "imdb://tt123" and
    "tvdb://55" are Matched. *)
Theorem classification_exact :
  (forall g : option string,
      is_guid_matched g = false <->
      g = None \/ g = Some "" \/
      (exists rest, g = Some ("plex://" ++ rest)%string) \/
      (exists rest, g = Some ("local://" ++ rest)%string)) /\
  (forall g : option string,
      is_guid_matched g = true <->
      ~ (g = None \/ g = Some "" \/
         (exists rest, g = Some ("plex://" ++ rest)%string) \/
         (exists rest, g = Some ("local://" ++ rest)%string))) /\
  is_guid_matched (Some "") = false /\
  is_guid_matched (Some "plex://abc") = false /\
  is_guid_matched (Some "local://x") = false /\
  is_guid_matched (Some "imdb://tt123") = true /\
  is_guid_matched (Some "tvdb://55") = true.
Proof.
  split; [|split; [|repeat split]].
  - exact is_guid_matched_false_iff.
  - intros g. rewrite <- is_guid_matched_false_iff.
    destruct (is_guid_matched g); split; congruence.
Qed.

(** C9. Any non-empty identifier that does not start with exactly "plex://"
    or "local://" is Matched, whether or not it names a provider: "abc" and
    "file:///x" are Matched, and so is an identifier that differs from the
    two prefixes only by case or by a missing slash. *)
Theorem classification_other_strings_matched :
  forall s : string,
    s <> "" ->
    (forall rest, s <> ("plex://" ++ rest)%string) ->
    (forall rest, s <> ("local://" ++ rest)%string) ->
    is_guid_matched (Some s) = true.
Proof.
  intros s Hne Hp Hl.
  destruct (is_guid_matched (Some s)) eqn:E; [reflexivity|].
  apply is_guid_matched_false_iff in E.
  destruct E as [E|[E|[[rest E]|[rest E]]]]; try discriminate;
    inversion E as [E']; exfalso.
  - now apply Hne.
  - now apply (Hp rest).
  - now apply (Hl rest).
Qed.

Lemma classification_other_strings_matched_witness :
  is_guid_matched (Some "abc") = true /\
  is_guid_matched (Some "file:///x") = true /\
  is_guid_matched (Some "PLEX://abc") = true /\
  is_guid_matched (Some "plex:/abc") = true.
Proof.
  split; [|split; [|split]];
    (apply classification_other_strings_matched;
     [discriminate | intros rest; simpl; discriminate
      | intros rest; simpl; discriminate]).
Defined.

(* ------------------------------------------------------------------------- *)
(** * Exceptions: what a handler list catches *)

Lemma Ok_inj {A} (a b : A) : Ok a = Ok b -> a = b.
Proof. intros H. injection H as H. exact H. Qed.

Lemma catches_Exception (e : exn) : catches [C_Exception] e = true.
Proof. destruct e; reflexivity. Qed.

(** A [try] whose last clause is [except Exception] with a handler that
    returns never lets an exception out. *)
Lemma try_except_total {A} (body : result A) (h1 h2 : exn -> A) (cs : list exn_class) :
  exists v, Py.try_except body [(cs, fun e => Ok (h1 e)); ([C_Exception], fun e => Ok (h2 e))] = Ok v.
Proof.
  destruct body as [a|e]; cbn [Py.try_except Py.dispatch]; [eauto|].
  destruct (catches cs e); [eauto|].
  rewrite catches_Exception. eauto.
Qed.

(* ------------------------------------------------------------------------- *)
(** * The handshake *)

Section ClientFacts.

Variable E : Env.

Lemma connect_fails (c : PlexClient.t) (e : exn) :
  PlexClient._make_request E c "/" = Raise e ->
  PlexClient.connect E c = (Ok false, c).
Proof.
  intros H. unfold PlexClient.connect, St.try_except, St.bind, St.gets, St.lift.
  rewrite H. simpl. destruct e; reflexivity.
Qed.

Lemma connect_succeeds (c : PlexClient.t) (root : Element) :
  PlexClient._make_request E c "/" = Ok root ->
  exists c', PlexClient.connect E c = (Ok true, c') /\ connected c' /\
             PlexClient.plex_token c' = PlexClient.plex_token c /\
             (exists zone, PlexClient.server_timezone c' = Some zone).
Proof.
  intros H.
  unfold PlexClient.connect, St.try_except, St.bind, St.gets, St.lift, St.modify, St.ret.
  rewrite H. cbn [fst snd].
  unfold PlexClient.read_timezone, St.bind, St.gets, St.lift, St.modify.
  match goal with
  | |- context [PlexClient._make_request E ?c' "/:/prefs"] =>
      destruct (PlexClient._make_request E c' "/:/prefs") as [prefs|e]
  end.
  - destruct (truthy (PlexClient.timezone_pref prefs)).
    + unfold PlexClient.pytz_timezone.
      destruct (known_zone E _); simpl.
      * eexists; split; [reflexivity|]. unfold connected; simpl. eauto.
      * eexists; split; [reflexivity|]. unfold connected; simpl. eauto.
    + simpl. eexists; split; [reflexivity|]. unfold connected; simpl. eauto.
  - cbn [St.dispatch]. rewrite catches_Exception.
    eexists; split; [reflexivity|]. unfold connected; simpl. eauto.
Qed.

Lemma connect_total (c : PlexClient.t) :
  exists b c', PlexClient.connect E c = (Ok b, c') /\
               (b = true -> connected c').
Proof.
  destruct (PlexClient._make_request E c "/") as [root|e] eqn:H.
  - destruct (connect_succeeds c H) as (c' & Hc & Hconn & _). eauto.
  - rewrite (connect_fails c H). exists false, c. split; [reflexivity|discriminate].
Qed.

Lemma ensure_connected_connected (c : PlexClient.t) :
  connected c -> PlexClient.ensure_connected E c = (Ok true, c).
Proof.
  intros [info H]. unfold PlexClient.ensure_connected, St.bind, St.gets.
  rewrite H. reflexivity.
Qed.

Lemma ensure_connected_total (c : PlexClient.t) :
  exists b c', PlexClient.ensure_connected E c = (Ok b, c') /\
               (b = true -> connected c').
Proof.
  unfold PlexClient.ensure_connected, St.bind, St.gets.
  destruct (PlexClient.server_info c) as [info|] eqn:H.
  - exists true, c. split; [reflexivity|]. intros _. exists info. exact H.
  - apply connect_total.
Qed.

(* ------------------------------------------------------------------------- *)
(** * [get_recent_media] and [match_with_agent] return *)

Lemma get_recent_media_total (library_key : string) (hours now : Z) (c : PlexClient.t) :
  exists l c', PlexClient.get_recent_media E library_key hours now c = (Ok l, c').
Proof.
  unfold PlexClient.get_recent_media, St.bind.
  destruct (ensure_connected_total c) as (b & c' & -> & _).
  destruct b; simpl.
  - unfold St.gets, St.lift.
    destruct (try_except_total
                (PlexClient.recent_media_body E c' library_key hours now)
                (fun _ => []) (fun _ => []) [C_HTTPError]) as [v ->].
    eauto.
  - unfold St.ret. eauto.
Qed.

Lemma get_recent_media_connected (library_key : string) (hours now : Z) (c : PlexClient.t) :
  connected c ->
  PlexClient.get_recent_media E library_key hours now c
  = (Ok (recent E c library_key hours now), c).
Proof.
  intros Hc. unfold recent.
  unfold PlexClient.get_recent_media, St.bind.
  rewrite (ensure_connected_connected Hc). cbn [negb].
  unfold St.gets, St.lift.
  destruct (try_except_total
              (PlexClient.recent_media_body E c library_key hours now)
              (fun _ => []) (fun _ => []) [C_HTTPError]) as [v ->].
  reflexivity.
Qed.

Lemma match_with_agent_total (library_key : string) (media_key : option string)
      (agent_name : string) (c : PlexClient.t) :
  exists v c', PlexClient.match_with_agent E library_key media_key agent_name c = (Ok v, c').
Proof.
  unfold PlexClient.match_with_agent, St.bind.
  destruct (ensure_connected_total c) as (b & c' & -> & _).
  destruct b; simpl.
  - unfold St.gets, St.lift.
    match goal with
    | |- context [Py.try_except ?b [(?cs, fun e1 => Ok (@?h1 e1)); (_, fun e2 => Ok (@?h2 e2))]] =>
        destruct (try_except_total b h1 h2 cs) as [v ->]
    end.
    eauto.
  - unfold St.ret. eauto.
Qed.

Lemma match_with_agent_connected (library_key : string) (media_key : option string)
      (agent_name : string) (c : PlexClient.t) :
  connected c ->
  PlexClient.match_with_agent E library_key media_key agent_name c
  = (Ok (reconcile E c library_key media_key agent_name), c).
Proof.
  intros Hc. unfold reconcile.
  unfold PlexClient.match_with_agent, St.bind.
  rewrite (ensure_connected_connected Hc). cbn [negb].
  unfold St.gets, St.lift.
  match goal with
  | |- context [Py.try_except ?b [(?cs, fun e1 => Ok (@?h1 e1)); (_, fun e2 => Ok (@?h2 e2))]] =>
      destruct (try_except_total b h1 h2 cs) as [v ->]
  end.
  reflexivity.
Qed.

End ClientFacts.

(* ------------------------------------------------------------------------- *)
(** * Reconciliation *)

Section Reconciliation.

Variable E : Env.

Lemma reconcile_unfold (c : PlexClient.t) (library_key : string)
      (media_key : option string) (agent_name : string) :
  connected c ->
  Ok (reconcile E c library_key media_key agent_name)
  = Py.try_except (PlexClient.match_body E c library_key media_key agent_name)
      [([C_HTTPError],
        fun e =>
          Ok (false,
              if PlexClient.status_code e =? 404 then
                "Library " ++ library_key ++ " or media " ++ fstr media_key ++ " not found"
              else
                "HTTP error processing media " ++ fstr media_key ++ ": " ++ str e));
       ([C_Exception],
        fun e =>
          Ok (false,
              "Failed to process media " ++ fstr media_key ++ " with agent "
                ++ agent_name ++ ": " ++ str e))].
Proof.
  intros Hc.
  pose proof (match_with_agent_connected E library_key media_key agent_name Hc) as H.
  unfold PlexClient.match_with_agent, St.bind in H.
  rewrite (ensure_connected_connected E Hc) in H. cbn [negb] in H.
  unfold St.gets, St.lift in H.
  apply (f_equal fst) in H. cbn [fst] in H. symmetry. exact H.
Qed.

Lemma match_body_unfold (c : PlexClient.t) (library_key : string)
      (media_key : option string) (agent_name : string) (media_root : Element) :
  PlexClient._make_request E c (fstr media_key) = Ok media_root ->
  PlexClient.match_body E c library_key media_key agent_name
  = let media_title := fst (looked_up media_root media_key) in
    let media_guid := snd (looked_up media_root media_key) in
    if is_guid_matched media_guid then
      http_put E (fstr media_key ++ "/refresh") [] ;;;
      Ok (true, "Refreshed matched media: " ++ media_title)
    else
      Py.try_except (PlexClient.apply_first_match E c media_key media_title)
        [([C_HTTPError],
          fun matches_error =>
            if PlexClient.status_code matches_error =? 404 then
              Ok (true, "No matches available for: " ++ media_title)
            else
              Ok (false, "Error getting matches: " ++ str matches_error))].
Proof.
  intros H. unfold PlexClient.match_body, looked_up. rewrite H.
  cbn [Py.bind].
  destruct (find _ (media_elements media_root)); reflexivity.
Qed.

(** Any exception that leaves the [try] block gives [(false, message)]. *)
Lemma reconcile_of_raise (c : PlexClient.t) (library_key : string)
      (media_key : option string) (agent_name : string) (e : exn) :
  connected c ->
  PlexClient.match_body E c library_key media_key agent_name = Raise e ->
  fst (reconcile E c library_key media_key agent_name) = false.
Proof.
  intros Hc Hb. pose proof (reconcile_unfold library_key media_key agent_name Hc) as H.
  rewrite Hb in H. cbn [Py.try_except Py.dispatch] in H.
  destruct (catches [C_HTTPError] e).
  - apply Ok_inj in H. rewrite H. reflexivity.
  - rewrite catches_Exception in H. apply Ok_inj in H. rewrite H. reflexivity.
Qed.

End Reconciliation.

(** C5 (as amended). [match_with_agent] never raises, whatever the client and
    the server do.  On a connected client every exception that leaves its
    [try] block gives [(false, message)]: a failed lookup, with the "not
    found" text for a 404 and the "HTTP error" text otherwise, and a failed
    refresh.  An HTTP failure met while fetching the candidates or applying
    the first one gives [(false, "Error getting matches: ...")] unless its
    status is 404, when it gives [(true, "No matches available for: title")]. *)
Theorem reconciliation_never_raises :
  forall (E : Env) (library_key : string) (media_key : option string)
         (agent_name : string) (c : PlexClient.t),
    connected c ->
    (forall c0, exists v c',
        PlexClient.match_with_agent E library_key media_key agent_name c0 = (Ok v, c')) /\
    PlexClient.match_with_agent E library_key media_key agent_name c
    = (Ok (reconcile E c library_key media_key agent_name), c) /\
    (forall e, PlexClient.match_body E c library_key media_key agent_name = Raise e ->
               fst (reconcile E c library_key media_key agent_name) = false) /\
    (forall code text,
        PlexClient._make_request E c (fstr media_key) = Raise (HTTPError code text) ->
        reconcile E c library_key media_key agent_name
        = (false,
           if code =? 404 then
             "Library " ++ library_key ++ " or media " ++ fstr media_key ++ " not found"
           else
             "HTTP error processing media " ++ fstr media_key ++ ": " ++ text)) /\
    (forall media_root code text,
        PlexClient._make_request E c (fstr media_key) = Ok media_root ->
        is_guid_matched (snd (looked_up media_root media_key)) = true ->
        http_put E (fstr media_key ++ "/refresh") [] = Raise (HTTPError code text) ->
        fst (reconcile E c library_key media_key agent_name) = false) /\
    (forall media_root code text,
        PlexClient._make_request E c (fstr media_key) = Ok media_root ->
        is_guid_matched (snd (looked_up media_root media_key)) = false ->
        PlexClient.apply_first_match E c media_key (fst (looked_up media_root media_key))
        = Raise (HTTPError code text) ->
        reconcile E c library_key media_key agent_name
        = if code =? 404 then
            (true, "No matches available for: " ++ fst (looked_up media_root media_key))
          else
            (false, "Error getting matches: " ++ text)).
Proof.
  intros E library_key media_key agent_name c Hc.
  split; [|split; [|split; [|split; [|split]]]].
  - intros c0. apply match_with_agent_total.
  - apply match_with_agent_connected. exact Hc.
  - intros e. apply reconcile_of_raise. exact Hc.
  - intros code text Hreq.
    pose proof (reconcile_unfold E library_key media_key agent_name Hc) as H.
    unfold PlexClient.match_body in H. rewrite Hreq in H.
    cbn [Py.bind Py.try_except Py.dispatch catches existsb isinstance orb
         PlexClient.status_code str] in H.
    apply Ok_inj in H. exact H.
  - intros media_root code text Hreq Hm Hput.
    apply reconcile_of_raise with (e := HTTPError code text); [exact Hc|].
    rewrite (match_body_unfold E c library_key media_key agent_name Hreq).
    cbv zeta. rewrite Hm, Hput. reflexivity.
  - intros media_root code text Hreq Hm Hcand.
    pose proof (reconcile_unfold E library_key media_key agent_name Hc) as H.
    rewrite (match_body_unfold E c library_key media_key agent_name Hreq) in H.
    cbv zeta in H. rewrite Hm, Hcand in H.
    cbn [Py.try_except Py.dispatch catches existsb isinstance orb
         PlexClient.status_code str] in H.
    destruct (code =? 404); apply Ok_inj in H; exact H.
Qed.

Lemma reconciliation_never_raises_witness :
  (forall c0, exists v c',
      PlexClient.match_with_agent Scenario.env_no_matches_endpoint
        "5" (Some "/library/metadata/7") "TheMovieDB" c0 = (Ok v, c')) /\
  reconcile Scenario.env_no_matches_endpoint Scenario.client
    "5" (Some "/library/metadata/7") "TheMovieDB"
  = (true, "No matches available for: Foo").
Proof.
  assert (Hc : connected Scenario.client) by (eexists; reflexivity).
  pose proof (@reconciliation_never_raises Scenario.env_no_matches_endpoint
                "5" (Some "/library/metadata/7") "TheMovieDB" Scenario.client Hc)
    as (Htotal & _ & _ & _ & _ & Hcand).
  split; [exact Htotal|].
  exact (Hcand (Scenario.container
                  [Scenario.video "/library/metadata/7" "Foo" "1000" "plex://internal"])
               404 "404 Client Error: Not Found"
               eq_refl eq_refl eq_refl).
Defined.

(** C5, as stated, fails: the candidate listing of an unmatched item answers
    404, a remote "not found" error, and [match_with_agent] returns
    [(true, "No matches available for: Foo")], not [(false, message)]. *)
Lemma reconciliation_not_found_reports_success :
  PlexClient.apply_first_match Scenario.env_no_matches_endpoint Scenario.client
    (Some "/library/metadata/7") "Foo"
  = Raise (HTTPError 404 "404 Client Error: Not Found") /\
  PlexClient.match_with_agent Scenario.env_no_matches_endpoint
    "5" (Some "/library/metadata/7") "TheMovieDB" Scenario.client
  = (Ok (true, "No matches available for: Foo"), Scenario.client) /\
  (forall message,
      PlexClient.match_with_agent Scenario.env_no_matches_endpoint
        "5" (Some "/library/metadata/7") "TheMovieDB" Scenario.client
      <> (Ok (false, message), Scenario.client)).
Proof.
  split; [reflexivity|]. split; [reflexivity|].
  intros message H. vm_compute in H. discriminate H.
Qed.

(** The scenario of the specification: the item is unmatched, the server
    offers one candidate, and reconciliation applies it. *)
Example scenario_applies_the_candidate :
  PlexClient.match_with_agent Scenario.env_one_candidate "5" (Some "/lib/5/x1")
    "TheMovieDB" Scenario.client
  = (Ok (true, "Matched: x1 → Foo"), Scenario.client).
Proof. reflexivity. Qed.

(* ------------------------------------------------------------------------- *)
(** * The recency window *)

Lemma insert_desc_perm (x : MediaInfo.t) (l : list MediaInfo.t) :
  Permutation (insert_desc x l) (x :: l).
Proof.
  induction l as [|y ys IH]; simpl; [reflexivity|].
  destruct (MediaInfo.addedAt x >=? MediaInfo.addedAt y); [reflexivity|].
  rewrite IH. apply perm_swap.
Qed.

Lemma sort_desc_perm (l : list MediaInfo.t) : Permutation (sort_desc l) l.
Proof.
  induction l as [|x xs IH]; simpl; [reflexivity|].
  rewrite insert_desc_perm. now constructor.
Qed.

Section Window.

Variable E : Env.
Variable c : PlexClient.t.
Variable cutoff : Z.

(** The loop body only ever appends to the list it is given. *)
Lemma recent_item_acc (acc : list MediaInfo.t) (item : Element) :
  PlexClient.recent_item E c cutoff acc item
  = match PlexClient.recent_item E c cutoff [] item with
    | Ok l => Ok (acc ++ l)%list
    | Raise e => Raise e
    end.
Proof.
  unfold PlexClient.recent_item.
  destruct (truthy (get item "addedAt")); [|now rewrite app_nil_r].
  destruct (PlexClient.int_ E (fstr (get item "addedAt"))) as [ts|e];
    cbn [Py.bind Py.try_except].
  - destruct (fromtimestamp E ts) as [dt|e]; cbn [Py.bind Py.try_except].
    + destruct (ts >=? cutoff).
      * destruct (PlexClient.localize c dt) as [srv|e]; cbn [Py.bind Py.try_except].
        -- reflexivity.
        -- cbn [Py.dispatch]. destruct (catches _ e); [now rewrite app_nil_r|reflexivity].
      * cbn [Py.try_except]. now rewrite app_nil_r.
    + cbn [Py.dispatch]. destruct (catches _ e); [now rewrite app_nil_r|reflexivity].
  - cbn [Py.dispatch]. destruct (catches _ e); [now rewrite app_nil_r|reflexivity].
Qed.

Lemma fold_result_entries (items : list Element) (acc l : list MediaInfo.t) :
  fold_result (PlexClient.recent_item E c cutoff) items acc = Ok l ->
  l = (acc ++ flat_map (window_entry E c cutoff) items)%list.
Proof.
  revert acc; induction items as [|item rest IH]; intros acc H; simpl in H.
  - injection H as <-. simpl. now rewrite app_nil_r.
  - rewrite recent_item_acc in H. cbn [flat_map].
    destruct (PlexClient.recent_item E c cutoff [] item) as [l0|e] eqn:Hitem;
      cbn [Py.bind] in H; [|discriminate].
    assert (Hw : window_entry E c cutoff item = l0)
      by (unfold window_entry; now rewrite Hitem).
    rewrite Hw, (IH _ H). now rewrite app_assoc.
Qed.



End Window.

Lemma recent_of_body (E : Env) (c : PlexClient.t) (library_key : string)
      (hours now : Z) (l : list MediaInfo.t) :
  connected c ->
  PlexClient.recent_media_body E c library_key hours now = Ok l ->
  recent E c library_key hours now = l.
Proof.
  intros Hc Hb. unfold recent, PlexClient.get_recent_media, St.bind.
  rewrite (ensure_connected_connected E Hc). cbn [negb].
  unfold St.gets, St.lift. rewrite Hb. reflexivity.
Qed.

Lemma recent_of_raise (E : Env) (c : PlexClient.t) (library_key : string)
      (hours now : Z) (e : exn) :
  connected c ->
  PlexClient.recent_media_body E c library_key hours now = Raise e ->
  recent E c library_key hours now = [].
Proof.
  intros Hc Hb. unfold recent, PlexClient.get_recent_media, St.bind.
  rewrite (ensure_connected_connected E Hc). cbn [negb].
  unfold St.gets, St.lift. rewrite Hb.
  cbn [Py.try_except Py.dispatch fst].
  destruct (catches [C_HTTPError] e); [reflexivity|].
  rewrite catches_Exception. reflexivity.
Qed.

(** When the listing succeeds it is, up to order, what each item of the
    response adds. *)
Lemma recent_perm (E : Env) (c : PlexClient.t) (library_key : string)
      (hours now : Z) (root : Element) (l : list MediaInfo.t) :
  PlexClient._make_request E c ("/library/sections/" ++ library_key ++ "/all") = Ok root ->
  PlexClient.recent_media_body E c library_key hours now = Ok l ->
  Permutation l (flat_map (window_entry E c (PlexClient.cutoff_of now hours))
                          (media_elements root)).
Proof.
  intros Hreq Hb. unfold PlexClient.recent_media_body in Hb.
  rewrite Hreq in Hb. cbn [Py.bind] in Hb.
  destruct (fold_result _ (media_elements root) []) as [l0|e] eqn:Hf;
    cbn [Py.bind] in Hb; [|discriminate].
  apply Ok_inj in Hb. subst l.
  apply fold_result_entries in Hf. simpl in Hf. subst l0.
  apply sort_desc_perm.
Qed.






(* ------------------------------------------------------------------------- *)
(** * The ledger: lookups *)

Lemma opt_string_eqb_eq (a b : option string) : opt_string_eqb a b = true <-> a = b.
Proof.
  destruct a as [x|], b as [y|]; simpl; split; try discriminate; try reflexivity.
  - intros H. apply String.eqb_eq in H. now subst.
  - intros H. injection H as ->. apply String.eqb_refl.
Qed.

Lemma existing_item_some (config_id : Z) (key : option string)
      (rows : list MediaItem.t) (r : MediaItem.t) :
  Scheduler.existing_item config_id key rows = Some r ->
  In r rows /\ MediaItem.uc r = (config_id, key).
Proof.
  unfold Scheduler.existing_item. intros H. apply find_some in H as [Hin Hb].
  apply andb_true_iff in Hb as [Hid Hk].
  apply Z.eqb_eq in Hid. apply opt_string_eqb_eq in Hk.
  split; [exact Hin|]. unfold MediaItem.uc. now rewrite Hid, Hk.
Qed.

Lemma existing_item_none (config_id : Z) (key : option string) (rows : list MediaItem.t) :
  Scheduler.existing_item config_id key rows = None ->
  ~ In (config_id, key) (map MediaItem.uc rows).
Proof.
  unfold Scheduler.existing_item. intros H Hin.
  apply in_map_iff in Hin as (r & Huc & Hr).
  pose proof (find_none _ _ H r Hr) as Hb. cbv beta in Hb.
  unfold MediaItem.uc in Huc. injection Huc as Hid Hk.
  rewrite Hid, Hk, Z.eqb_refl in Hb.
  assert (opt_string_eqb key key = true) by now apply opt_string_eqb_eq.
  simpl in Hb. congruence.
Qed.

Lemma recorded_app (config_id : Z) (key : option string) (rows more : list MediaItem.t) :
  recorded config_id key rows -> recorded config_id key (rows ++ more).
Proof.
  intros [r H]. exists r. unfold Scheduler.existing_item in *.
  induction rows as [|x xs IH]; simpl in *; [discriminate|].
  destruct (_ && _); [exact H|now apply IH].
Qed.

Lemma recorded_last (config_id : Z) (key : option string) (rows : list MediaItem.t)
      (r : MediaItem.t) :
  MediaItem.uc r = (config_id, key) -> recorded config_id key (rows ++ [r]).
Proof.
  intros Huc. unfold recorded, Scheduler.existing_item.
  induction rows as [|x xs IH]; simpl.
  - unfold MediaItem.uc in Huc. injection Huc as Hid Hk.
    rewrite Hid, Hk, Z.eqb_refl.
    assert (opt_string_eqb key key = true) as -> by now apply opt_string_eqb_eq.
    simpl. eauto.
  - destruct (_ && _); [eauto|exact IH].
Qed.

Lemma count_matched_app (a b : list MediaItem.t) :
  count_matched (a ++ b) = count_matched a + count_matched b.
Proof. unfold count_matched. rewrite filter_app, length_app. lia. Qed.

Lemma count_failed_app (a b : list MediaItem.t) :
  count_failed (a ++ b) = count_failed a + count_failed b.
Proof. unfold count_failed. rewrite filter_app, length_app. lia. Qed.

(* ------------------------------------------------------------------------- *)
(** * What a scan does to a tally *)

Lemma extends_refl (T : Tally.t) : extends T T [] 0.
Proof.
  unfold extends, count_matched, count_failed. simpl.
  rewrite app_nil_r. repeat split; lia.
Qed.

Lemma extends_trans (T1 T2 T3 : Tally.t) (new1 new2 : list MediaItem.t) (n1 n2 : Z) :
  extends T1 T2 new1 n1 -> extends T2 T3 new2 n2 ->
  extends T1 T3 (new1 ++ new2) (n1 + n2).
Proof.
  intros (L1 & F1 & M1 & E1) (L2 & F2 & M2 & E2).
  unfold extends. rewrite L2, L1, F2, F1, M2, M1, E2, E1.
  rewrite count_matched_app, count_failed_app, app_assoc.
  repeat split; lia.
Qed.

Section TallyFacts.

Variable E : Env.
Variable c : PlexClient.t.

Lemma tally_media_extends (config : LibraryConfig.t) (T : Tally.t) (media : MediaInfo.t) :
  exists new, extends T (tally_media E c config T media) new 0.
Proof.
  unfold tally_media.
  destruct (Scheduler.existing_item _ _ _) as [r|].
  - exists []. apply extends_refl.
  - exists [media_row E c config media]. cbv zeta.
    generalize (media_row E c config media). intros row.
    unfold extends, count_matched, count_failed.
    cbn [Tally.ledger Tally.found Tally.matched Tally.errors filter].
    destruct (MediaItem.match_successful row); cbn [negb List.length];
      repeat split; lia.
Qed.

Lemma tally_media_loop_extends (config : LibraryConfig.t) (l : list MediaInfo.t)
      (T : Tally.t) :
  exists new, extends T (fold_left (tally_media E c config) l T) new 0.
Proof.
  revert T; induction l as [|media rest IH]; intros T; simpl.
  - exists []. apply extends_refl.
  - destruct (tally_media_extends config T media) as [new1 H1].
    destruct (IH (tally_media E c config T media)) as [new2 H2].
    exists (new1 ++ new2)%list. exact (extends_trans H1 H2).
Qed.

Lemma tally_library_extends (now : Z) (config : LibraryConfig.t) (T : Tally.t) :
  exists new,
    extends T (tally_library E c now config T) new
            (Z.of_nat (List.length (recent E c (LibraryConfig.library_key config) 24 now))).
Proof.
  unfold tally_library. cbv zeta.
  match goal with
  | |- context [fold_left _ ?l ?T0] =>
      destruct (tally_media_loop_extends config l T0) as (new & L & F & M & Er)
  end.
  exists new. unfold extends. rewrite L, F, M, Er. simpl. repeat split; lia.
Qed.

Lemma tally_libraries_extends (clock : nat -> Z) (configs : list LibraryConfig.t) :
  forall (k : nat) (T : Tally.t),
  exists new,
    extends T (tally_libraries E c clock k configs T) new
            (window_sizes E c clock k configs).
Proof.
  induction configs as [|config rest IH]; intros k T; simpl.
  - exists []. apply extends_refl.
  - destruct (tally_library_extends (clock k) config T) as [new1 H1].
    destruct (IH (S k) (tally_library E c (clock k) config T)) as [new2 H2].
    exists (new1 ++ new2)%list. exact (extends_trans H1 H2).
Qed.

(** ** Every listed item ends up recorded *)

Lemma tally_media_records (config : LibraryConfig.t) (T : Tally.t) (media : MediaInfo.t) :
  recorded (LibraryConfig.id config) (MediaInfo.key media)
           (Tally.ledger (tally_media E c config T media)).
Proof.
  unfold tally_media.
  destruct (Scheduler.existing_item _ _ _) as [r|] eqn:Hex.
  - exists r. exact Hex.
  - cbv zeta. cbn [Tally.ledger]. apply recorded_last. reflexivity.
Qed.

Lemma tally_media_loop_keeps (config : LibraryConfig.t) (l : list MediaInfo.t)
      (T : Tally.t) (config_id : Z) (key : option string) :
  recorded config_id key (Tally.ledger T) ->
  recorded config_id key (Tally.ledger (fold_left (tally_media E c config) l T)).
Proof.
  intros H. destruct (tally_media_loop_extends config l T) as (new & L & _).
  rewrite L. now apply recorded_app.
Qed.

Lemma tally_media_loop_records (config : LibraryConfig.t) (l : list MediaInfo.t)
      (T : Tally.t) (media : MediaInfo.t) :
  In media l ->
  recorded (LibraryConfig.id config) (MediaInfo.key media)
           (Tally.ledger (fold_left (tally_media E c config) l T)).
Proof.
  revert T; induction l as [|x rest IH]; intros T Hin; [contradiction|].
  simpl. destruct Hin as [->|Hin].
  - apply tally_media_loop_keeps. apply tally_media_records.
  - now apply IH.
Qed.

Lemma tally_library_records (now : Z) (config : LibraryConfig.t) (T : Tally.t)
      (media : MediaInfo.t) :
  In media (recent E c (LibraryConfig.library_key config) 24 now) ->
  recorded (LibraryConfig.id config) (MediaInfo.key media)
           (Tally.ledger (tally_library E c now config T)).
Proof. intros Hin. unfold tally_library. now apply tally_media_loop_records. Qed.

Lemma tally_libraries_keeps (clock : nat -> Z) (configs : list LibraryConfig.t) (k : nat)
      (T : Tally.t) (config_id : Z) (key : option string) :
  recorded config_id key (Tally.ledger T) ->
  recorded config_id key (Tally.ledger (tally_libraries E c clock k configs T)).
Proof.
  intros H. destruct (tally_libraries_extends clock configs k T) as (new & L & _).
  rewrite L. now apply recorded_app.
Qed.

(** The [i]-th library is listed at reading [k + i]; what it lists is in the
    ledger when the loop ends. *)
Lemma tally_libraries_records (clock : nat -> Z) (configs : list LibraryConfig.t) :
  forall (k i : nat) (T : Tally.t) (config : LibraryConfig.t) (media : MediaInfo.t),
    nth_error configs i = Some config ->
    In media (recent E c (LibraryConfig.library_key config) 24 (clock (k + i)%nat)) ->
    recorded (LibraryConfig.id config) (MediaInfo.key media)
             (Tally.ledger (tally_libraries E c clock k configs T)).
Proof.
  induction configs as [|x rest IH]; intros k i T config media Hnth Hin.
  - destruct i; discriminate.
  - destruct i as [|i]; simpl in *.
    + injection Hnth as ->. rewrite Nat.add_0_r in Hin.
      apply tally_libraries_keeps. now apply tally_library_records.
    + apply (IH (S k) i); [exact Hnth|].
      now rewrite Nat.add_succ_r in Hin.
Qed.

(** ** An item already recorded is skipped *)

Lemma tally_media_skips (config : LibraryConfig.t) (T : Tally.t) (media : MediaInfo.t) :
  recorded (LibraryConfig.id config) (MediaInfo.key media) (Tally.ledger T) ->
  tally_media E c config T media = T.
Proof. intros [r H]. unfold tally_media. now rewrite H. Qed.

Lemma tally_media_loop_skips (config : LibraryConfig.t) (l : list MediaInfo.t)
      (T : Tally.t) :
  (forall media, In media l ->
                 recorded (LibraryConfig.id config) (MediaInfo.key media) (Tally.ledger T)) ->
  fold_left (tally_media E c config) l T = T.
Proof.
  induction l as [|x rest IH]; intros H; simpl; [reflexivity|].
  rewrite tally_media_skips by (apply H; now left).
  apply IH. intros media Hin. apply H. now right.
Qed.

Lemma tally_libraries_skips (clock : nat -> Z) (configs : list LibraryConfig.t) :
  forall (k : nat) (T : Tally.t),
    (forall i config media,
        nth_error configs i = Some config ->
        In media (recent E c (LibraryConfig.library_key config) 24 (clock (k + i)%nat)) ->
        recorded (LibraryConfig.id config) (MediaInfo.key media) (Tally.ledger T)) ->
    tally_libraries E c clock k configs T
    = {| Tally.ledger := Tally.ledger T;
         Tally.found := Tally.found T + window_sizes E c clock k configs;
         Tally.matched := Tally.matched T;
         Tally.errors := Tally.errors T |}.
Proof.
  induction configs as [|x rest IH]; intros k T H; simpl.
  - destruct T; simpl. f_equal. lia.
  - unfold tally_library at 1. cbv zeta.
    rewrite tally_media_loop_skips.
    + rewrite IH.
      * cbn [Tally.ledger Tally.found Tally.matched Tally.errors]. f_equal. lia.
      * intros i config media Hnth Hin. cbn [Tally.ledger].
        apply (H (S i) config media); [exact Hnth|].
        now rewrite Nat.add_succ_r.
    + intros media Hin. cbn [Tally.ledger].
      apply (H 0%nat x media); [reflexivity|]. now rewrite Nat.add_0_r.
Qed.

(** ** A scan never records a pair twice *)

Lemma tally_media_unique (config : LibraryConfig.t) (T : Tally.t) (media : MediaInfo.t) :
  NoDup (map MediaItem.uc (Tally.ledger T)) ->
  NoDup (map MediaItem.uc (Tally.ledger (tally_media E c config T media))).
Proof.
  intros H. unfold tally_media.
  destruct (Scheduler.existing_item _ _ _) as [r|] eqn:Hex; [exact H|].
  apply existing_item_none in Hex. cbv zeta. cbn [Tally.ledger].
  rewrite map_app. cbn [map].
  apply (Permutation_NoDup (l := MediaItem.uc (media_row E c config media)
                                   :: map MediaItem.uc (Tally.ledger T))).
  - apply Permutation_cons_append.
  - constructor; [exact Hex|exact H].
Qed.

Lemma tally_media_loop_unique (config : LibraryConfig.t) (l : list MediaInfo.t) :
  forall T : Tally.t,
    NoDup (map MediaItem.uc (Tally.ledger T)) ->
    NoDup (map MediaItem.uc (Tally.ledger (fold_left (tally_media E c config) l T))).
Proof.
  induction l as [|media rest IH]; intros T H; simpl; [exact H|].
  apply IH. now apply tally_media_unique.
Qed.

Lemma tally_libraries_unique (clock : nat -> Z) (configs : list LibraryConfig.t) :
  forall (k : nat) (T : Tally.t),
    NoDup (map MediaItem.uc (Tally.ledger T)) ->
    NoDup (map MediaItem.uc (Tally.ledger (tally_libraries E c clock k configs T))).
Proof.
  induction configs as [|config rest IH]; intros k T H; simpl; [exact H|].
  apply IH. unfold tally_library. cbv zeta.
  apply tally_media_loop_unique. exact H.
Qed.

End TallyFacts.

(* ------------------------------------------------------------------------- *)
(** * The loops of a scan compute the tally *)

Lemma set_plex_client_same (s : Scheduler.state) :
  Scheduler.set_plex_client (Scheduler.plex_client s) s = s.
Proof. destruct s; reflexivity. Qed.

Lemma with_tally_of (s : Scheduler.state) : with_tally (tally_of s) s = s.
Proof. destruct s as [[cfgs rows] ? ? ? ? ? ? ?]; reflexivity. Qed.

(** ** The flush *)

Lemma insert_all_app (new : list MediaItem.t) :
  forall rows L, Scheduler.insert_all rows new = Some L -> L = (rows ++ new)%list.
Proof.
  induction new as [|r rest IH]; intros rows L H; cbn [Scheduler.insert_all] in H.
  - injection H as <-. now rewrite app_nil_r.
  - destruct (Scheduler.insertable rows r); [|discriminate].
    rewrite (IH _ _ H), <- app_assoc. reflexivity.
Qed.

Lemma insert_all_one (rows : list MediaItem.t) (r : MediaItem.t) :
  Scheduler.insert_all rows [r]
  = if Scheduler.not_null r
    then match Scheduler.existing_item (MediaItem.library_config_id r)
                                       (MediaItem.plex_key r) rows with
         | Some _ => None
         | None => Some (rows ++ [r])%list
         end
    else None.
Proof.
  cbn [Scheduler.insert_all]. unfold Scheduler.insertable.
  destruct (Scheduler.not_null r); cbn [andb]; [|reflexivity].
  now destruct (Scheduler.existing_item _ _ rows).
Qed.

Lemma flush_sound (w : Scheduler.world) (L : list MediaItem.t) :
  Scheduler.inactive (Scheduler.orm w) = false ->
  Scheduler.insert_all (media_items (Scheduler.db (Scheduler.frame w)))
                       (Scheduler.pending (Scheduler.orm w)) = Some L ->
  Scheduler.flush w = (Ok tt, tracking L [] (tally_at L w) 0 w).
Proof.
  intros Hi HL. unfold Scheduler.flush. rewrite Hi, HL.
  destruct w as [[st p i] [[cfgs rows] ? ? ? ? ? ? ?]].
  unfold tracking, tally_at, with_tally. cbn. now rewrite Nat.add_0_r.
Qed.

Lemma flush_doomed (w : Scheduler.world) :
  doomed w ->
  exists e w', Scheduler.flush w = (Raise e, w') /\
               Scheduler.inactive (Scheduler.orm w') = true /\
               uncommitted w w'.
Proof.
  intros Hd. unfold Scheduler.flush.
  destruct (Scheduler.inactive (Scheduler.orm w)) eqn:Hi.
  - exists Scheduler.pending_rollback_error, w. repeat split; assumption.
  - destruct Hd as [Hd|Hd]; [congruence|]. rewrite Hd.
    exists Scheduler.integrity_error, (Scheduler.rolled_back w). repeat split.
Qed.

Lemma flush_inactive (w : Scheduler.world) :
  Scheduler.inactive (Scheduler.orm w) = true ->
  Scheduler.flush w = (Raise Scheduler.pending_rollback_error, w).
Proof. intros Hi. unfold Scheduler.flush. now rewrite Hi. Qed.

Lemma uncommitted_refl (w : Scheduler.world) : uncommitted w w.
Proof. split; reflexivity. Qed.

Lemma uncommitted_trans (w1 w2 w3 : Scheduler.world) :
  uncommitted w1 w2 -> uncommitted w2 w3 -> uncommitted w1 w3.
Proof. intros [A B] [C D]. split; congruence. Qed.

(** What does not touch the session nor the tables keeps it doomed. *)
Lemma doomed_frame (w : Scheduler.world) (f : Scheduler.state -> Scheduler.state) :
  (forall s, Scheduler.db (f s) = Scheduler.db s) ->
  doomed w ->
  doomed {| Scheduler.orm := Scheduler.orm w; Scheduler.frame := f (Scheduler.frame w) |}.
Proof. intros Hf [H|H]; [now left|right]. cbn. now rewrite Hf. Qed.

Lemma inactive_doomed (w : Scheduler.world) :
  Scheduler.inactive (Scheduler.orm w) = true -> doomed w.
Proof. now left. Qed.

Lemma rejects_app (rows rows1 rows2 : list MediaItem.t) :
  (exists new, rows1 = (rows ++ new)%list) -> rejects rows1 rows2 -> rejects rows rows2.
Proof.
  intros [new1 ->] (new & r & -> & Hin & Hr). exists (new1 ++ new)%list, r.
  rewrite app_assoc. repeat split; [|exact Hr]. apply in_or_app. now right.
Qed.

Lemma rejects_more (rows rows1 rows2 : list MediaItem.t) :
  rejects rows rows1 -> (exists new, rows2 = (rows1 ++ new)%list) -> rejects rows rows2.
Proof.
  intros (new & r & -> & Hin & Hr) [new2 ->]. exists (new ++ new2)%list, r.
  rewrite app_assoc. repeat split; [|exact Hr]. apply in_or_app. now left.
Qed.

Lemma accepted_refl (rows : list MediaItem.t) : accepted rows rows.
Proof. exists []. split; [now rewrite app_nil_r|reflexivity]. Qed.

Lemma accepted_trans (rows1 rows2 rows3 : list MediaItem.t) :
  accepted rows1 rows2 -> accepted rows2 rows3 -> accepted rows1 rows3.
Proof.
  intros (new1 & -> & H1) (new2 & -> & H2). exists (new1 ++ new2)%list.
  split; [now rewrite app_assoc|]. rewrite forallb_app, H1, H2. reflexivity.
Qed.

Lemma accepted_not_rejects (rows rows' : list MediaItem.t) :
  accepted rows rows' -> ~ rejects rows rows'.
Proof.
  intros (new & -> & Hall) (new' & r & Heq & Hin & Hr).
  apply app_inv_head in Heq. subst new'.
  rewrite forallb_forall in Hall. rewrite (Hall r Hin) in Hr. discriminate.
Qed.

Section ScanRuns.

Variable E : Env.
Variable clock : nat -> Z.

Lemma on_client_connected {A} (m : St.M PlexClient.t A) (v : A) (w : Scheduler.world) :
  m (Scheduler.plex_client (Scheduler.frame w))
  = (Ok v, Scheduler.plex_client (Scheduler.frame w)) ->
  Scheduler.on_client m w = (Ok v, w).
Proof.
  intros H. unfold Scheduler.on_client, St.zoom. rewrite H.
  rewrite set_plex_client_same. now destruct w.
Qed.

(** ** While the session is sound *)

Lemma process_media_run (config : LibraryConfig.t) (media : MediaInfo.t)
      (w : Scheduler.world) (L : list MediaItem.t) :
  connected (Scheduler.plex_client (Scheduler.frame w)) ->
  Scheduler.inactive (Scheduler.orm w) = false ->
  Scheduler.insert_all (media_items (Scheduler.db (Scheduler.frame w)))
                       (Scheduler.pending (Scheduler.orm w)) = Some L ->
  exists p,
    Tally.ledger (tally_media E (Scheduler.plex_client (Scheduler.frame w)) config
                              (tally_at L w) media) = (L ++ p)%list /\
    Scheduler.insert_all L p
    = (if forallb Scheduler.not_null p then Some (L ++ p)%list else None) /\
    Scheduler.process_media E config media w
    = (Ok tt,
       tracking L p (tally_media E (Scheduler.plex_client (Scheduler.frame w)) config
                                 (tally_at L w) media) 0 w).
Proof.
  intros Hc Hi HL. unfold Scheduler.process_media, Scheduler.query.
  unfold St.bind at 1. unfold St.bind at 1. rewrite (@flush_sound w L Hi HL).
  unfold St.gets at 1. unfold tally_media. cbn [Tally.ledger tally_at].
  assert (Hdb : media_items (Scheduler.db (Scheduler.frame (tracking L [] (tally_at L w) 0 w)))
                = L) by reflexivity.
  rewrite Hdb.
  destruct (Scheduler.existing_item (LibraryConfig.id config) (MediaInfo.key media) L)
    as [r|] eqn:Hex.
  - exists []. rewrite app_nil_r. split; [reflexivity|]. split; [reflexivity|].
    reflexivity.
  - exists [media_row E (Scheduler.plex_client (Scheduler.frame w)) config media].
    cbv zeta. cbn [Tally.ledger]. split; [reflexivity|]. split.
    + rewrite insert_all_one. cbn [forallb media_row MediaItem.library_config_id
        MediaItem.plex_key]. rewrite andb_true_r.
      unfold media_row at 2. cbn [MediaItem.library_config_id MediaItem.plex_key].
      rewrite Hex. reflexivity.
    + unfold St.bind at 1.
      rewrite (on_client_connected _ (tracking L [] (tally_at L w) 0 w)
                 (match_with_agent_connected E (LibraryConfig.library_key config)
                    (MediaInfo.key media) (LibraryConfig.agent_name config) Hc)).
      unfold media_row. cbn [MediaItem.match_successful].
      destruct (fst (reconcile E _ _ _ _)); cbn [negb];
        unfold St.bind, Scheduler.assign, Scheduler.session_add, St.modify;
        destruct w as [[st p i] [[cfgs rows] ? ? ? ? ? ? ?]]; reflexivity.
Qed.

Lemma tally_at_tracking (L L' p : list MediaItem.t) (T : Tally.t) (k : nat)
      (w : Scheduler.world) :
  Tally.ledger T = L ->
  tally_at L (tracking L' p T k w) = T.
Proof. intros <-. destruct T; reflexivity. Qed.

Lemma tracking_tracking (L L' p p' : list MediaItem.t) (T T' : Tally.t) (k k' : nat)
      (w : Scheduler.world) :
  tracking L' p' T' k' (tracking L p T k w) = tracking L' p' T' (k + k') w.
Proof.
  unfold tracking. cbn. now rewrite Nat.add_assoc.
Qed.

Lemma uncommitted_tracking (L p : list MediaItem.t) (T : Tally.t) (k : nat)
      (w w' : Scheduler.world) :
  uncommitted (tracking L p T k w) w' -> uncommitted w w'.
Proof. intros H. exact H. Qed.

Lemma forallb_not_null_false (p : list MediaItem.t) :
  forallb Scheduler.not_null p = false ->
  exists r, In r p /\ Scheduler.not_null r = false.
Proof.
  induction p as [|x rest IH]; cbn [forallb]; [discriminate|].
  destruct (Scheduler.not_null x) eqn:Hx; cbn [andb].
  - intros H. destruct (IH H) as (r & Hin & Hr). exists r. split; [now right|exact Hr].
  - intros _. exists x. split; [now left|exact Hx].
Qed.

(** ** Once the session is doomed *)

Lemma media_loop_doomed (config : LibraryConfig.t) (items : list MediaInfo.t) :
  forall w : Scheduler.world,
    doomed w ->
    exists w', Scheduler.media_loop E config items w = (Ok tt, w') /\
               doomed w' /\ uncommitted w w'.
Proof.
  induction items as [|media rest IH]; intros w Hd.
  - exists w. split; [reflexivity|]. split; [exact Hd|apply uncommitted_refl].
  - destruct (@flush_doomed w Hd) as (e & w1 & Hf & Hi & Hu).
    unfold Scheduler.media_loop. cbn [St.for_each].
    unfold St.bind at 1, St.try_except at 1, Scheduler.process_media, Scheduler.query.
    unfold St.bind at 1. unfold St.bind at 1. rewrite Hf.
    cbn [St.dispatch]. rewrite catches_Exception.
    unfold Scheduler.assign, St.modify.
    match goal with
    | |- context [St.for_each rest ?b ?w2] =>
        change (St.for_each rest b w2) with (Scheduler.media_loop E config rest w2);
        destruct (IH w2) as (w' & Hrun & Hd' & Hu')
    end.
    { left. exact Hi. }
    exists w'. split; [exact Hrun|]. split; [exact Hd'|].
    exact (@uncommitted_trans _ _ _ Hu Hu').
Qed.

Lemma media_loop_run (config : LibraryConfig.t) (items : list MediaInfo.t) :
  forall (w : Scheduler.world) (L : list MediaItem.t),
    connected (Scheduler.plex_client (Scheduler.frame w)) ->
    Scheduler.inactive (Scheduler.orm w) = false ->
    Scheduler.insert_all (media_items (Scheduler.db (Scheduler.frame w)))
                         (Scheduler.pending (Scheduler.orm w)) = Some L ->
    (exists L' p,
        Scheduler.insert_all L' p
        = Some (Tally.ledger
                  (fold_left (tally_media E (Scheduler.plex_client (Scheduler.frame w)) config)
                             items (tally_at L w))) /\
        accepted L (Tally.ledger
                      (fold_left (tally_media E (Scheduler.plex_client (Scheduler.frame w))
                                              config)
                                 items (tally_at L w))) /\
        Scheduler.media_loop E config items w
        = (Ok tt,
           tracking L' p
             (fold_left (tally_media E (Scheduler.plex_client (Scheduler.frame w)) config)
                        items (tally_at L w)) 0 w)) \/
    (exists w',
        Scheduler.media_loop E config items w = (Ok tt, w') /\
        doomed w' /\ uncommitted w w' /\
        rejects L (Tally.ledger
                     (fold_left (tally_media E (Scheduler.plex_client (Scheduler.frame w))
                                             config)
                                items (tally_at L w)))).
Proof.
  induction items as [|media rest IH]; intros w L Hc Hi HL.
  - left. exists (media_items (Scheduler.db (Scheduler.frame w))),
                 (Scheduler.pending (Scheduler.orm w)).
    cbn [fold_left]. split; [exact HL|]. split; [apply accepted_refl|].
    unfold Scheduler.media_loop. cbn [St.for_each]. unfold St.ret.
    destruct w as [[st p i] [[cfgs rows] ? ? ? ? ? ? ?]]. cbn in Hi. subst i.
    unfold tracking, tally_at, with_tally. cbn. now rewrite Nat.add_0_r.
  - destruct (@process_media_run config media w L Hc Hi HL) as (p & Hled & Hins & Hrun).
    set (c := Scheduler.plex_client (Scheduler.frame w)) in *.
    set (T1 := tally_media E c config (tally_at L w) media) in *.
    assert (Hstep : Scheduler.media_loop E config (media :: rest) w
                    = Scheduler.media_loop E config rest (tracking L p T1 0 w)).
    { unfold Scheduler.media_loop. cbn [St.for_each].
      unfold St.bind at 1, St.try_except at 1. now rewrite Hrun. }
    rewrite Hstep. cbn [fold_left]. fold T1.
    destruct (forallb Scheduler.not_null p) eqn:Hp.
    + assert (HL1 : Scheduler.insert_all
                      (media_items (Scheduler.db (Scheduler.frame (tracking L p T1 0 w))))
                      (Scheduler.pending (Scheduler.orm (tracking L p T1 0 w)))
                    = Some (Tally.ledger T1)) by (rewrite Hled; exact Hins).
      destruct (IH (tracking L p T1 0 w) (Tally.ledger T1) Hc eq_refl HL1)
        as [(L' & p' & Hins' & Hacc' & Hrun')|(w' & Hrun' & Hd' & Hu' & Hrej)];
        rewrite (@tally_at_tracking (Tally.ledger T1) L p T1 0 w eq_refl) in *;
        change (Scheduler.plex_client (Scheduler.frame (tracking L p T1 0 w))) with c in *.
      * left. exists L', p'. split; [exact Hins'|]. split.
        -- apply (@accepted_trans L (Tally.ledger T1) _); [|exact Hacc'].
           exists p. split; [exact Hled|exact Hp].
        -- rewrite Hrun', tracking_tracking. reflexivity.
      * right. exists w'. split; [exact Hrun'|]. split; [exact Hd'|]. split; [exact Hu'|].
        apply (@rejects_app L (Tally.ledger T1) _); [eauto|exact Hrej].
    + destruct (@media_loop_doomed config rest (tracking L p T1 0 w))
        as (w' & Hrun' & Hd' & Hu').
      { right. exact Hins. }
      right. exists w'. split; [exact Hrun'|]. split; [exact Hd'|]. split; [exact Hu'|].
      destruct (@forallb_not_null_false p Hp) as (r & Hin & Hr).
      apply (@rejects_more L (Tally.ledger T1) _).
      * exists p, r. repeat split; assumption.
      * destruct (tally_media_loop_extends E c config rest T1) as (new & Hnew & _).
        eauto.
Qed.

Lemma scan_library_step (config : LibraryConfig.t) (w : Scheduler.world) :
  connected (Scheduler.plex_client (Scheduler.frame w)) ->
  Scheduler.inactive (Scheduler.orm w) = false ->
  Scheduler.scan_library E clock config w
  = Scheduler.media_loop E config
      (recent E (Scheduler.plex_client (Scheduler.frame w))
              (LibraryConfig.library_key config) 24
              (clock (Scheduler.ticks (Scheduler.frame w))))
      {| Scheduler.orm := Scheduler.orm w;
         Scheduler.frame :=
           Scheduler.set_total_media_found
             (Scheduler.total_media_found (Scheduler.frame w)
              + Z.of_nat (List.length
                            (recent E (Scheduler.plex_client (Scheduler.frame w))
                                    (LibraryConfig.library_key config) 24
                                    (clock (Scheduler.ticks (Scheduler.frame w))))))
             (Scheduler.set_ticks (S (Scheduler.ticks (Scheduler.frame w)))
                                  (Scheduler.frame w)) |}.
Proof.
  intros Hc Hi. unfold Scheduler.scan_library.
  unfold St.bind at 1, Scheduler.loaded at 1. rewrite Hi.
  unfold St.bind at 1, Scheduler.now at 1.
  unfold St.bind at 1.
  rewrite (@on_client_connected _ _ _
             {| Scheduler.orm := Scheduler.orm w;
                Scheduler.frame := Scheduler.set_ticks (S (Scheduler.ticks (Scheduler.frame w)))
                                                       (Scheduler.frame w) |}
             (@get_recent_media_connected E (LibraryConfig.library_key config) 24
                (clock (Scheduler.ticks (Scheduler.frame w))) _ Hc)).
  reflexivity.
Qed.

Lemma tracking_listed (L p : list MediaItem.t) (T : Tally.t) (v : Z) (w : Scheduler.world) :
  tracking L p T 0
    {| Scheduler.orm := Scheduler.orm w;
       Scheduler.frame :=
         Scheduler.set_total_media_found v
           (Scheduler.set_ticks (S (Scheduler.ticks (Scheduler.frame w)))
                                (Scheduler.frame w)) |}
  = tracking L p T 1 w.
Proof.
  unfold tracking. cbn. rewrite Nat.add_0_r, Nat.add_1_r. reflexivity.
Qed.

Lemma scan_library_run (config : LibraryConfig.t) (w : Scheduler.world)
      (L : list MediaItem.t) :
  connected (Scheduler.plex_client (Scheduler.frame w)) ->
  Scheduler.inactive (Scheduler.orm w) = false ->
  Scheduler.insert_all (media_items (Scheduler.db (Scheduler.frame w)))
                       (Scheduler.pending (Scheduler.orm w)) = Some L ->
  (exists L' p,
      Scheduler.insert_all L' p
      = Some (Tally.ledger
                (tally_library E (Scheduler.plex_client (Scheduler.frame w))
                               (clock (Scheduler.ticks (Scheduler.frame w)))
                               config (tally_at L w))) /\
      accepted L (Tally.ledger
                    (tally_library E (Scheduler.plex_client (Scheduler.frame w))
                                   (clock (Scheduler.ticks (Scheduler.frame w)))
                                   config (tally_at L w))) /\
      Scheduler.scan_library E clock config w
      = (Ok tt,
         tracking L' p
           (tally_library E (Scheduler.plex_client (Scheduler.frame w))
                          (clock (Scheduler.ticks (Scheduler.frame w)))
                          config (tally_at L w)) 1 w)) \/
  (exists w',
      Scheduler.scan_library E clock config w = (Ok tt, w') /\
      doomed w' /\ uncommitted w w' /\
      rejects L (Tally.ledger
                   (tally_library E (Scheduler.plex_client (Scheduler.frame w))
                                  (clock (Scheduler.ticks (Scheduler.frame w)))
                                  config (tally_at L w)))).
Proof.
  intros Hc Hi HL. rewrite (@scan_library_step config w Hc Hi).
  match goal with
  | |- context [Scheduler.media_loop E config ?items ?w2] =>
      destruct (@media_loop_run config items w2 L Hc Hi HL)
        as [(L' & p & Hins & Hacc & Hrun)|(w' & Hrun & Hd & Hu & Hrej)]
  end.
  - left. exists L', p. split; [exact Hins|]. split; [exact Hacc|].
    rewrite Hrun, tracking_listed. reflexivity.
  - right. exists w'. split; [exact Hrun|]. split; [exact Hd|]. split; [exact Hu|exact Hrej].
Qed.

Lemma scan_library_doomed (config : LibraryConfig.t) (w : Scheduler.world) :
  doomed w ->
  exists out,
    St.try_except (Scheduler.scan_library E clock config)
      [([C_Exception],
        fun _ =>
          (Scheduler.loaded ;;;
           Scheduler.assign (fun s => Scheduler.set_total_errors
                                        (Scheduler.total_errors s + 1) s))%st)] w = out /\
    uncommitted w (snd out) /\ ends_doomed out.
Proof.
  intros Hd. unfold St.try_except, Scheduler.scan_library.
  unfold St.bind at 1, Scheduler.loaded at 1.
  destruct (Scheduler.inactive (Scheduler.orm w)) eqn:Hi.
  - cbn [St.dispatch]. rewrite catches_Exception.
    unfold St.bind, Scheduler.loaded. rewrite Hi.
    eexists. split; [reflexivity|]. split; [apply uncommitted_refl|].
    right. exists Scheduler.pending_rollback_error. split; [reflexivity|exact Hi].
  - unfold St.bind at 1, Scheduler.now at 1.
    unfold St.bind at 1, Scheduler.on_client at 1, St.zoom.
    destruct (@get_recent_media_total E (LibraryConfig.library_key config) 24
                (clock (Scheduler.ticks (Scheduler.frame w)))
                (Scheduler.plex_client (Scheduler.frame w))) as (l & c' & Hget).
    cbn [Scheduler.frame Scheduler.plex_client Scheduler.set_ticks] in *.
    rewrite Hget.
    unfold St.bind at 1, Scheduler.assign at 1, St.modify at 1.
    match goal with
    | |- context [Scheduler.media_loop E config l ?w2] =>
        destruct (@media_loop_doomed config l w2) as (w' & Hrun & Hd' & Hu')
    end.
    { destruct Hd as [Hd|Hd]; [congruence|]. right.
      destruct w as [[st p i] [[cfgs rows] ? ? ? ? ? ? ?]]. exact Hd. }
    rewrite Hrun. eexists. split; [reflexivity|].
    split; [|left; exists tt; split; [reflexivity|exact Hd']].
    cbn [snd]. destruct Hu' as [A B]. split; [exact A|].
    rewrite B. destruct w as [[st p i] [[cfgs rows] ? ? ? ? ? ? ?]]. reflexivity.
Qed.

Lemma library_loop_doomed (configs : list LibraryConfig.t) :
  forall w : Scheduler.world,
    doomed w ->
    exists out,
      Scheduler.library_loop E clock configs w = out /\
      uncommitted w (snd out) /\ ends_doomed out.
Proof.
  induction configs as [|config rest IH]; intros w Hd.
  - exists (Ok tt, w). split; [reflexivity|]. split; [apply uncommitted_refl|].
    left. exists tt. split; [reflexivity|exact Hd].
  - unfold Scheduler.library_loop. cbn [St.for_each]. unfold St.bind at 1.
    destruct (@scan_library_doomed config w Hd) as ([r w1] & Hrun & Hu & Hend).
    rewrite Hrun. cbn [fst snd] in *.
    destruct Hend as [(a & Hr & Hd1)|(e & Hr & Hi1)]; cbn [fst snd] in *; subst r.
    + match goal with
      | |- context [St.for_each rest ?b w1] =>
          change (St.for_each rest b w1) with (Scheduler.library_loop E clock rest w1)
      end.
      destruct (IH w1 Hd1) as (out & Hrun' & Hu' & Hend').
      exists out. split; [exact Hrun'|]. split; [|exact Hend'].
      exact (@uncommitted_trans _ _ _ Hu Hu').
    + eexists. split; [reflexivity|]. split; [exact Hu|].
      right. exists e. split; [reflexivity|exact Hi1].
Qed.

Lemma library_loop_run (configs : list LibraryConfig.t) :
  forall (w : Scheduler.world) (L : list MediaItem.t),
    connected (Scheduler.plex_client (Scheduler.frame w)) ->
    Scheduler.inactive (Scheduler.orm w) = false ->
    Scheduler.insert_all (media_items (Scheduler.db (Scheduler.frame w)))
                         (Scheduler.pending (Scheduler.orm w)) = Some L ->
    (exists L' p,
        Scheduler.insert_all L' p
        = Some (Tally.ledger
                  (tally_libraries E (Scheduler.plex_client (Scheduler.frame w)) clock
                                   (Scheduler.ticks (Scheduler.frame w)) configs
                                   (tally_at L w))) /\
        accepted L (Tally.ledger
                      (tally_libraries E (Scheduler.plex_client (Scheduler.frame w)) clock
                                       (Scheduler.ticks (Scheduler.frame w)) configs
                                       (tally_at L w))) /\
        Scheduler.library_loop E clock configs w
        = (Ok tt,
           tracking L' p
             (tally_libraries E (Scheduler.plex_client (Scheduler.frame w)) clock
                              (Scheduler.ticks (Scheduler.frame w)) configs
                              (tally_at L w))
             (List.length configs) w)) \/
    (exists out,
        Scheduler.library_loop E clock configs w = out /\
        uncommitted w (snd out) /\ ends_doomed out /\
        rejects L (Tally.ledger
                     (tally_libraries E (Scheduler.plex_client (Scheduler.frame w)) clock
                                      (Scheduler.ticks (Scheduler.frame w)) configs
                                      (tally_at L w)))).
Proof.
  induction configs as [|config rest IH]; intros w L Hc Hi HL.
  - left. exists (media_items (Scheduler.db (Scheduler.frame w))),
                 (Scheduler.pending (Scheduler.orm w)).
    cbn [tally_libraries List.length]. split; [exact HL|]. split; [apply accepted_refl|].
    unfold Scheduler.library_loop. cbn [St.for_each]. unfold St.ret.
    destruct w as [[st p i] [[cfgs rows] ? ? ? ? ? ? ?]]. cbn in Hi. subst i.
    unfold tracking, tally_at, with_tally. cbn. now rewrite Nat.add_0_r.
  - cbn [tally_libraries List.length].
    destruct (@scan_library_run config w L Hc Hi HL)
      as [(L1 & p1 & Hins1 & Hacc1 & Hrun1)|(w1 & Hrun1 & Hd1 & Hu1 & Hrej1)];
      set (c := Scheduler.plex_client (Scheduler.frame w)) in *;
      set (k := Scheduler.ticks (Scheduler.frame w)) in *;
      set (T1 := tally_library E c (clock k) config (tally_at L w)) in *.
    + assert (Hstep : Scheduler.library_loop E clock (config :: rest) w
                      = Scheduler.library_loop E clock rest (tracking L1 p1 T1 1 w)).
      { unfold Scheduler.library_loop. cbn [St.for_each].
        unfold St.bind at 1, St.try_except at 1. now rewrite Hrun1. }
      rewrite Hstep.
      destruct (IH (tracking L1 p1 T1 1 w) (Tally.ledger T1) Hc eq_refl Hins1)
        as [(L' & p' & Hins' & Hacc' & Hrun')|(out & Hrun' & Hu' & Hend' & Hrej')];
        rewrite (@tally_at_tracking (Tally.ledger T1) L1 p1 T1 1 w eq_refl) in *;
        change (Scheduler.plex_client (Scheduler.frame (tracking L1 p1 T1 1 w))) with c in *;
        change (Scheduler.ticks (Scheduler.frame (tracking L1 p1 T1 1 w)))
          with (k + 1)%nat in *;
        rewrite Nat.add_1_r in *.
      * left. exists L', p'. split; [exact Hins'|].
        split; [exact (@accepted_trans L (Tally.ledger T1) _ Hacc1 Hacc')|].
        rewrite Hrun', tracking_tracking. reflexivity.
      * right. exists out. split; [exact Hrun'|]. split; [exact Hu'|].
        split; [exact Hend'|].
        destruct (@tally_library_extends E c (clock k) config (tally_at L w))
          as (new & Hnew & _).
        apply (@rejects_app L (Tally.ledger T1) _); [eauto|exact Hrej'].
    + assert (Hstep : Scheduler.library_loop E clock (config :: rest) w
                      = Scheduler.library_loop E clock rest w1).
      { unfold Scheduler.library_loop. cbn [St.for_each].
        unfold St.bind at 1, St.try_except at 1. now rewrite Hrun1. }
      rewrite Hstep.
      destruct (@library_loop_doomed rest w1 Hd1) as (out & Hrun' & Hu' & Hend').
      right. exists out. split; [exact Hrun'|].
      split; [exact (@uncommitted_trans _ _ _ Hu1 Hu')|]. split; [exact Hend'|].
      apply (@rejects_more L (Tally.ledger T1) _); [exact Hrej1|].
      destruct (@tally_libraries_extends E c clock rest (S k) T1) as (new & Hnew & _).
      eauto.
Qed.

(** ** The whole routine *)

Lemma scan_libraries_connected (cfgs : list LibraryConfig.t) (rows : list MediaItem.t)
      (c : PlexClient.t) :
  PlexClient.connect E (PlexClient.init E) = (Ok true, c) ->
  Scheduler.scan_libraries E clock
    (Scheduler.entry E {| library_configs := cfgs; media_items := rows |})
  = St.try_except
      (Scheduler.library_loop E clock
         (Scheduler.enabled_configs {| library_configs := cfgs; media_items := rows |}) ;;;
       Scheduler.report clock)%st
      [([C_Exception], Scheduler.on_fatal clock)]
      (at_libraries clock {| library_configs := cfgs; media_items := rows |} c).
Proof.
  intros Hconnect.
  unfold Scheduler.scan_libraries.
  unfold St.bind at 1, Scheduler.now at 1.
  unfold St.bind at 1, Scheduler.assign at 1, St.modify at 1.
  unfold St.bind at 1, Scheduler.commit at 1.
  unfold St.bind at 1, Scheduler.flush at 1.
  cbn [Scheduler.entry Scheduler.orm Scheduler.frame Scheduler.inactive Scheduler.pending
       Scheduler.insert_all Scheduler.set_ticks Scheduler.set_scan_log Scheduler.db
       media_items library_configs Scheduler.set_db Scheduler.stored].
  unfold St.modify at 1.
  unfold St.try_except, Scheduler.scan_body.
  unfold St.bind at 1, Scheduler.assign at 1, St.modify at 1.
  unfold St.bind at 1, Scheduler.on_client at 1, St.zoom.
  cbn [Scheduler.orm Scheduler.frame Scheduler.plex_client Scheduler.set_plex_client
       Scheduler.set_committed Scheduler.committed Scheduler.scan_log Scheduler.db
       Scheduler.ticks Scheduler.total_media_found Scheduler.total_matched
       Scheduler.total_errors Scheduler.pending Scheduler.inactive app].
  rewrite Hconnect. cbn [negb].
  unfold St.bind at 1, Scheduler.query at 1.
  unfold St.bind at 1, Scheduler.flush at 1.
  cbn [Scheduler.orm Scheduler.frame Scheduler.inactive Scheduler.pending
       Scheduler.insert_all Scheduler.db media_items library_configs Scheduler.set_db
       Scheduler.stored].
  unfold St.gets at 1.
  unfold St.bind at 1, Scheduler.update_scan_log at 1, Scheduler.assign at 1, St.modify at 1.
  unfold St.bind at 1, Scheduler.assign at 1, St.modify at 1.
  unfold St.bind at 1, Scheduler.assign at 1, St.modify at 1.
  unfold St.bind at 1, Scheduler.assign at 1, St.modify at 1.
  reflexivity.
Qed.

Lemma report_run (w : Scheduler.world) (L : list MediaItem.t) :
  Scheduler.inactive (Scheduler.orm w) = false ->
  Scheduler.insert_all (media_items (Scheduler.db (Scheduler.frame w)))
                       (Scheduler.pending (Scheduler.orm w)) = Some L ->
  let s := Scheduler.frame w in
  let final :=
    ScanLog.set_scan_completed_at (clock (Scheduler.ticks s))
      (ScanLog.set_status "completed"
         (ScanLog.set_total_errors (Scheduler.total_errors s)
            (ScanLog.set_total_matched (Scheduler.total_matched s)
               (ScanLog.set_total_media_found (Scheduler.total_media_found s)
                  (Scheduler.scan_log s))))) in
  let d' := {| library_configs := library_configs (Scheduler.db s); media_items := L |} in
  Scheduler.report clock w
  = (Ok tt,
     {| Scheduler.orm := {| Scheduler.stored := d';
                            Scheduler.pending := [];
                            Scheduler.inactive := false |};
        Scheduler.frame :=
          {| Scheduler.db := d';
             Scheduler.plex_client := Scheduler.plex_client s;
             Scheduler.scan_log := final;
             Scheduler.committed := Scheduler.committed s ++ [final];
             Scheduler.ticks := S (Scheduler.ticks s);
             Scheduler.total_media_found := Scheduler.total_media_found s;
             Scheduler.total_matched := Scheduler.total_matched s;
             Scheduler.total_errors := Scheduler.total_errors s |} |}).
Proof.
  intros Hi HL. cbv zeta.
  destruct w as [[st p i] [[cfgs rows] c sl cm t f m e]]. cbn in Hi, HL. subst i.
  unfold Scheduler.report, Scheduler.read, Scheduler.update_scan_log, Scheduler.assign,
    Scheduler.now, Scheduler.commit, Scheduler.flush, St.bind, St.gets, St.modify.
  cbn. rewrite HL. reflexivity.
Qed.

Lemma report_doomed (w : Scheduler.world) :
  doomed w ->
  exists e w', Scheduler.report clock w = (Raise e, w') /\
               Scheduler.inactive (Scheduler.orm w') = true /\
               uncommitted w w'.
Proof.
  intros Hd.
  destruct w as [[st p i] [[cfgs rows] c sl cm t f m e]].
  unfold Scheduler.report, Scheduler.read, Scheduler.update_scan_log, Scheduler.assign,
    Scheduler.now, Scheduler.commit, Scheduler.flush, St.bind, St.gets, St.modify.
  cbn. destruct i.
  - eexists _, _. split; [reflexivity|]. split; [reflexivity|split; reflexivity].
  - destruct Hd as [Hd|Hd]; [discriminate|]. cbn in Hd. rewrite Hd.
    eexists _, _. split; [reflexivity|]. split; [reflexivity|split; reflexivity].
Qed.

Lemma on_fatal_inactive (e : exn) (w : Scheduler.world) :
  Scheduler.inactive (Scheduler.orm w) = true ->
  exists w', Scheduler.on_fatal clock e w = (Raise Scheduler.pending_rollback_error, w') /\
             uncommitted w w'.
Proof.
  intros Hi.
  destruct w as [[st p i] [[cfgs rows] c sl cm t f m er]]. cbn in Hi. subst i.
  unfold Scheduler.on_fatal, Scheduler.update_scan_log, Scheduler.assign,
    Scheduler.now, Scheduler.commit, Scheduler.flush, St.bind, St.modify.
  cbn. eexists. split; [reflexivity|]. split; reflexivity.
Qed.

(** How a scan whose handshake succeeded ends: with every row stored and
    the record completed, or, when the table refuses a row, with an
    exception, nothing stored and the record as it was first committed. *)
Lemma run_scan_cases (d : Database) :
  handshake_ok E ->
  let c := scan_client E in
  let configs := Scheduler.enabled_configs d in
  let n := List.length configs in
  let T := tally_libraries E c clock 1 configs (Tally.start (media_items d)) in
  let final :=
    {| ScanLog.scan_started_at := clock 0%nat;
       ScanLog.scan_completed_at := Some (clock (S n));
       ScanLog.total_libraries := Z.of_nat n;
       ScanLog.total_media_found := Tally.found T;
       ScanLog.total_matched := Tally.matched T;
       ScanLog.total_errors := Tally.errors T;
       ScanLog.status := "completed";
       ScanLog.error_message := None |} in
  (accepted (media_items d) (Tally.ledger T) /\
   Scheduler.run_scan E clock d
   = (Ok tt,
      {| Scheduler.db := {| library_configs := library_configs d;
                            media_items := Tally.ledger T |};
         Scheduler.plex_client := c;
         Scheduler.scan_log := final;
         Scheduler.committed := [ScanLog.new (clock 0%nat); final];
         Scheduler.ticks := S (S n);
         Scheduler.total_media_found := Tally.found T;
         Scheduler.total_matched := Tally.matched T;
         Scheduler.total_errors := Tally.errors T |})) \/
  (rejects (media_items d) (Tally.ledger T) /\
   fst (Scheduler.run_scan E clock d) = Raise Scheduler.pending_rollback_error /\
   Scheduler.db (snd (Scheduler.run_scan E clock d)) = d /\
   Scheduler.committed (snd (Scheduler.run_scan E clock d)) = [ScanLog.new (clock 0%nat)]).
Proof.
  intros Hok. unfold handshake_ok in Hok. cbv zeta.
  assert (Hconn : connected (scan_client E)).
  { destruct (connect_total E (PlexClient.init E)) as (b & c' & Heq & Hb).
    unfold scan_client. rewrite Heq in Hok |- *. cbn [fst snd] in *.
    apply Hb. now apply Ok_inj in Hok. }
  unfold scan_client in *.
  destruct (PlexClient.connect E (PlexClient.init E)) as [r c'] eqn:Hconnect.
  cbn [fst snd] in *. subst r.
  destruct d as [cfgs rows].
  unfold Scheduler.run_scan. rewrite (@scan_libraries_connected cfgs rows c' Hconnect).
  set (d := {| library_configs := cfgs; media_items := rows |}).
  unfold St.try_except, St.bind.
  destruct (@library_loop_run (Scheduler.enabled_configs d) (at_libraries clock d c') rows
              Hconn eq_refl eq_refl)
    as [(L' & p & Hins & Hacc & Hrun)|([r w1] & Hrun & Hu & Hend & Hrej)].
  - left. split; [exact Hacc|]. rewrite Hrun.
    match type of Hrun with
    | _ = (_, ?w2) => rewrite (@report_run w2 _ eq_refl Hins)
    end.
    reflexivity.
  - right. split; [exact Hrej|]. rewrite Hrun. cbn [fst snd] in *.
    assert (Hfin : forall e w2,
               Scheduler.inactive (Scheduler.orm w2) = true ->
               uncommitted (at_libraries clock d c') w2 ->
               fst (let (r0, w) := St.dispatch e [([C_Exception], Scheduler.on_fatal clock)] w2
                    in (r0, Scheduler.leave w))
               = Raise Scheduler.pending_rollback_error /\
               Scheduler.db (snd (let (r0, w) :=
                                    St.dispatch e [([C_Exception], Scheduler.on_fatal clock)] w2
                                  in (r0, Scheduler.leave w))) = d /\
               Scheduler.committed
                 (snd (let (r0, w) :=
                         St.dispatch e [([C_Exception], Scheduler.on_fatal clock)] w2
                       in (r0, Scheduler.leave w))) = [ScanLog.new (clock 0%nat)]).
    { intros e w2 Hi2 Hu2. cbn [St.dispatch]. rewrite catches_Exception.
      destruct (@on_fatal_inactive e w2 Hi2) as (w3 & Hf & Hu3). rewrite Hf.
      destruct (@uncommitted_trans _ _ _ Hu2 Hu3) as [A B]. cbn [fst snd].
      split; [reflexivity|]. unfold Scheduler.leave.
      destruct w3 as [[st3 p3 i3] [[cfgs3 rows3] ? ? ? ? ? ? ?]]. cbn in A, B |- *.
      split; [exact A|exact B]. }
    destruct Hend as [(a & Hr & Hd1)|(e & Hr & Hi1)]; cbn [fst snd] in *; subst r.
    + destruct (@report_doomed w1 Hd1) as (e & w2 & Hrep & Hi2 & Hu2). rewrite Hrep.
      apply Hfin; [exact Hi2|exact (@uncommitted_trans _ _ _ Hu Hu2)].
    + apply Hfin; [exact Hi1|exact Hu].
Qed.

(** The record a scan ends with when its handshake succeeded and the table
    takes every row. *)
Lemma run_scan_connected (d : Database) :
  handshake_ok E ->
  let c := scan_client E in
  let configs := Scheduler.enabled_configs d in
  let n := List.length configs in
  let T := tally_libraries E c clock 1 configs (Tally.start (media_items d)) in
  let final :=
    {| ScanLog.scan_started_at := clock 0%nat;
       ScanLog.scan_completed_at := Some (clock (S n));
       ScanLog.total_libraries := Z.of_nat n;
       ScanLog.total_media_found := Tally.found T;
       ScanLog.total_matched := Tally.matched T;
       ScanLog.total_errors := Tally.errors T;
       ScanLog.status := "completed";
       ScanLog.error_message := None |} in
  ~ rejects (media_items d) (Tally.ledger T) ->
  Scheduler.run_scan E clock d
  = (Ok tt,
     {| Scheduler.db := {| library_configs := library_configs d;
                           media_items := Tally.ledger T |};
        Scheduler.plex_client := c;
        Scheduler.scan_log := final;
        Scheduler.committed := [ScanLog.new (clock 0%nat); final];
        Scheduler.ticks := S (S n);
        Scheduler.total_media_found := Tally.found T;
        Scheduler.total_matched := Tally.matched T;
        Scheduler.total_errors := Tally.errors T |}).
Proof.
  intros Hok. cbv zeta. intros Hacc.
  destruct (@run_scan_cases d Hok) as [[_ H]|[Hrej _]]; [exact H|contradiction].
Qed.

(** The end of a scan whose handshake succeeded when the table refuses a
    row. *)
Lemma run_scan_rejected (d : Database) :
  handshake_ok E ->
  rejects (media_items d)
          (Tally.ledger (tally_libraries E (scan_client E) clock 1
                                         (Scheduler.enabled_configs d)
                                         (Tally.start (media_items d)))) ->
  fst (Scheduler.run_scan E clock d) = Raise Scheduler.pending_rollback_error /\
  Scheduler.db (snd (Scheduler.run_scan E clock d)) = d /\
  Scheduler.committed (snd (Scheduler.run_scan E clock d)) = [ScanLog.new (clock 0%nat)].
Proof.
  intros Hok Hrej.
  destruct (@run_scan_cases d Hok) as [[Hacc _]|[_ H]]; [|exact H].
  now apply accepted_not_rejects in Hacc.
Qed.

(** The record a scan ends with when its handshake failed. *)
Lemma run_scan_not_connected (d : Database) :
  fst (PlexClient.connect E (PlexClient.init E)) = Ok false ->
  let final :=
    {| ScanLog.scan_started_at := clock 0%nat;
       ScanLog.scan_completed_at := Some (clock 1%nat);
       ScanLog.total_libraries := 0;
       ScanLog.total_media_found := 0;
       ScanLog.total_matched := 0;
       ScanLog.total_errors := 0;
       ScanLog.status := "failed";
       ScanLog.error_message := Some "Failed to connect to Plex server" |} in
  Scheduler.run_scan E clock d
  = (Ok tt,
     {| Scheduler.db := d;
        Scheduler.plex_client := scan_client E;
        Scheduler.scan_log := final;
        Scheduler.committed := [ScanLog.new (clock 0%nat); final];
        Scheduler.ticks := 2;
        Scheduler.total_media_found := 0;
        Scheduler.total_matched := 0;
        Scheduler.total_errors := 0 |}).
Proof.
  intros Hno. cbv zeta. unfold scan_client. destruct d as [cfgs rows].
  unfold Scheduler.run_scan, Scheduler.scan_libraries.
  unfold St.bind at 1, Scheduler.now at 1.
  unfold St.bind at 1, Scheduler.assign at 1, St.modify at 1.
  unfold St.bind at 1, Scheduler.commit at 1.
  unfold St.bind at 1, Scheduler.flush at 1.
  cbn [Scheduler.entry Scheduler.orm Scheduler.frame Scheduler.inactive Scheduler.pending
       Scheduler.insert_all Scheduler.set_ticks Scheduler.set_scan_log Scheduler.db
       media_items library_configs Scheduler.set_db Scheduler.stored].
  unfold St.modify at 1.
  unfold St.try_except, Scheduler.scan_body.
  unfold St.bind at 1, Scheduler.assign at 1, St.modify at 1.
  unfold St.bind at 1, Scheduler.on_client at 1, St.zoom.
  cbn [Scheduler.orm Scheduler.frame Scheduler.plex_client Scheduler.set_plex_client
       Scheduler.set_committed Scheduler.committed Scheduler.scan_log Scheduler.db
       Scheduler.ticks Scheduler.total_media_found Scheduler.total_matched
       Scheduler.total_errors Scheduler.pending Scheduler.inactive app].
  destruct (PlexClient.connect E (PlexClient.init E)) as [r c'] eqn:Hconnect.
  cbn [fst] in Hno. subst r. cbn [negb snd].
  reflexivity.
Qed.

End ScanRuns.

(* ------------------------------------------------------------------------- *)
(** * The rows a scan adds *)

Lemma count_matched_failed (rows : list MediaItem.t) :
  count_matched rows + count_failed rows = Z.of_nat (List.length rows).
Proof.
  unfold count_matched, count_failed. induction rows as [|r rest IH]; [reflexivity|].
  cbn [filter]. destruct (MediaItem.match_successful r); cbn [negb List.length]; lia.
Qed.

Lemma count_matched_nonneg (rows : list MediaItem.t) : 0 <= count_matched rows.
Proof. unfold count_matched. lia. Qed.

Lemma count_failed_nonneg (rows : list MediaItem.t) : 0 <= count_failed rows.
Proof. unfold count_failed. lia. Qed.

Section NewRows.

Variable E : Env.
Variable c : PlexClient.t.

(** The rows one library adds: each for an item of its listing whose pair
    the ledger did not hold, and no more of them than the listing is long. *)
Lemma tally_media_loop_rows (config : LibraryConfig.t) (l : list MediaInfo.t) :
  forall T : Tally.t,
  exists new,
    extends T (fold_left (tally_media E c config) l T) new 0 /\
    (List.length new <= List.length l)%nat /\
    Forall (fun r => (exists media, In media l /\ r = media_row E c config media) /\
                     ~ In (MediaItem.uc r) (map MediaItem.uc (Tally.ledger T))) new.
Proof.
  induction l as [|media rest IH]; intros T.
  - exists []. split; [apply extends_refl|]. split; [reflexivity|constructor].
  - cbn [fold_left].
    destruct (IH (tally_media E c config T media)) as (new2 & H2 & Hlen2 & Hall2).
    unfold tally_media in *.
    destruct (Scheduler.existing_item (LibraryConfig.id config) (MediaInfo.key media)
                                      (Tally.ledger T)) as [r|] eqn:Hex.
    + exists new2. split; [exact H2|]. split; [cbn [List.length]; lia|].
      eapply Forall_impl; [|exact Hall2]. cbv beta.
      intros r0 [(m & Hm & Hr) Hnot]. split; [|exact Hnot].
      exists m. split; [now right|exact Hr].
    + cbv zeta in *. set (row := media_row E c config media) in *.
      exists (row :: new2). split; [|split].
      * assert (H1 : extends T
                  {| Tally.ledger := Tally.ledger T ++ [row];
                     Tally.found := Tally.found T;
                     Tally.matched := if MediaItem.match_successful row
                                      then Tally.matched T + 1 else Tally.matched T;
                     Tally.errors := if MediaItem.match_successful row
                                     then Tally.errors T else Tally.errors T + 1 |}
                  [row] 0).
        { unfold extends, count_matched, count_failed.
          cbn [Tally.ledger Tally.found Tally.matched Tally.errors filter].
          destruct (MediaItem.match_successful row); cbn [negb List.length];
            repeat split; lia. }
        exact (extends_trans H1 H2).
      * cbn [List.length]. lia.
      * constructor.
        -- split; [exists media; split; [now left|reflexivity]|].
           apply existing_item_none in Hex. exact Hex.
        -- eapply Forall_impl; [|exact Hall2]. cbv beta.
           intros r0 [(m & Hm & Hr) Hnot]. split.
           ++ exists m. split; [now right|exact Hr].
           ++ intros Hin. apply Hnot. cbn [Tally.ledger].
              rewrite map_app. apply in_or_app. now left.
Qed.

Lemma tally_libraries_rows (clock : nat -> Z) (configs : list LibraryConfig.t) :
  forall (k : nat) (T : Tally.t),
  exists new,
    extends T (tally_libraries E c clock k configs T) new
            (window_sizes E c clock k configs) /\
    Z.of_nat (List.length new) <= window_sizes E c clock k configs /\
    Forall (fun r => row_of_listing E c clock k configs r /\
                     ~ In (MediaItem.uc r) (map MediaItem.uc (Tally.ledger T))) new.
Proof.
  induction configs as [|config rest IH]; intros k T.
  - exists []. split; [apply extends_refl|]. split; [reflexivity|constructor].
  - cbn [tally_libraries window_sizes].
    set (l := recent E c (LibraryConfig.library_key config) 24 (clock k)).
    set (T0 := {| Tally.ledger := Tally.ledger T;
                  Tally.found := Tally.found T + Z.of_nat (List.length l);
                  Tally.matched := Tally.matched T;
                  Tally.errors := Tally.errors T |}).
    destruct (tally_media_loop_rows config l T0) as (new1 & H1 & Hlen1 & Hall1).
    assert (HT1 : tally_library E c (clock k) config T
                  = fold_left (tally_media E c config) l T0) by reflexivity.
    rewrite HT1.
    destruct (IH (S k) (fold_left (tally_media E c config) l T0))
      as (new2 & H2 & Hlen2 & Hall2).
    assert (H0 : extends T T0 [] (Z.of_nat (List.length l))).
    { unfold extends, count_matched, count_failed, T0. simpl. rewrite app_nil_r.
      repeat split; lia. }
    exists (new1 ++ new2)%list. split; [|split].
    + pose proof (extends_trans (extends_trans H0 H1) H2) as H.
      cbn [app] in H. replace (Z.of_nat (List.length l) + 0 + window_sizes E c clock (S k) rest)
        with (Z.of_nat (List.length l) + window_sizes E c clock (S k) rest) in H by lia.
      exact H.
    + rewrite length_app. lia.
    + apply Forall_app. split.
      * eapply Forall_impl; [|exact Hall1]. cbv beta.
        intros r [(m & Hm & Hr) Hnot]. split; [|exact Hnot].
        exists 0%nat, config, m. rewrite Nat.add_0_r. repeat split; auto.
      * eapply Forall_impl; [|exact Hall2]. cbv beta.
        intros r [(i & cfg & m & Hnth & Hm & Hr) Hnot]. split.
        -- exists (S i), cfg, m. rewrite Nat.add_succ_r. repeat split; auto.
        -- intros Hin. apply Hnot. destruct H1 as (L1 & _). rewrite L1.
           rewrite map_app. apply in_or_app. now left.
Qed.

End NewRows.


Section Complete.

Variable E : Env.
Variable c : PlexClient.t.

Lemma media_row_not_null (config : LibraryConfig.t) (media : MediaInfo.t) :
  Scheduler.not_null (media_row E c config media) = item_complete media.
Proof. reflexivity. Qed.

Lemma tally_media_loop_accepted (config : LibraryConfig.t) (l : list MediaInfo.t) :
  forall T : Tally.t,
    forallb item_complete l = true ->
    accepted (Tally.ledger T) (Tally.ledger (fold_left (tally_media E c config) l T)).
Proof.
  induction l as [|media rest IH]; intros T Hall; cbn [fold_left].
  - apply accepted_refl.
  - cbn [forallb] in Hall. apply andb_prop in Hall as [Hm Hrest].
    apply (@accepted_trans _ (Tally.ledger (tally_media E c config T media)) _);
      [|now apply IH].
    unfold tally_media.
    destruct (Scheduler.existing_item _ _ _); [apply accepted_refl|].
    cbv zeta. cbn [Tally.ledger]. exists [media_row E c config media].
    split; [reflexivity|]. cbn [forallb]. now rewrite media_row_not_null, Hm.
Qed.

(** When every item listed carries a key, a title and a type, the table
    takes every row of the scan. *)
Lemma tally_libraries_accepted (clock : nat -> Z) (configs : list LibraryConfig.t) :
  forall (k : nat) (T : Tally.t),
    listings_complete E c clock k configs = true ->
    accepted (Tally.ledger T) (Tally.ledger (tally_libraries E c clock k configs T)).
Proof.
  induction configs as [|config rest IH]; intros k T Hall; cbn [tally_libraries].
  - apply accepted_refl.
  - cbn [listings_complete] in Hall. apply andb_prop in Hall as [Hm Hrest].
    apply (@accepted_trans _ (Tally.ledger (tally_library E c (clock k) config T)) _);
      [|now apply IH].
    unfold tally_library. cbv zeta.
    match goal with
    | |- accepted _ (Tally.ledger (fold_left _ _ ?T0)) =>
        exact (@tally_media_loop_accepted config _ T0 Hm)
    end.
Qed.

End Complete.

(* ------------------------------------------------------------------------- *)
(** * A later listing of an unchanged library lists nothing new *)

Section WindowMonotone.

Variable E : Env.
Variable c : PlexClient.t.

Lemma fold_result_items_ok (cutoff : Z) (items : list Element) :
  forall acc l,
    fold_result (PlexClient.recent_item E c cutoff) items acc = Ok l ->
    forall item, In item items ->
                 exists li, PlexClient.recent_item E c cutoff [] item = Ok li.
Proof.
  induction items as [|x rest IH]; intros acc l H item Hin; [contradiction|].
  simpl in H. rewrite recent_item_acc in H.
  destruct (PlexClient.recent_item E c cutoff [] x) as [lx|e] eqn:Hx;
    cbn [Py.bind] in H; [|discriminate].
  destruct Hin as [<-|Hin]; [eauto|]. exact (IH _ _ H item Hin).
Qed.

Lemma fold_result_ok (cutoff : Z) (items : list Element) :
  forall acc,
    (forall item, In item items ->
                  exists li, PlexClient.recent_item E c cutoff [] item = Ok li) ->
    fold_result (PlexClient.recent_item E c cutoff) items acc
    = Ok (acc ++ flat_map (window_entry E c cutoff) items)%list.
Proof.
  induction items as [|x rest IH]; intros acc H; simpl.
  - now rewrite app_nil_r.
  - rewrite recent_item_acc.
    destruct (H x (or_introl eq_refl)) as [lx Hx].
    unfold window_entry at 1. rewrite Hx. cbn [Py.bind].
    rewrite IH by (intros item Hin; apply H; now right).
    now rewrite app_assoc.
Qed.

Variable zone : string.
Hypothesis Hzone : PlexClient.server_timezone c = Some zone.

(** Moving the cutoff later removes entries and changes none. *)
Lemma recent_item_mono (cutoff cutoff' : Z) (item : Element) (l' : list MediaInfo.t) :
  cutoff <= cutoff' ->
  PlexClient.recent_item E c cutoff' [] item = Ok l' ->
  exists l, PlexClient.recent_item E c cutoff [] item = Ok l /\ incl l' l.
Proof.
  intros Hle. unfold PlexClient.recent_item.
  destruct (truthy (get item "addedAt")).
  2:{ intros H. apply Ok_inj in H. subst. eexists; split; [reflexivity|apply incl_refl]. }
  destruct (PlexClient.int_ E (fstr (get item "addedAt"))) as [ts|e];
    cbn [Py.bind Py.try_except].
  2:{ cbn [Py.dispatch]. destruct (catches _ e); intros H; [|discriminate].
      apply Ok_inj in H. subst. eexists; split; [reflexivity|apply incl_refl]. }
  destruct (fromtimestamp E ts) as [dt|e]; cbn [Py.bind Py.try_except].
  2:{ cbn [Py.dispatch]. destruct (catches _ e); intros H; [|discriminate].
      apply Ok_inj in H. subst. eexists; split; [reflexivity|apply incl_refl]. }
  unfold PlexClient.localize. rewrite Hzone. cbn [Py.bind].
  destruct (ts >=? cutoff') eqn:H'; cbn [Py.try_except]; intros H;
    apply Ok_inj in H; subst l'.
  - replace (ts >=? cutoff) with true.
    + eexists; split; [reflexivity|apply incl_refl].
    + symmetry. rewrite Z.geb_leb in *. apply Z.leb_le. apply Z.leb_le in H'. lia.
  - destruct (ts >=? cutoff); cbn [Py.try_except];
      eexists; (split; [reflexivity|]); intros x [].
Qed.

Lemma window_entry_mono (cutoff cutoff' : Z) (item : Element) (l' : list MediaInfo.t) :
  cutoff <= cutoff' ->
  PlexClient.recent_item E c cutoff' [] item = Ok l' ->
  incl (window_entry E c cutoff' item) (window_entry E c cutoff item).
Proof.
  intros Hle H. destruct (recent_item_mono item Hle H) as (l & Hl & Hincl).
  unfold window_entry. now rewrite H, Hl.
Qed.

Lemma recent_window_mono (library_key : string) (hours now now' : Z) :
  connected c -> 0 <= hours -> now <= now' ->
  incl (recent E c library_key hours now') (recent E c library_key hours now).
Proof.
  intros Hc Hh Hle m Hin.
  destruct (PlexClient.recent_media_body E c library_key hours now') as [l'|e] eqn:Hb'.
  2:{ rewrite (recent_of_raise E library_key hours now' Hc Hb') in Hin. contradiction. }
  rewrite (recent_of_body E library_key hours now' Hc Hb') in Hin.
  pose proof Hb' as Hb. unfold PlexClient.recent_media_body in Hb.
  destruct (PlexClient._make_request E c _) as [root|e] eqn:Hreq;
    cbn [Py.bind] in Hb; [|discriminate].
  destruct (fold_result _ (media_elements root) []) as [l0'|e] eqn:Hf';
    cbn [Py.bind] in Hb; [|discriminate].
  assert (Hcut : PlexClient.cutoff_of now hours <= PlexClient.cutoff_of now' hours)
    by (unfold PlexClient.cutoff_of; lia).
  assert (Hitems : forall item, In item (media_elements root) ->
            exists li, PlexClient.recent_item E c (PlexClient.cutoff_of now hours) [] item
                       = Ok li).
  { intros item Hitem.
    destruct (fold_result_items_ok _ _ _ Hf' item Hitem) as [li' Hli'].
    destruct (recent_item_mono item Hcut Hli') as (li & Hli & _). eauto. }
  assert (Hbody : PlexClient.recent_media_body E c library_key hours now
                  = Ok (sort_desc (flat_map (window_entry E c (PlexClient.cutoff_of now hours))
                                            (media_elements root)))).
  { unfold PlexClient.recent_media_body. rewrite Hreq. cbn [Py.bind].
    rewrite (fold_result_ok _ _ [] Hitems). reflexivity. }
  rewrite (recent_of_body E library_key hours now Hc Hbody).
  apply (Permutation_in _ (Permutation_sym (sort_desc_perm _))).
  apply (Permutation_in _ (recent_perm E c library_key hours now' Hreq Hb')) in Hin.
  apply in_flat_map in Hin as (item & Hitem & Hm).
  apply in_flat_map. exists item. split; [exact Hitem|].
  destruct (fold_result_items_ok _ _ _ Hf' item Hitem) as [li' Hli'].
  exact (window_entry_mono item Hcut Hli' m Hm).
Qed.

End WindowMonotone.

(* ------------------------------------------------------------------------- *)
(** * Whole scans *)

Section WholeScans.

Variable E : Env.

Lemma make_request_raises (c : PlexClient.t) (endpoint : string) (e : exn) :
  http_get E endpoint = Raise e ->
  exists e', PlexClient._make_request E c endpoint = Raise e'.
Proof.
  intros H. unfold PlexClient._make_request.
  destruct (PlexClient.plex_token c =? "")%string; [eauto|]. rewrite H. eauto.
Qed.

(** The handshake either succeeds or fails; it never raises. *)
Lemma handshake_cases :
  handshake_ok E \/ fst (PlexClient.connect E (PlexClient.init E)) = Ok false.
Proof.
  unfold handshake_ok.
  destruct (connect_total E (PlexClient.init E)) as (b & c' & Heq & _).
  rewrite Heq. destruct b; [now left|now right].
Qed.

Lemma handshake_client :
  handshake_ok E ->
  connected (scan_client E) /\
  exists zone, PlexClient.server_timezone (scan_client E) = Some zone.
Proof.
  unfold handshake_ok, scan_client. intros Hok.
  destruct (PlexClient._make_request E (PlexClient.init E) "/") as [root|e] eqn:Hreq.
  - destruct (connect_succeeds E (PlexClient.init E) Hreq) as (c' & Hc & Hconn & _ & Hz).
    rewrite Hc. cbn [snd]. now split.
  - rewrite (connect_fails E (PlexClient.init E) Hreq) in Hok. discriminate.
Qed.

Lemma handshake_fails_without_token :
  PLEX_TOKEN E = "" ->
  fst (PlexClient.connect E (PlexClient.init E)) = Ok false /\
  scan_client E = PlexClient.init E.
Proof.
  intros Htok.
  assert (H : PlexClient._make_request E (PlexClient.init E) "/"
              = Raise (Exception "PLEX_TOKEN environment variable is required")).
  { unfold PlexClient._make_request, PlexClient.init. cbn [PlexClient.plex_token].
    now rewrite Htok. }
  unfold scan_client. rewrite (connect_fails E (PlexClient.init E) H). now split.
Qed.

Lemma handshake_fails_on_error (e : exn) :
  http_get E "/" = Raise e ->
  fst (PlexClient.connect E (PlexClient.init E)) = Ok false /\
  scan_client E = PlexClient.init E.
Proof.
  intros Hget.
  destruct (make_request_raises (PlexClient.init E) "/" Hget) as [e' H].
  unfold scan_client. rewrite (connect_fails E (PlexClient.init E) H). now split.
Qed.

(** A scan that follows another on an unchanged server, with every reading
    of its clock after every reading of the first, finds every listed item
    recorded. *)
Lemma rescan_skips (clock1 clock2 : nat -> Z) (T : Z) (configs : list LibraryConfig.t)
      (rows : list MediaItem.t) :
  handshake_ok E ->
  (forall i, clock1 i <= T) -> (forall j, T <= clock2 j) ->
  tally_libraries E (scan_client E) clock2 1 configs
    (Tally.start
       (Tally.ledger (tally_libraries E (scan_client E) clock1 1 configs (Tally.start rows))))
  = {| Tally.ledger :=
         Tally.ledger (tally_libraries E (scan_client E) clock1 1 configs (Tally.start rows));
       Tally.found := window_sizes E (scan_client E) clock2 1 configs;
       Tally.matched := 0;
       Tally.errors := 0 |}.
Proof.
  intros Hok H1 H2.
  destruct (handshake_client Hok) as (Hc & zone & Hz).
  rewrite tally_libraries_skips.
  - cbn [Tally.start Tally.ledger Tally.found Tally.matched Tally.errors]. f_equal.
  - intros i config media Hnth Hin. cbn [Tally.start Tally.ledger].
    eapply tally_libraries_records; [exact Hnth|].
    eapply recent_window_mono; [exact Hz|exact Hc|lia| |exact Hin].
    specialize (H1 (1 + i)%nat). specialize (H2 (1 + i)%nat). lia.
Qed.

End WholeScans.

Lemma enabled_configs_ledger (d : Database) (rows : list MediaItem.t) :
  Scheduler.enabled_configs {| library_configs := library_configs d; media_items := rows |}
  = Scheduler.enabled_configs d.
Proof. reflexivity. Qed.

(** ** How a scan ends *)

(** When every item listed carries a key, a title and a type, the table
    refuses nothing. *)
Lemma listings_not_rejected (E : Env) (clock : nat -> Z) (d : Database) :
  listings_complete E (scan_client E) clock 1 (Scheduler.enabled_configs d) = true ->
  ~ rejects (media_items d)
            (Tally.ledger (tally_libraries E (scan_client E) clock 1
                                           (Scheduler.enabled_configs d)
                                           (Tally.start (media_items d)))).
Proof.
  intros H. apply accepted_not_rejects.
  exact (@tally_libraries_accepted E (scan_client E) clock (Scheduler.enabled_configs d)
           1 (Tally.start (media_items d)) H).
Qed.

(** A scan whose handshake succeeded returns only when the table refused
    nothing. *)
Lemma returns_not_rejected (E : Env) (clock : nat -> Z) (d : Database) :
  handshake_ok E ->
  fst (Scheduler.run_scan E clock d) = Ok tt ->
  ~ rejects (media_items d)
            (Tally.ledger (tally_libraries E (scan_client E) clock 1
                                           (Scheduler.enabled_configs d)
                                           (Tally.start (media_items d)))).
Proof.
  intros Hok Hret Hrej.
  destruct (@run_scan_rejected E clock d Hok Hrej) as (Hraise & _).
  rewrite Hraise in Hret. discriminate.
Qed.

(** The ledger a scan leaves, however it ends: the ledger it found and
    after it the rows of the tally, or the ledger it found. *)
Lemma scan_ledger (E : Env) (clock : nat -> Z) (d : Database) :
  library_configs (Scheduler.db (snd (Scheduler.run_scan E clock d))) = library_configs d /\
  (media_items (Scheduler.db (snd (Scheduler.run_scan E clock d)))
   = Tally.ledger (tally_libraries E (scan_client E) clock 1 (Scheduler.enabled_configs d)
                                   (Tally.start (media_items d))) /\
   handshake_ok E /\ fst (Scheduler.run_scan E clock d) = Ok tt
   \/
   media_items (Scheduler.db (snd (Scheduler.run_scan E clock d))) = media_items d).
Proof.
  destruct (handshake_cases E) as [Hok|Hno].
  - destruct (@run_scan_cases E clock d Hok) as [[_ H]|(_ & _ & H & _)].
    + rewrite H. cbn [fst snd Scheduler.db media_items library_configs].
      split; [reflexivity|]. left. repeat split. exact Hok.
    + rewrite H. split; [reflexivity|]. now right.
  - rewrite (@run_scan_not_connected E clock d Hno). cbn [snd Scheduler.db].
    split; [reflexivity|]. now right.
Qed.

(** A scan leaves the ledger without a repeated (library config id, item
    key) pair when it found it so, by its own query for an existing row. *)
Lemma scan_keeps_ledger_unique (E : Env) (clock : nat -> Z) (d : Database) :
  NoDup (map MediaItem.uc (media_items d)) ->
  NoDup (map MediaItem.uc
             (media_items (Scheduler.db (snd (Scheduler.run_scan E clock d))))).
Proof.
  intros H. destruct (@scan_ledger E clock d) as [_ [(Hl & _)|Hl]]; rewrite Hl.
  - now apply tally_libraries_unique.
  - exact H.
Qed.

(** A scan that returned, followed by a second one on an unchanged server
    whose clock readings are no earlier: the second returns too, adds no row
    and counts no item as matched or failed. *)
Lemma rescan_adds_nothing (E : Env) (clock1 clock2 : nat -> Z) (d : Database) (T : Z) :
  (forall i, clock1 i <= T) ->
  (forall j, T <= clock2 j) ->
  fst (Scheduler.run_scan E clock1 d) = Ok tt ->
  fst (Scheduler.run_scan E clock2 (Scheduler.db (snd (Scheduler.run_scan E clock1 d))))
  = Ok tt /\
  media_items (Scheduler.db
                 (snd (Scheduler.run_scan E clock2
                         (Scheduler.db (snd (Scheduler.run_scan E clock1 d))))))
  = media_items (Scheduler.db (snd (Scheduler.run_scan E clock1 d))) /\
  (handshake_ok E ->
   ScanLog.total_media_found
     (Scheduler.scan_log
        (snd (Scheduler.run_scan E clock2
                (Scheduler.db (snd (Scheduler.run_scan E clock1 d))))))
   = window_sizes E (scan_client E) clock2 1 (Scheduler.enabled_configs d)) /\
  ScanLog.total_matched
    (Scheduler.scan_log
       (snd (Scheduler.run_scan E clock2
               (Scheduler.db (snd (Scheduler.run_scan E clock1 d)))))) = 0 /\
  ScanLog.total_errors
    (Scheduler.scan_log
       (snd (Scheduler.run_scan E clock2
               (Scheduler.db (snd (Scheduler.run_scan E clock1 d)))))) = 0.
Proof.
  intros H1 H2 Hret.
  destruct (handshake_cases E) as [Hok|Hno].
  - pose proof (@returns_not_rejected E clock1 d Hok Hret) as Hacc.
    rewrite (@run_scan_connected E clock1 d Hok Hacc). cbn [fst snd Scheduler.db].
    assert (Hskip := @rescan_skips E clock1 clock2 T (Scheduler.enabled_configs d)
                       (media_items d) Hok H1 H2).
    assert (Hacc2 : ~ rejects
                (media_items
                   {| library_configs := library_configs d;
                      media_items :=
                        Tally.ledger (tally_libraries E (scan_client E) clock1 1
                                        (Scheduler.enabled_configs d)
                                        (Tally.start (media_items d))) |})
                (Tally.ledger
                   (tally_libraries E (scan_client E) clock2 1
                      (Scheduler.enabled_configs
                         {| library_configs := library_configs d;
                            media_items :=
                              Tally.ledger (tally_libraries E (scan_client E) clock1 1
                                              (Scheduler.enabled_configs d)
                                              (Tally.start (media_items d))) |})
                      (Tally.start
                         (media_items
                            {| library_configs := library_configs d;
                               media_items :=
                                 Tally.ledger (tally_libraries E (scan_client E) clock1 1
                                                 (Scheduler.enabled_configs d)
                                                 (Tally.start (media_items d))) |}))))).
    { cbn [media_items]. rewrite enabled_configs_ledger, Hskip. cbn [Tally.ledger].
      apply accepted_not_rejects, accepted_refl. }
    rewrite (@run_scan_connected E clock2 _ Hok Hacc2).
    cbn [fst snd Scheduler.db Scheduler.scan_log media_items library_configs
         ScanLog.total_media_found ScanLog.total_matched ScanLog.total_errors].
    rewrite enabled_configs_ledger, Hskip.
    repeat split; reflexivity.
  - rewrite (@run_scan_not_connected E clock1 d Hno). cbn [fst snd Scheduler.db].
    rewrite (@run_scan_not_connected E clock2 d Hno).
    repeat split; try reflexivity.
    intros Hok. unfold handshake_ok in Hok. rewrite Hno in Hok. discriminate.
Qed.

(** C7.  The ledger query of [scan_libraries] does skip every pair it finds
    recorded: whenever a scan returns, a second scan of the unchanged server
    (clock readings no earlier) returns too and adds no [MediaItem] row.
    But a scan that the table stops stores nothing, and the items it had
    reconciled are taken up again by the next scan: with a library that
    lists an item without a title at the edge of the window and a titled
    one, the first scan raises and leaves the ledger empty, and the second,
    one second later, adds a row. *)
Theorem rerun_after_stopped_scan_adds_rows :
  (forall (E : Env) (clock1 clock2 : nat -> Z) (d : Database) (T : Z),
      (forall i, clock1 i <= T) ->
      (forall j, T <= clock2 j) ->
      fst (Scheduler.run_scan E clock1 d) = Ok tt ->
      fst (Scheduler.run_scan E clock2 (Scheduler.db (snd (Scheduler.run_scan E clock1 d))))
      = Ok tt /\
      media_items (Scheduler.db
                     (snd (Scheduler.run_scan E clock2
                             (Scheduler.db (snd (Scheduler.run_scan E clock1 d))))))
      = media_items (Scheduler.db (snd (Scheduler.run_scan E clock1 d)))) /\
  map (fun item => (get item "key", get item "title", get item "addedAt"))
      (media_elements
         (Scenario.container [Scenario2.untitled "/u" "913600" "imdb://tt1";
                              Scenario.video "/v" "V" "990000" "imdb://tt2"]))
  = [(Some "/u", None, Some "913600"); (Some "/v", Some "V", Some "990000")] /\
  fst (Scheduler.run_scan Scenario2.env_untitled (Scenario.at_time 1000000)
         Scenario.db_one_library)
  = Raise Scheduler.pending_rollback_error /\
  Scheduler.db (snd (Scheduler.run_scan Scenario2.env_untitled (Scenario.at_time 1000000)
                       Scenario.db_one_library))
  = Scenario.db_one_library /\
  media_items Scenario.db_one_library = [] /\
  fst (Scheduler.run_scan Scenario2.env_untitled (Scenario.at_time 1000001)
         (Scheduler.db (snd (Scheduler.run_scan Scenario2.env_untitled
                               (Scenario.at_time 1000000) Scenario.db_one_library))))
  = Ok tt /\
  map MediaItem.uc
      (media_items
         (Scheduler.db
            (snd (Scheduler.run_scan Scenario2.env_untitled (Scenario.at_time 1000001)
                    (Scheduler.db (snd (Scheduler.run_scan Scenario2.env_untitled
                                          (Scenario.at_time 1000000)
                                          Scenario.db_one_library)))))))
  = [(1, Some "/v")].
Proof.
  split.
  - intros E clock1 clock2 d T H1 H2 Hret.
    destruct (@rescan_adds_nothing E clock1 clock2 d T H1 H2 Hret) as (A & B & _).
    split; [exact A|exact B].
  - repeat split; reflexivity.
Qed.
(** C10 (as amended). The counters of a scan whose handshake succeeded and
    whose listed items all carry a key, a title and a type.  The scan
    returns.  [total_media_found] is the number of items inside the window of
    each enabled library, added up, whether or not they were in the ledger
    already.  The rows the scan adds are the rows of the listed items that
    were not in the ledger, each holding the outcome of the reconciliation
    of its item: every listed item is in the ledger afterwards, and no pair
    is there twice if none was before.  [total_matched] is the number of
    the rows added whose reconciliation succeeded and [total_errors] the
    number of them whose reconciliation failed.  A repeat scan of the
    unchanged server adds no row and reports no matched and no failed item,
    yet reports every item inside its windows as found. *)
Theorem counters_count_window_and_new_rows :
  forall (E : Env) (clock : nat -> Z) (d : Database),
    handshake_ok E ->
    listings_complete E (scan_client E) clock 1 (Scheduler.enabled_configs d) = true ->
    fst (Scheduler.run_scan E clock d) = Ok tt /\
    ScanLog.total_media_found (Scheduler.scan_log (snd (Scheduler.run_scan E clock d)))
    = window_sizes E (scan_client E) clock 1 (Scheduler.enabled_configs d) /\
    (exists new,
        media_items (Scheduler.db (snd (Scheduler.run_scan E clock d)))
        = (media_items d ++ new)%list /\
        (forall r,
            In r new ->
            ~ In (MediaItem.uc r) (map MediaItem.uc (media_items d)) /\
            exists i config media,
              nth_error (Scheduler.enabled_configs d) i = Some config /\
              In media (recent E (scan_client E) (LibraryConfig.library_key config) 24
                               (clock (S i))) /\
              r = media_row E (scan_client E) config media /\
              MediaItem.match_successful r
              = fst (reconcile E (scan_client E) (LibraryConfig.library_key config)
                               (MediaInfo.key media) (LibraryConfig.agent_name config))) /\
        (forall i config media,
            nth_error (Scheduler.enabled_configs d) i = Some config ->
            In media (recent E (scan_client E) (LibraryConfig.library_key config) 24
                             (clock (S i))) ->
            recorded (LibraryConfig.id config) (MediaInfo.key media)
                     (media_items d ++ new)) /\
        (NoDup (map MediaItem.uc (media_items d)) ->
         NoDup (map MediaItem.uc (media_items d ++ new))) /\
        ScanLog.total_matched (Scheduler.scan_log (snd (Scheduler.run_scan E clock d)))
        = count_matched new /\
        ScanLog.total_errors (Scheduler.scan_log (snd (Scheduler.run_scan E clock d)))
        = count_failed new) /\
    (forall (clock2 : nat -> Z) (T : Z),
        (forall i, clock i <= T) ->
        (forall j, T <= clock2 j) ->
        fst (Scheduler.run_scan E clock2
               (Scheduler.db (snd (Scheduler.run_scan E clock d)))) = Ok tt /\
        media_items (Scheduler.db
                       (snd (Scheduler.run_scan E clock2
                               (Scheduler.db (snd (Scheduler.run_scan E clock d))))))
        = media_items (Scheduler.db (snd (Scheduler.run_scan E clock d))) /\
        ScanLog.total_media_found
          (Scheduler.scan_log
             (snd (Scheduler.run_scan E clock2
                     (Scheduler.db (snd (Scheduler.run_scan E clock d))))))
        = window_sizes E (scan_client E) clock2 1 (Scheduler.enabled_configs d) /\
        ScanLog.total_matched
          (Scheduler.scan_log
             (snd (Scheduler.run_scan E clock2
                     (Scheduler.db (snd (Scheduler.run_scan E clock d)))))) = 0 /\
        ScanLog.total_errors
          (Scheduler.scan_log
             (snd (Scheduler.run_scan E clock2
                     (Scheduler.db (snd (Scheduler.run_scan E clock d)))))) = 0).
Proof.
  intros E clock d Hok Hall.
  pose proof (@listings_not_rejected E clock d Hall) as Hacc.
  assert (Hret : fst (Scheduler.run_scan E clock d) = Ok tt)
    by now rewrite (@run_scan_connected E clock d Hok Hacc).
  split; [exact Hret|]. split; [|split].
  - rewrite (@run_scan_connected E clock d Hok Hacc).
    cbn [snd Scheduler.scan_log ScanLog.total_media_found].
    destruct (tally_libraries_extends E (scan_client E) clock (Scheduler.enabled_configs d)
                1 (Tally.start (media_items d))) as (new & _ & F & _).
    rewrite F. cbn [Tally.start Tally.found]. lia.
  - pose proof (@scan_keeps_ledger_unique E clock d) as Hnd.
    rewrite (@run_scan_connected E clock d Hok Hacc) in Hnd |- *.
    cbn [snd Scheduler.db Scheduler.scan_log media_items
         ScanLog.total_matched ScanLog.total_errors] in Hnd |- *.
    destruct (tally_libraries_rows E (scan_client E) clock (Scheduler.enabled_configs d)
                1 (Tally.start (media_items d)))
      as (new & (L & _ & M & Er) & _ & Hrows).
    cbn [Tally.start Tally.ledger Tally.matched Tally.errors] in L, M, Er, Hrows.
    rewrite L in Hnd.
    exists new. split; [exact L|].
    split; [|split; [|split; [exact Hnd|split; [rewrite M; lia|rewrite Er; lia]]]].
    + intros r Hin. rewrite Forall_forall in Hrows.
      destruct (Hrows r Hin) as [(i & config & media & Hnth & Hm & ->) Hnew].
      split; [exact Hnew|]. exists i, config, media. repeat split; assumption.
    + intros i config media Hnth Hin. rewrite <- L.
      exact (@tally_libraries_records E (scan_client E) clock (Scheduler.enabled_configs d)
               1 i (Tally.start (media_items d)) config media Hnth Hin).
  - intros clock2 T H1 H2.
    destruct (@rescan_adds_nothing E clock clock2 d T H1 H2 Hret) as (A & B & C & D & F).
    split; [exact A|]. split; [exact B|]. split; [exact (C Hok)|]. split; [exact D|exact F].
Qed.

Lemma counters_count_window_and_new_rows_witness :
  fst (Scheduler.run_scan Scenario2.env_counters (Scenario.at_time 1000000)
         Scenario2.db_counters) = Ok tt /\
  map MediaItem.uc (media_items Scenario2.db_counters) = [(1, Some "/m/2")] /\
  map (fun r => (MediaItem.uc r, MediaItem.match_successful r))
      (media_items
         (Scheduler.db (snd (Scheduler.run_scan Scenario2.env_counters
                               (Scenario.at_time 1000000) Scenario2.db_counters))))
  = [((1, Some "/m/2"), true); ((1, Some "/m/1"), true); ((1, Some "/m/4"), false);
     ((1, Some "/m/3"), true)] /\
  Scheduler.scan_log (snd (Scheduler.run_scan Scenario2.env_counters
                             (Scenario.at_time 1000000) Scenario2.db_counters))
  = {| ScanLog.scan_started_at := 1000000;
       ScanLog.scan_completed_at := Some 1000000;
       ScanLog.total_libraries := 1;
       ScanLog.total_media_found := 4;
       ScanLog.total_matched := 2;
       ScanLog.total_errors := 1;
       ScanLog.status := "completed";
       ScanLog.error_message := None |} /\
  Scheduler.scan_log
    (snd (Scheduler.run_scan Scenario2.env_counters (Scenario.at_time 1000060)
            (Scheduler.db (snd (Scheduler.run_scan Scenario2.env_counters
                                  (Scenario.at_time 1000000) Scenario2.db_counters)))))
  = {| ScanLog.scan_started_at := 1000060;
       ScanLog.scan_completed_at := Some 1000060;
       ScanLog.total_libraries := 1;
       ScanLog.total_media_found := 4;
       ScanLog.total_matched := 0;
       ScanLog.total_errors := 0;
       ScanLog.status := "completed";
       ScanLog.error_message := None |} /\
  media_items
    (Scheduler.db
       (snd (Scheduler.run_scan Scenario2.env_counters (Scenario.at_time 1000060)
               (Scheduler.db (snd (Scheduler.run_scan Scenario2.env_counters
                                     (Scenario.at_time 1000000) Scenario2.db_counters))))))
  = media_items
      (Scheduler.db (snd (Scheduler.run_scan Scenario2.env_counters
                            (Scenario.at_time 1000000) Scenario2.db_counters))).
Proof.
  pose proof (@counters_count_window_and_new_rows Scenario2.env_counters
                (Scenario.at_time 1000000) Scenario2.db_counters eq_refl eq_refl)
    as (Hret & _ & _ & Hrepeat).
  assert (H1 : forall i : nat, Scenario.at_time 1000000 i <= 1000030)
    by (intros i; unfold Scenario.at_time; lia).
  assert (H2 : forall j : nat, 1000030 <= Scenario.at_time 1000060 j)
    by (intros j; unfold Scenario.at_time; lia).
  destruct (Hrepeat (Scenario.at_time 1000060) 1000030 H1 H2) as (_ & Hrows & _).
  split; [exact Hret|]. split; [reflexivity|]. split; [reflexivity|].
  split; [reflexivity|]. split; [reflexivity|exact Hrows].
Defined.

(** C10, as stated, fails: a repeat scan of an unchanged server does not
    always report a nonzero [total_media_found].  The item of the library
    recorded by the first scan has left the window when the second scan
    runs: the second scan completes, adds no row and reports 0 items
    found. *)
Lemma repeat_scan_of_empty_window_finds_nothing :
  map MediaItem.uc
      (media_items
         (Scheduler.db (snd (Scheduler.run_scan Scenario.env_one_candidate
                               (Scenario.at_time 1000000) Scenario.db_one_library))))
  = [(1, Some "/lib/5/x1")] /\
  fst (Scheduler.run_scan Scenario.env_one_candidate (Scenario.at_time 2000000)
         (Scheduler.db (snd (Scheduler.run_scan Scenario.env_one_candidate
                               (Scenario.at_time 1000000) Scenario.db_one_library))))
  = Ok tt /\
  media_items
    (Scheduler.db
       (snd (Scheduler.run_scan Scenario.env_one_candidate (Scenario.at_time 2000000)
               (Scheduler.db (snd (Scheduler.run_scan Scenario.env_one_candidate
                                     (Scenario.at_time 1000000) Scenario.db_one_library))))))
  = media_items
      (Scheduler.db (snd (Scheduler.run_scan Scenario.env_one_candidate
                            (Scenario.at_time 1000000) Scenario.db_one_library))) /\
  Scheduler.scan_log
    (snd (Scheduler.run_scan Scenario.env_one_candidate (Scenario.at_time 2000000)
            (Scheduler.db (snd (Scheduler.run_scan Scenario.env_one_candidate
                                  (Scenario.at_time 1000000) Scenario.db_one_library)))))
  = {| ScanLog.scan_started_at := 2000000;
       ScanLog.scan_completed_at := Some 2000000;
       ScanLog.total_libraries := 1;
       ScanLog.total_media_found := 0;
       ScanLog.total_matched := 0;
       ScanLog.total_errors := 0;
       ScanLog.status := "completed";
       ScanLog.error_message := None |}.
Proof. repeat split; reflexivity. Qed.

(* ------------------------------------------------------------------------- *)
(** * A library whose listing fails *)

(** C3 (as amended). In a scan over three enabled libraries where listing
    the second fails with a connection error, and where every item the
    libraries list carries a key, a title and a type, the failure is caught
    inside [get_recent_media], which returns the empty list: the scan goes
    on to the third library, whose listed items all end up in the ledger,
    and the record is finalized completed with three libraries scanned.  The
    failed listing adds nothing to [total_errors], which counts the rows
    added whose reconciliation failed, nor to [total_media_found]. *)
Theorem failed_listing_is_isolated :
  forall (E : Env) (clock : nat -> Z) (d : Database)
         (c1 c2 c3 : LibraryConfig.t) (text : string),
    handshake_ok E ->
    Scheduler.enabled_configs d = [c1; c2; c3] ->
    http_get E ("/library/sections/" ++ LibraryConfig.library_key c2 ++ "/all")
    = Raise (RequestException text) ->
    listings_complete E (scan_client E) clock 1 (Scheduler.enabled_configs d) = true ->
    fst (Scheduler.run_scan E clock d) = Ok tt /\
    ScanLog.status (Scheduler.scan_log (snd (Scheduler.run_scan E clock d))) = "completed" /\
    ScanLog.total_libraries (Scheduler.scan_log (snd (Scheduler.run_scan E clock d))) = 3 /\
    recent E (scan_client E) (LibraryConfig.library_key c2) 24 (clock 2%nat) = [] /\
    (forall media,
        In media (recent E (scan_client E) (LibraryConfig.library_key c3) 24 (clock 3%nat)) ->
        recorded (LibraryConfig.id c3) (MediaInfo.key media)
                 (media_items (Scheduler.db (snd (Scheduler.run_scan E clock d))))) /\
    ScanLog.total_media_found (Scheduler.scan_log (snd (Scheduler.run_scan E clock d)))
    = Z.of_nat (List.length
                  (recent E (scan_client E) (LibraryConfig.library_key c1) 24 (clock 1%nat)))
      + Z.of_nat (List.length
                    (recent E (scan_client E) (LibraryConfig.library_key c3) 24 (clock 3%nat))) /\
    (exists new,
        media_items (Scheduler.db (snd (Scheduler.run_scan E clock d)))
        = (media_items d ++ new)%list /\
        ScanLog.total_errors (Scheduler.scan_log (snd (Scheduler.run_scan E clock d)))
        = count_failed new /\
        ScanLog.total_matched (Scheduler.scan_log (snd (Scheduler.run_scan E clock d)))
        = count_matched new).
Proof.
  intros E clock d c1 c2 c3 text Hok Hcfg Hget Hall.
  pose proof (@listings_not_rejected E clock d Hall) as Hacc.
  destruct (handshake_client Hok) as (Hc & zone & Hz).
  assert (Hr2 : forall now,
             recent E (scan_client E) (LibraryConfig.library_key c2) 24 now = []).
  { intros now.
    destruct (make_request_raises E (scan_client E) _ Hget) as [e' He'].
    apply (@recent_of_raise E (scan_client E) _ 24 now e' Hc).
    unfold PlexClient.recent_media_body. now rewrite He'. }
  rewrite (@run_scan_connected E clock d Hok Hacc).
  cbn [fst snd Scheduler.db Scheduler.scan_log media_items
       ScanLog.status ScanLog.total_libraries
       ScanLog.total_media_found ScanLog.total_matched ScanLog.total_errors].
  rewrite Hcfg.
  destruct (tally_libraries_extends E (scan_client E) clock [c1; c2; c3]
              1 (Tally.start (media_items d))) as (new & L & F & M & Er).
  cbn [Tally.start Tally.ledger Tally.found Tally.matched Tally.errors window_sizes] in L, F, M, Er.
  rewrite Hr2 in F. cbn [List.length] in F.
  split; [reflexivity|]. split; [reflexivity|]. split; [reflexivity|].
  split; [apply Hr2|]. split; [|split].
  - intros media Hin.
    apply (@tally_libraries_records E (scan_client E) clock [c1; c2; c3] 1 2
             (Tally.start (media_items d)) c3 media eq_refl Hin).
  - rewrite F. lia.
  - exists new. rewrite L, M, Er. repeat split; lia.
Qed.

Lemma failed_listing_is_isolated_witness :
  ScanLog.status
    (Scheduler.scan_log
       (snd (Scheduler.run_scan Scenario.env_second_library_down
               (Scenario.at_time 1000000) Scenario.db_three_libraries))) = "completed" /\
  recorded 3 (Some "/library/metadata/31")
    (media_items
       (Scheduler.db
          (snd (Scheduler.run_scan Scenario.env_second_library_down
                  (Scenario.at_time 1000000) Scenario.db_three_libraries)))).
Proof.
  pose proof (@failed_listing_is_isolated Scenario.env_second_library_down
                (Scenario.at_time 1000000) Scenario.db_three_libraries
                (Scenario.library 1 "1" "Movies") (Scenario.library 2 "2" "Shows")
                (Scenario.library 3 "3" "Concerts") "Connection refused"
                eq_refl eq_refl eq_refl eq_refl)
    as (_ & Hstatus & _ & _ & Hthird & _).
  split; [exact Hstatus|].
  apply (Hthird {| MediaInfo.key := Some "/library/metadata/31";
                   MediaInfo.title := Some "C";
                   MediaInfo.type := Some "movie";
                   MediaInfo.addedAt := 995000;
                   MediaInfo.addedAt_server := (995000, "UTC");
                   MediaInfo.year := None;
                   MediaInfo.summary := "" |}).
  left. reflexivity.
Defined.

(** C3, as stated, fails: three enabled libraries, the listing of the second
    refused by the server, the other two holding one matched item each.  The
    scan completes and processes the third library, but its [total_errors]
    is 0, not at least 1. *)
Lemma failed_listing_is_not_counted :
  http_get Scenario.env_second_library_down "/library/sections/2/all"
  = Raise (RequestException "Connection refused") /\
  Scheduler.scan_log
    (snd (Scheduler.run_scan Scenario.env_second_library_down
            (Scenario.at_time 1000000) Scenario.db_three_libraries))
  = {| ScanLog.scan_started_at := 1000000;
       ScanLog.scan_completed_at := Some 1000000;
       ScanLog.total_libraries := 3;
       ScanLog.total_media_found := 2;
       ScanLog.total_matched := 2;
       ScanLog.total_errors := 0;
       ScanLog.status := "completed";
       ScanLog.error_message := None |} /\
  map MediaItem.uc
      (media_items
         (Scheduler.db
            (snd (Scheduler.run_scan Scenario.env_second_library_down
                    (Scenario.at_time 1000000) Scenario.db_three_libraries))))
  = [(1, Some "/library/metadata/11"); (3, Some "/library/metadata/31")] /\
  ~ (1 <= ScanLog.total_errors
            (Scheduler.scan_log
               (snd (Scheduler.run_scan Scenario.env_second_library_down
                       (Scenario.at_time 1000000) Scenario.db_three_libraries)))).
Proof.
  split; [reflexivity|]. split; [reflexivity|]. split; [reflexivity|].
  intros H. vm_compute in H. apply H. reflexivity.
Qed.
(* ------------------------------------------------------------------------- *)
(** * The scan record *)

(** C8.  A scan that returns has committed its record twice: as created,
    running and with no completion time, then in a terminal state,
    completed or failed, with a completion time.  But a scan does not always
    return.  When its handshake succeeded and the table refuses one of its
    rows (a listed item with no key, no title or no type), the flush raises,
    the session is left without a rollback, and the commit of the handler of
    the outer [try] raises in its turn: the exception leaves
    [scan_libraries], and the record stays as it was first committed,
    running and with no completion time.  A scan ends in no other way: one
    that does not return has raised this exception after a handshake, has
    left the tables as they were, and was listed an item with no key, no
    title or no type. *)
Theorem stopped_scan_leaves_record_running :
  forall (E : Env) (clock : nat -> Z) (d : Database),
    (fst (Scheduler.run_scan E clock d) = Ok tt ->
     exists final,
       Scheduler.committed (snd (Scheduler.run_scan E clock d))
       = [ScanLog.new (clock 0%nat); final] /\
       (ScanLog.status final = "completed" \/ ScanLog.status final = "failed") /\
       exists k, ScanLog.scan_completed_at final = Some (clock k)) /\
    (handshake_ok E ->
     rejects (media_items d)
             (Tally.ledger (tally_libraries E (scan_client E) clock 1
                                            (Scheduler.enabled_configs d)
                                            (Tally.start (media_items d)))) ->
     fst (Scheduler.run_scan E clock d) = Raise Scheduler.pending_rollback_error /\
     Scheduler.committed (snd (Scheduler.run_scan E clock d)) = [ScanLog.new (clock 0%nat)] /\
     ScanLog.status (ScanLog.new (clock 0%nat)) = "running" /\
     ScanLog.scan_completed_at (ScanLog.new (clock 0%nat)) = None /\
     Scheduler.db (snd (Scheduler.run_scan E clock d)) = d) /\
    (fst (Scheduler.run_scan E clock d) <> Ok tt ->
     fst (Scheduler.run_scan E clock d) = Raise Scheduler.pending_rollback_error /\
     Scheduler.committed (snd (Scheduler.run_scan E clock d)) = [ScanLog.new (clock 0%nat)] /\
     Scheduler.db (snd (Scheduler.run_scan E clock d)) = d /\
     handshake_ok E /\
     exists i config media,
       nth_error (Scheduler.enabled_configs d) i = Some config /\
       In media (recent E (scan_client E) (LibraryConfig.library_key config) 24
                        (clock (S i))) /\
       item_complete media = false).
Proof.
  intros E clock d. split; [|split].
  - intros Hret. destruct (handshake_cases E) as [Hok|Hno].
    + pose proof (@returns_not_rejected E clock d Hok Hret) as Hacc.
      rewrite (@run_scan_connected E clock d Hok Hacc).
      cbn [snd Scheduler.committed]. eexists. split; [reflexivity|].
      cbn [ScanLog.status ScanLog.scan_completed_at]. split; [now left|eauto].
    + rewrite (@run_scan_not_connected E clock d Hno).
      cbn [snd Scheduler.committed]. eexists. split; [reflexivity|].
      cbn [ScanLog.status ScanLog.scan_completed_at]. split; [now right|].
      exists 1%nat. reflexivity.
  - intros Hok Hrej.
    destruct (@run_scan_rejected E clock d Hok Hrej) as (A & B & C).
    split; [exact A|]. split; [exact C|]. split; [reflexivity|].
    split; [reflexivity|exact B].
  - intros Hne. destruct (handshake_cases E) as [Hok|Hno].
    + destruct (@run_scan_cases E clock d Hok) as [[_ Hrun]|(Hrej & Hraise & Hdb & Hcom)].
      * exfalso. apply Hne. now rewrite Hrun.
      * split; [exact Hraise|]. split; [exact Hcom|]. split; [exact Hdb|].
        split; [exact Hok|].
        destruct Hrej as (new' & r & Hl & Hin & Hnull).
        destruct (tally_libraries_rows E (scan_client E) clock (Scheduler.enabled_configs d)
                    1 (Tally.start (media_items d))) as (new & (L & _) & _ & Hall).
        cbn [Tally.start Tally.ledger] in L, Hall.
        rewrite L in Hl. apply app_inv_head in Hl. subst new'.
        rewrite Forall_forall in Hall.
        destruct (Hall r Hin) as [(i & config & media & Hnth & Hm & ->) _].
        exists i, config, media. split; [exact Hnth|]. split; [exact Hm|].
        exact Hnull.
    + exfalso. apply Hne. now rewrite (@run_scan_not_connected E clock d Hno).
Qed.

Lemma stopped_scan_leaves_record_running_witness :
  map (fun item => (get item "key", get item "title", get item "type"))
      (media_elements
         (Scenario.container [Scenario2.untitled "/u" "913600" "imdb://tt1";
                              Scenario.video "/v" "V" "990000" "imdb://tt2"]))
  = [(Some "/u", None, Some "movie"); (Some "/v", Some "V", Some "movie")] /\
  fst (Scheduler.run_scan Scenario2.env_untitled (Scenario.at_time 1000000)
         Scenario.db_one_library)
  = Raise (Exception "PendingRollbackError") /\
  Scheduler.committed
    (snd (Scheduler.run_scan Scenario2.env_untitled (Scenario.at_time 1000000)
            Scenario.db_one_library))
  = [ {| ScanLog.scan_started_at := 1000000;
         ScanLog.scan_completed_at := None;
         ScanLog.total_libraries := 0;
         ScanLog.total_media_found := 0;
         ScanLog.total_matched := 0;
         ScanLog.total_errors := 0;
         ScanLog.status := "running";
         ScanLog.error_message := None |} ] /\
  media_items
    (Scheduler.db (snd (Scheduler.run_scan Scenario2.env_untitled (Scenario.at_time 1000000)
                          Scenario.db_one_library)))
  = [].
Proof.
  assert (Hne : fst (Scheduler.run_scan Scenario2.env_untitled (Scenario.at_time 1000000)
                       Scenario.db_one_library) <> Ok tt).
  { intros H. vm_compute in H. discriminate H. }
  destruct (proj2 (proj2 (@stopped_scan_leaves_record_running Scenario2.env_untitled
                            (Scenario.at_time 1000000) Scenario.db_one_library)) Hne)
    as (A & B & C & _).
  split; [reflexivity|]. split; [exact A|]. split; [exact B|].
  now rewrite C.
Defined.

(* ------------------------------------------------------------------------- *)
(** * A missing token *)

(** C4 (as amended). A scan with no credential token ends as a scan whose
    handshake meets a connection error does: [connect] returns false without
    raising, the record is finalized failed with the text "Failed to connect
    to Plex server", no library is scanned and the ledger is left as it was.
    With no token the outcome does not depend on the server at all. *)
Theorem missing_token_fails_the_scan :
  forall (E : Env) (clock : nat -> Z) (d : Database),
    PLEX_TOKEN E = "" \/ (exists e, http_get E "/" = Raise e) ->
    Scheduler.run_scan E clock d
    = (Ok tt,
       {| Scheduler.db := d;
          Scheduler.plex_client := PlexClient.init E;
          Scheduler.scan_log :=
            {| ScanLog.scan_started_at := clock 0%nat;
               ScanLog.scan_completed_at := Some (clock 1%nat);
               ScanLog.total_libraries := 0;
               ScanLog.total_media_found := 0;
               ScanLog.total_matched := 0;
               ScanLog.total_errors := 0;
               ScanLog.status := "failed";
               ScanLog.error_message := Some "Failed to connect to Plex server" |};
          Scheduler.committed :=
            [ScanLog.new (clock 0%nat);
             {| ScanLog.scan_started_at := clock 0%nat;
                ScanLog.scan_completed_at := Some (clock 1%nat);
                ScanLog.total_libraries := 0;
                ScanLog.total_media_found := 0;
                ScanLog.total_matched := 0;
                ScanLog.total_errors := 0;
                ScanLog.status := "failed";
                ScanLog.error_message := Some "Failed to connect to Plex server" |}];
          Scheduler.ticks := 2;
          Scheduler.total_media_found := 0;
          Scheduler.total_matched := 0;
          Scheduler.total_errors := 0 |}).
Proof.
  intros E clock d H.
  assert (Hno : fst (PlexClient.connect E (PlexClient.init E)) = Ok false /\
                scan_client E = PlexClient.init E).
  { destruct H as [Htok|[e Hget]].
    - now apply handshake_fails_without_token.
    - now apply handshake_fails_on_error with (e := e). }
  destruct Hno as [Hno Hclient].
  rewrite (@run_scan_not_connected E clock d Hno). cbv zeta.
  now rewrite Hclient.
Qed.

Lemma missing_token_fails_the_scan_witness :
  ScanLog.status
    (Scheduler.scan_log
       (snd (Scheduler.run_scan Scenario.env_no_token (Scenario.at_time 1000000)
               Scenario.db_three_libraries))) = "failed" /\
  Scheduler.db
    (snd (Scheduler.run_scan Scenario.env_no_token (Scenario.at_time 1000000)
            Scenario.db_three_libraries)) = Scenario.db_three_libraries.
Proof.
  rewrite (@missing_token_fails_the_scan Scenario.env_no_token (Scenario.at_time 1000000)
             Scenario.db_three_libraries (or_introl eq_refl)).
  split; reflexivity.
Defined.

(** C4, as stated, fails: a scan with no token and a scan whose server
    refuses the connection leave the same record, the same commits and the
    same ledger; the first is not told apart from the second, and neither
    stops anything but the scan itself. *)
Lemma missing_token_is_not_distinguished :
  PLEX_TOKEN Scenario.env_no_token = "" /\
  http_get Scenario.env_refused "/" = Raise (RequestException "Connection refused") /\
  fst (PlexClient.connect Scenario.env_no_token (PlexClient.init Scenario.env_no_token))
  = fst (PlexClient.connect Scenario.env_refused (PlexClient.init Scenario.env_refused)) /\
  Scheduler.scan_log
    (snd (Scheduler.run_scan Scenario.env_no_token (Scenario.at_time 1000000)
            Scenario.db_three_libraries))
  = Scheduler.scan_log
      (snd (Scheduler.run_scan Scenario.env_refused (Scenario.at_time 1000000)
              Scenario.db_three_libraries)) /\
  Scheduler.committed
    (snd (Scheduler.run_scan Scenario.env_no_token (Scenario.at_time 1000000)
            Scenario.db_three_libraries))
  = Scheduler.committed
      (snd (Scheduler.run_scan Scenario.env_refused (Scenario.at_time 1000000)
              Scenario.db_three_libraries)) /\
  Scheduler.db
    (snd (Scheduler.run_scan Scenario.env_no_token (Scenario.at_time 1000000)
            Scenario.db_three_libraries))
  = Scheduler.db
      (snd (Scheduler.run_scan Scenario.env_refused (Scenario.at_time 1000000)
              Scenario.db_three_libraries)).
Proof. repeat split; reflexivity. Qed.

(* ------------------------------------------------------------------------- *)
(** * Concurrent scans *)

Lemma insert_unique_nodup (r : MediaItem.t) (rows : list MediaItem.t) :
  NoDup (map MediaItem.uc rows) ->
  NoDup (map MediaItem.uc (Concurrent.insert_unique r rows)).
Proof.
  intros H. unfold Concurrent.insert_unique.
  destruct (Scheduler.existing_item _ _ rows) as [x|] eqn:Hex; [exact H|].
  apply existing_item_none in Hex.
  rewrite map_app. simpl.
  apply NoDup_app_remove_l with (l := []). simpl.
  apply (Permutation_NoDup (l := MediaItem.uc r :: map MediaItem.uc rows)).
  - apply Permutation_cons_append.
  - constructor; [exact Hex|exact H].
Qed.

Section ConcurrentFacts.

Variable E : Env.
Variable c : PlexClient.t.

Lemma exec_keeps_unique (ev : Concurrent.event) (s s' : Concurrent.system) :
  NoDup (map MediaItem.uc (Concurrent.table s)) ->
  Concurrent.exec E c ev s = Some s' ->
  NoDup (map MediaItem.uc (Concurrent.table s')).
Proof.
  intros H Hex. destruct ev as [tr listed|i|i|i]; simpl in Hex.
  - injection Hex as <-. exact H.
  - destruct (nth_error (Concurrent.threads s) i) as [[[|[config media] rest] [r|]]|];
      try discriminate.
    destruct (Scheduler.existing_item _ _ _); injection Hex as <-; exact H.
  - destruct (nth_error (Concurrent.threads s) i) as [[rest [r|]]|]; try discriminate.
    injection Hex as <-. simpl. now apply insert_unique_nodup.
  - destruct (nth_error (Concurrent.threads s) i) as [[[|x rest] [r|]]|];
      try discriminate.
    injection Hex as <-. exact H.
Qed.

Lemma run_keeps_unique (evs : list Concurrent.event) :
  forall s s',
    NoDup (map MediaItem.uc (Concurrent.table s)) ->
    Concurrent.run E c evs s = Some s' ->
    NoDup (map MediaItem.uc (Concurrent.table s')).
Proof.
  induction evs as [|ev rest IH]; intros s s' H Hrun; simpl in Hrun.
  - injection Hrun as <-. exact H.
  - destruct (Concurrent.exec E c ev s) as [s1|] eqn:Hex; [|discriminate].
    exact (IH s1 s' (exec_keeps_unique ev s H Hex) Hrun).
Qed.

End ConcurrentFacts.

(** C2 (as amended). Scans are not serialised: in every state the system can
    reach, a manual trigger starts one more execution of [scan_libraries]
    beside those already running; it is neither coalesced nor queued.  The
    ledger still never holds two rows with the same (library config id,
    remote item key), because the table rejects the second one. *)
Theorem triggers_are_not_serialised :
  forall (E : Env) (c : PlexClient.t) (evs : list Concurrent.event)
         (s0 s : Concurrent.system),
    NoDup (map MediaItem.uc (Concurrent.table s0)) ->
    Concurrent.run E c evs s0 = Some s ->
    NoDup (map MediaItem.uc (Concurrent.table s)) /\
    (forall listed,
        exists s',
          Concurrent.exec E c (Concurrent.Trigger Concurrent.Manual listed) s = Some s' /\
          Concurrent.active s' = S (Concurrent.active s) /\
          Concurrent.table s' = Concurrent.table s).
Proof.
  intros E c evs s0 s H Hrun. split.
  - exact (run_keeps_unique E c evs s0 H Hrun).
  - intros listed. eexists; split; [reflexivity|].
    unfold Concurrent.active. simpl. rewrite length_app. simpl. split; [lia|reflexivity].
Qed.

Lemma triggers_are_not_serialised_witness :
  Concurrent.run Scenario.env_one_candidate Scenario.client Race.to_the_end Concurrent.idle
  = Some {| Concurrent.threads := []; Concurrent.table := [Race.row] |} /\
  NoDup (map MediaItem.uc [Race.row]) /\
  (forall listed,
      exists s',
        Concurrent.exec Scenario.env_one_candidate Scenario.client
          (Concurrent.Trigger Concurrent.Manual listed)
          {| Concurrent.threads := []; Concurrent.table := [Race.row] |} = Some s' /\
        Concurrent.active s' = 1%nat /\
        Concurrent.table s' = [Race.row]).
Proof.
  split; [reflexivity|].
  apply (@triggers_are_not_serialised Scenario.env_one_candidate Scenario.client
           Race.to_the_end Concurrent.idle
           {| Concurrent.threads := []; Concurrent.table := [Race.row] |}).
  - simpl. constructor.
  - reflexivity.
Defined.

(** C2, as stated, fails: two manual scans requested in a row are both
    running, and both have found the item of the scenario absent from the
    ledger and are reconciling it. *)
Lemma two_manual_scans_run_together :
  Concurrent.run Scenario.env_one_candidate Scenario.client Race.both_check Concurrent.idle
  = Some {| Concurrent.threads :=
              [ {| Concurrent.work := []; Concurrent.pending := Some Race.row |};
                {| Concurrent.work := []; Concurrent.pending := Some Race.row |} ];
            Concurrent.table := [] |} /\
  Concurrent.active
    {| Concurrent.threads :=
         [ {| Concurrent.work := []; Concurrent.pending := Some Race.row |};
           {| Concurrent.work := []; Concurrent.pending := Some Race.row |} ];
       Concurrent.table := [] |} = 2%nat /\
  ~ (Concurrent.active
       {| Concurrent.threads :=
            [ {| Concurrent.work := []; Concurrent.pending := Some Race.row |};
              {| Concurrent.work := []; Concurrent.pending := Some Race.row |} ];
          Concurrent.table := [] |} <= 1)%nat.
Proof.
  split; [reflexivity|]. split; [reflexivity|].
  unfold Concurrent.active. simpl. lia.
Qed.

(** An execution that runs alone does to the table what the loop of
    [scan_libraries] does to the ledger. *)
Lemma solo_thread_follows_the_scan (E : Env) (c : PlexClient.t)
      (config : LibraryConfig.t) (l : list MediaInfo.t) :
  forall T : Tally.t,
  exists evs,
    Concurrent.run E c evs
      {| Concurrent.threads :=
           [ {| Concurrent.work := map (pair config) l; Concurrent.pending := None |} ];
         Concurrent.table := Tally.ledger T |}
    = Some {| Concurrent.threads :=
                [ {| Concurrent.work := []; Concurrent.pending := None |} ];
              Concurrent.table :=
                Tally.ledger (fold_left (tally_media E c config) l T) |}.
Proof.
  induction l as [|media rest IH]; intros T.
  - exists []. reflexivity.
  - cbn [map fold_left]. unfold tally_media at 2.
    destruct (Scheduler.existing_item (LibraryConfig.id config) (MediaInfo.key media)
                                      (Tally.ledger T)) as [r|] eqn:Hex.
    + destruct (IH T) as [evs Hevs].
      exists (Concurrent.Check 0 :: evs).
      cbn [Concurrent.run Concurrent.exec Concurrent.threads Concurrent.table nth_error].
      rewrite Hex. exact Hevs.
    + cbv zeta.
      match goal with
      | |- context [fold_left _ rest ?T1] => destruct (IH T1) as [evs Hevs]
      end.
      exists (Concurrent.Check 0 :: Concurrent.Add 0 :: evs).
      cbn [Concurrent.run Concurrent.exec Concurrent.threads Concurrent.table nth_error].
      rewrite Hex.
      cbn [Concurrent.run Concurrent.exec Concurrent.threads Concurrent.table nth_error
           Concurrent.replace_thread firstn skipn app].
      unfold Concurrent.insert_unique.
      replace (MediaItem.library_config_id (media_row E c config media))
        with (LibraryConfig.id config) by reflexivity.
      replace (MediaItem.plex_key (media_row E c config media))
        with (MediaInfo.key media) by reflexivity.
      rewrite Hex. exact Hevs.
Qed.

(* ------------------------------------------------------------------------- *)
(** * Further properties: the client *)

(** X1. [connect] never raises and returns true exactly when the handshake
    request succeeds; when it fails, for whatever reason, the client is left
    as it was, not connected. *)
Theorem connect_true_iff_handshake :
  forall (E : Env) (c : PlexClient.t),
    (exists b c', PlexClient.connect E c = (Ok b, c')) /\
    (fst (PlexClient.connect E c) = Ok true <->
     exists root, PlexClient._make_request E c "/" = Ok root) /\
    (fst (PlexClient.connect E c) = Ok false ->
     snd (PlexClient.connect E c) = c).
Proof.
  intros E c.
  destruct (PlexClient._make_request E c "/") as [root|e] eqn:Hreq.
  - destruct (connect_succeeds E c Hreq) as (c' & Hc & _).
    rewrite Hc. cbn [fst snd]. split; [eauto|]. split.
    + split; eauto.
    + discriminate.
  - rewrite (connect_fails E c Hreq). cbn [fst snd]. split; [eauto|]. split.
    + split; [discriminate|intros [root H]; discriminate].
    + reflexivity.
Qed.

Lemma connect_true_iff_handshake_witness :
  fst (PlexClient.connect Scenario.env_refused Scenario2.fresh_client) = Ok false /\
  snd (PlexClient.connect Scenario.env_refused Scenario2.fresh_client)
  = Scenario2.fresh_client.
Proof.
  split; [reflexivity|].
  exact (proj2 (proj2 (@connect_true_iff_handshake Scenario.env_refused
                         Scenario2.fresh_client)) eq_refl).
Defined.

Lemma make_request_token (E : Env) (c c' : PlexClient.t) (endpoint : string) :
  PlexClient.plex_token c' = PlexClient.plex_token c ->
  PlexClient._make_request E c' endpoint = PlexClient._make_request E c endpoint.
Proof. intros H. unfold PlexClient._make_request. now rewrite H. Qed.

(** What [connect] leaves in the client when the handshake succeeded. *)
Lemma connect_settles (E : Env) (c : PlexClient.t) (root : Element) :
  PlexClient._make_request E c "/" = Ok root ->
  PlexClient.connect E c
  = (Ok true,
     {| PlexClient.plex_token := PlexClient.plex_token c;
        PlexClient.server_info :=
          Some {| ServerInfo.friendlyName := get_default root "friendlyName" "Unknown";
                  ServerInfo.version := get_default root "version" "Unknown";
                  ServerInfo.platform := get_default root "platform" "Unknown" |};
        PlexClient.server_timezone := Some (settled_zone E c) |}).
Proof.
  intros H.
  unfold PlexClient.connect, St.try_except, St.bind, St.gets, St.lift, St.modify, St.ret.
  rewrite H. cbn [fst snd].
  unfold PlexClient.read_timezone, St.bind, St.gets, St.lift, St.modify.
  unfold settled_zone.
  match goal with
  | |- context [PlexClient._make_request E ?c' "/:/prefs"] =>
      rewrite (@make_request_token E c c' "/:/prefs" eq_refl)
  end.
  destruct (PlexClient._make_request E c "/:/prefs") as [prefs|e].
  - destruct (truthy (PlexClient.timezone_pref prefs)); cbn [andb].
    + unfold PlexClient.pytz_timezone.
      destruct (known_zone E _); reflexivity.
    + reflexivity.
  - cbn [St.dispatch]. rewrite catches_Exception. reflexivity.
Qed.

(** X2. The zone of a connected client. Once the handshake request has
    succeeded, [connect] returns true whatever becomes of the preferences
    request, and fills the server information with "Unknown" for what the
    server does not say.  The zone is the [TimezoneName] preference when the
    preferences are readable, the preference is not empty and pytz knows it;
    in every other case it is the local default [TZ]. *)
Theorem connect_zone_fallback :
  forall (E : Env) (c : PlexClient.t) (root : Element),
    PlexClient._make_request E c "/" = Ok root ->
    fst (PlexClient.connect E c) = Ok true /\
    PlexClient.server_timezone (snd (PlexClient.connect E c)) = Some (settled_zone E c) /\
    (forall e, PlexClient._make_request E c "/:/prefs" = Raise e ->
               settled_zone E c = TZ E) /\
    (forall prefs_root,
        PlexClient._make_request E c "/:/prefs" = Ok prefs_root ->
        (forall setting, In setting (findall "Setting" prefs_root) ->
                         get setting "id" <> Some "TimezoneName") ->
        settled_zone E c = TZ E) /\
    (forall prefs_root setting name,
        PlexClient._make_request E c "/:/prefs" = Ok prefs_root ->
        find (fun s => opt_string_eqb (get s "id") (Some "TimezoneName"))
             (findall "Setting" prefs_root) = Some setting ->
        get setting "value" = Some name ->
        settled_zone E c = if negb (name =? "")%string && known_zone E name
                           then name else TZ E) /\
    PlexClient.server_info (snd (PlexClient.connect E c))
    = Some {| ServerInfo.friendlyName := get_default root "friendlyName" "Unknown";
              ServerInfo.version := get_default root "version" "Unknown";
              ServerInfo.platform := get_default root "platform" "Unknown" |}.
Proof.
  intros E c root H. rewrite (connect_settles E c H). cbn [fst snd].
  split; [reflexivity|]. split; [reflexivity|]. split; [|split; [|split]].
  - intros e He. unfold settled_zone. now rewrite He.
  - intros prefs Hp Hnone. unfold settled_zone, PlexClient.timezone_pref. rewrite Hp.
    destruct (find _ (findall "Setting" prefs)) as [setting|] eqn:Hf; [|reflexivity].
    apply find_some in Hf as [Hin Hid]. apply opt_string_eqb_eq in Hid.
    now destruct (Hnone setting Hin).
  - intros prefs setting name Hp Hf Hv.
    unfold settled_zone, PlexClient.timezone_pref. rewrite Hp, Hf, Hv. reflexivity.
  - reflexivity.
Qed.

Lemma connect_zone_fallback_witness :
  PlexClient.server_timezone
    (snd (PlexClient.connect (Scenario2.env_prefs "Europe/Prague") Scenario2.fresh_client))
  = Some "Europe/Prague" /\
  settled_zone (Scenario2.env_prefs "Atlantis/Central") Scenario2.fresh_client = "UTC" /\
  settled_zone Scenario.env_one_candidate Scenario2.fresh_client = "UTC".
Proof.
  split; [|split].
  - rewrite (proj1 (proj2 (@connect_zone_fallback (Scenario2.env_prefs "Europe/Prague")
                             Scenario2.fresh_client _ eq_refl))).
    reflexivity.
  - reflexivity.
  - exact (proj1 (proj2 (proj2 (@connect_zone_fallback Scenario.env_one_candidate
                                  Scenario2.fresh_client _ eq_refl)))
                 (HTTPError 404 "404 Client Error: Not Found") eq_refl).
Defined.

(** X3. With the local default resolved as config.py resolves it, and UTC
    known to pytz, the zone of a client that has shaken hands is always one
    pytz knows: the preference of the server, the zone of the TZ variable, or
    UTC. *)
Theorem connected_zone_is_known :
  forall (E : Env) (env_TZ : option string) (c : PlexClient.t) (root : Element),
    TZ E = Config.TZ (known_zone E) env_TZ ->
    known_zone E "UTC" = true ->
    PlexClient._make_request E c "/" = Ok root ->
    exists zone,
      PlexClient.server_timezone (snd (PlexClient.connect E c)) = Some zone /\
      known_zone E zone = true.
Proof.
  intros E env_TZ c root HTZ Hutc H. rewrite (connect_settles E c H). cbn [snd].
  eexists; split; [reflexivity|].
  assert (Hdef : known_zone E (TZ E) = true).
  { rewrite HTZ. unfold Config.TZ. cbv zeta.
    destruct (known_zone E (match env_TZ with Some v => v | None => "UTC" end)) eqn:Hk;
      [exact Hk|exact Hutc]. }
  unfold settled_zone.
  destruct (PlexClient._make_request E c "/:/prefs") as [prefs|e]; [|exact Hdef].
  cbv zeta. destruct (truthy _); cbn [andb]; [|exact Hdef].
  destruct (known_zone E (fstr _)) eqn:Hk; [exact Hk|exact Hdef].
Qed.

Lemma connected_zone_is_known_witness :
  exists zone,
    PlexClient.server_timezone
      (snd (PlexClient.connect (Scenario2.env_prefs "Atlantis/Central")
              Scenario2.fresh_client)) = Some zone /\
    Scenario2.two_zones zone = true.
Proof.
  exact (@connected_zone_is_known (Scenario2.env_prefs "Atlantis/Central")
           (Some "Mars/Olympus") Scenario2.fresh_client _ eq_refl eq_refl eq_refl).
Defined.

(* ------------------------------------------------------------------------- *)
(** * [get_libraries] and [validate_library_config] *)

Lemma try_except_last_total {A} (body : result A) (h : exn -> A) :
  exists v, Py.try_except body [([C_Exception], fun e => Ok (h e))] = Ok v.
Proof.
  destruct body as [a|e]; cbn [Py.try_except Py.dispatch]; [eauto|].
  rewrite catches_Exception. eauto.
Qed.

Lemma try_except_handlers_total {A} (body : result A) (h1 h2 : exn -> result A)
      (cs : list exn_class) :
  (forall e, exists v, h1 e = Ok v) ->
  (forall e, exists v, h2 e = Ok v) ->
  exists v, Py.try_except body [(cs, h1); ([C_Exception], h2)] = Ok v.
Proof.
  intros H1 H2. destruct body as [a|e]; cbn [Py.try_except Py.dispatch]; [eauto|].
  destruct (catches cs e); [apply H1|].
  rewrite catches_Exception. apply H2.
Qed.

(** X4. [get_libraries] never raises.  On a connected client it returns one
    summary for each [Directory] of the answer, in the order of the answer,
    with the agent "Unknown" where the server names none; when the request
    fails in any way it returns the empty list. *)
Theorem get_libraries_lists_directories :
  forall (E : Env) (c : PlexClient.t),
    connected c ->
    (forall c0, exists l c', PlexClient.get_libraries E c0 = (Ok l, c')) /\
    (forall e, PlexClient._make_request E c "/library/sections" = Raise e ->
               PlexClient.get_libraries E c = (Ok [], c)) /\
    (forall root,
        PlexClient._make_request E c "/library/sections" = Ok root ->
        PlexClient.get_libraries E c = (Ok (libraries_of E c), c) /\
        map LibrarySummary.key (libraries_of E c)
        = map (fun d => get d "key") (findall "Directory" root) /\
        map LibrarySummary.title (libraries_of E c)
        = map (fun d => get d "title") (findall "Directory" root) /\
        map LibrarySummary.agent (libraries_of E c)
        = map (fun d => match get d "agent" with
                        | Some a => a
                        | None => "Unknown"
                        end) (findall "Directory" root)).
Proof.
  intros E c Hc. split; [|split].
  - intros c0. unfold PlexClient.get_libraries, St.bind.
    destruct (ensure_connected_total E c0) as (b & c' & -> & _).
    destruct b; cbn [negb].
    + unfold St.gets, St.lift.
      destruct (try_except_last_total (PlexClient.libraries_body E c') (fun _ => []))
        as [v ->]. eauto.
    + unfold St.ret. eauto.
  - intros e He. unfold PlexClient.get_libraries, St.bind.
    rewrite (ensure_connected_connected E Hc). cbn [negb].
    unfold St.gets, St.lift, PlexClient.libraries_body. rewrite He.
    cbn [Py.bind Py.try_except Py.dispatch]. now rewrite catches_Exception.
  - intros root Hr.
    assert (H : PlexClient.get_libraries E c
                = (Ok (map (fun directory =>
                              {| LibrarySummary.key := get directory "key";
                                 LibrarySummary.title := get directory "title";
                                 LibrarySummary.type := get directory "type";
                                 LibrarySummary.agent :=
                                   get_default directory "agent" "Unknown" |})
                           (findall "Directory" root)), c)).
    { unfold PlexClient.get_libraries, St.bind.
      rewrite (ensure_connected_connected E Hc). cbn [negb].
      unfold St.gets, St.lift, PlexClient.libraries_body. rewrite Hr. reflexivity. }
    unfold libraries_of. rewrite H. cbn [fst].
    split; [reflexivity|]. rewrite !map_map. cbn [LibrarySummary.key
      LibrarySummary.title LibrarySummary.agent]. repeat split; reflexivity.
Qed.

Lemma get_libraries_lists_directories_witness :
  PlexClient.get_libraries (Scenario2.env_prefs "UTC") Scenario.client
  = (Ok [ {| LibrarySummary.key := Some "5";
             LibrarySummary.title := Some "Movies";
             LibrarySummary.type := Some "movie";
             LibrarySummary.agent := "tv.plex.agents.movie" |};
          {| LibrarySummary.key := Some "6";
             LibrarySummary.title := Some "Shows";
             LibrarySummary.type := Some "show";
             LibrarySummary.agent := "Unknown" |} ],
     Scenario.client) /\
  PlexClient.get_libraries Scenario.env_refused Scenario.client = (Ok [], Scenario.client).
Proof.
  assert (Hc : connected Scenario.client) by (eexists; reflexivity).
  split.
  - destruct (@get_libraries_lists_directories (Scenario2.env_prefs "UTC")
                Scenario.client Hc) as (_ & _ & Hok).
    destruct (Hok _ eq_refl) as (Hget & _). rewrite Hget. reflexivity.
  - destruct (@get_libraries_lists_directories Scenario.env_refused
                Scenario.client Hc) as (_ & Hfail & _).
    exact (Hfail (HTTPError 404 "404 Client Error: Not Found") eq_refl).
Defined.

(** X5. [validate_library_config] never raises, and on a connected client it
    reports a library valid exactly when the request for its section
    succeeds; a 404 is reported as "not found", any other HTTP failure and
    any other exception each with its own text. *)
Theorem validate_library_config_valid_iff :
  forall (E : Env) (c : PlexClient.t) (library_key : string),
    connected c ->
    (forall c0, exists v c',
        PlexClient.validate_library_config E library_key c0 = (Ok v, c')) /\
    PlexClient.validate_library_config E library_key c
    = (Ok (validation E c library_key), c) /\
    (fst (validation E c library_key) = true <->
     exists root,
       PlexClient._make_request E c ("/library/sections/" ++ library_key) = Ok root) /\
    (forall text,
        PlexClient._make_request E c ("/library/sections/" ++ library_key)
        = Raise (HTTPError 404 text) ->
        validation E c library_key
        = (false, "Library with ID " ++ library_key ++ " not found on Plex server")) /\
    (forall code text,
        PlexClient._make_request E c ("/library/sections/" ++ library_key)
        = Raise (HTTPError code text) ->
        code <> 404 ->
        validation E c library_key
        = (false, "HTTP error validating library " ++ library_key ++ ": " ++ text)) /\
    (forall e,
        PlexClient._make_request E c ("/library/sections/" ++ library_key) = Raise e ->
        isinstance e C_HTTPError = false ->
        validation E c library_key
        = (false, "Error validating library " ++ library_key ++ ": " ++ str e)).
Proof.
  intros E c library_key Hc.
  assert (Htotal : forall c0, exists v c',
             PlexClient.validate_library_config E library_key c0 = (Ok v, c')).
  { intros c0. unfold PlexClient.validate_library_config, St.bind.
    destruct (ensure_connected_total E c0) as (b & c' & -> & _).
    destruct b; cbn [negb].
    - unfold St.gets, St.lift.
      match goal with
      | |- context [Py.try_except ?b ?hs] =>
          assert (Hv : exists v, Py.try_except b hs = Ok v)
      end.
      { apply try_except_handlers_total.
        - intros e. destruct (PlexClient.status_code e =? 404); eauto.
        - intros e. eauto. }
      destruct Hv as [v ->]. eauto.
    - unfold St.ret. eauto. }
  assert (Hrun : forall r,
             PlexClient._make_request E c ("/library/sections/" ++ library_key) = r ->
             PlexClient.validate_library_config E library_key c
             = (Py.try_except
                  (root <- r ;;
                   Ok (true, "Library '"
                               ++ get_default root "title1" ("Library " ++ library_key)
                               ++ "' is valid"))
                  [([C_HTTPError],
                    fun e =>
                      if PlexClient.status_code e =? 404 then
                        Ok (false, "Library with ID " ++ library_key
                                     ++ " not found on Plex server")
                      else
                        Ok (false, "HTTP error validating library " ++ library_key
                                     ++ ": " ++ str e));
                   ([C_Exception],
                    fun e => Ok (false, "Error validating library " ++ library_key
                                          ++ ": " ++ str e))], c)).
  { intros r <-. unfold PlexClient.validate_library_config, St.bind.
    rewrite (ensure_connected_connected E Hc). cbn [negb]. reflexivity. }
  split; [exact Htotal|].
  destruct (PlexClient._make_request E c ("/library/sections/" ++ library_key))
    as [root|e] eqn:Hreq.
  - unfold validation. rewrite (Hrun _ eq_refl). cbn [Py.bind Py.try_except fst].
    split; [reflexivity|]. split; [split; eauto|].
    split; [discriminate|]. split; discriminate.
  - unfold validation. rewrite (Hrun _ eq_refl).
    cbn [Py.bind Py.try_except Py.dispatch fst].
    destruct e as [code text|text|text|text|text];
      cbn [catches existsb isinstance orb PlexClient.status_code str].
    + destruct (Z.eqb_spec code 404) as [->|Hne].
      * split; [reflexivity|]. split; [split; [discriminate|intros [r H]; discriminate]|].
        split; [reflexivity|]. split; [intros c1 t1 H1 H2; injection H1 as <- <-; congruence|].
        intros e He Hi. injection He as <-. discriminate Hi.
      * split; [reflexivity|]. split; [split; [discriminate|intros [r H]; discriminate]|].
        split; [intros t1 H1; injection H1 as H1 _; congruence|].
        split; [intros c1 t1 H1 _; injection H1 as <- <-; reflexivity|].
        intros e He Hi. injection He as <-. discriminate Hi.
    + split; [reflexivity|]. split; [split; [discriminate|intros [r H]; discriminate]|].
      split; [discriminate|]. split; [discriminate|].
      intros e He _. injection He as <-. reflexivity.
    + split; [reflexivity|]. split; [split; [discriminate|intros [r H]; discriminate]|].
      split; [discriminate|]. split; [discriminate|].
      intros e He _. injection He as <-. reflexivity.
    + split; [reflexivity|]. split; [split; [discriminate|intros [r H]; discriminate]|].
      split; [discriminate|]. split; [discriminate|].
      intros e He _. injection He as <-. reflexivity.
    + split; [reflexivity|]. split; [split; [discriminate|intros [r H]; discriminate]|].
      split; [discriminate|]. split; [discriminate|].
      intros e He _. injection He as <-. reflexivity.
Qed.

Lemma validate_library_config_valid_iff_witness :
  validation (Scenario2.env_prefs "UTC") Scenario.client "5"
  = (true, "Library 'Movies' is valid") /\
  validation (Scenario2.env_prefs "UTC") Scenario.client "6"
  = (false, "Library with ID 6 not found on Plex server") /\
  validation (Scenario2.env_prefs "UTC") Scenario.client "7"
  = (false, "Error validating library 7: Read timed out").
Proof.
  assert (Hc : connected Scenario.client) by (eexists; reflexivity).
  split; [reflexivity|]. split.
  - exact (proj1 (proj2 (proj2 (proj2
             (@validate_library_config_valid_iff (Scenario2.env_prefs "UTC")
                Scenario.client "6" Hc))))
             "404 Client Error: Not Found" eq_refl).
  - exact (proj2 (proj2 (proj2 (proj2 (proj2
             (@validate_library_config_valid_iff (Scenario2.env_prefs "UTC")
                Scenario.client "7" Hc)))))
             (RequestException "Read timed out") eq_refl eq_refl).
Defined.

(* ------------------------------------------------------------------------- *)
(** * Further properties: listing the recent items *)

(** Whatever the client, the listing is empty or the sorted entries of a
    response that was read to its end. *)
Lemma recent_cases (E : Env) (c : PlexClient.t) (library_key : string) (hours now : Z) :
  recent E c library_key hours now = [] \/
  exists c' root,
    PlexClient._make_request E c' ("/library/sections/" ++ library_key ++ "/all") = Ok root /\
    recent E c library_key hours now
    = sort_desc (flat_map (window_entry E c' (PlexClient.cutoff_of now hours))
                          (media_elements root)).
Proof.
  unfold recent, PlexClient.get_recent_media, St.bind.
  destruct (ensure_connected_total E c) as (b & c' & -> & _).
  destruct b; cbn [negb]; [|left; reflexivity].
  unfold St.gets, St.lift. cbn [fst].
  destruct (PlexClient.recent_media_body E c' library_key hours now) as [l|e] eqn:Hb.
  - right. cbn [Py.try_except].
    unfold PlexClient.recent_media_body in Hb.
    destruct (PlexClient._make_request E c' _) as [root|e] eqn:Hreq;
      cbn [Py.bind] in Hb; [|discriminate].
    destruct (fold_result _ (media_elements root) []) as [l0|e] eqn:Hf;
      cbn [Py.bind] in Hb; [|discriminate].
    apply Ok_inj in Hb. subst l. apply fold_result_entries in Hf. cbn [app] in Hf.
    subst l0. exists c', root. split; [exact Hreq|reflexivity].
  - left. cbn [Py.try_except Py.dispatch].
    destruct (catches [C_HTTPError] e); [reflexivity|].
    now rewrite catches_Exception.
Qed.

(** What an entry says of the item it was made from. *)
Lemma window_entry_inv (E : Env) (c : PlexClient.t) (cutoff : Z) (item : Element)
      (entry : MediaInfo.t) :
  In entry (window_entry E c cutoff item) ->
  exists s ts zone,
    get item "addedAt" = Some s /\ s <> "" /\
    py_int E s = Some ts /\ cutoff <= ts /\
    fromtimestamp E ts = Ok (MediaInfo.addedAt entry) /\
    PlexClient.server_timezone c = Some zone /\
    entry = {| MediaInfo.key := get item "key";
               MediaInfo.title := get item "title";
               MediaInfo.type := get item "type";
               MediaInfo.addedAt := MediaInfo.addedAt entry;
               MediaInfo.addedAt_server := (MediaInfo.addedAt entry, zone);
               MediaInfo.year := get item "year";
               MediaInfo.summary :=
                 PlexClient.truncate_summary (get_default item "summary" "") |}.
Proof.
  unfold window_entry, PlexClient.recent_item, PlexClient.int_, PlexClient.localize.
  destruct (get item "addedAt") as [s|] eqn:Hs; cbn [truthy fstr]; [|intros []].
  destruct (String.eqb_spec s "") as [->|Hne]; cbn [negb]; [intros []|].
  destruct (py_int E s) as [ts|] eqn:Hint; cbn [Py.bind Py.try_except Py.dispatch].
  2:{ cbn [catches existsb isinstance orb]. intros []. }
  destruct (fromtimestamp E ts) as [dt|e] eqn:Hdt; cbn [Py.bind Py.try_except Py.dispatch].
  2:{ destruct (catches _ e); intros []. }
  destruct (ts >=? cutoff) eqn:Hge; cbn [Py.try_except]; [|intros []].
  destruct (PlexClient.server_timezone c) as [zone|] eqn:Hz;
    cbn [Py.bind Py.try_except Py.dispatch].
  2:{ cbn [catches existsb isinstance orb]. intros []. }
  intros [<-|[]]. cbn [MediaInfo.addedAt].
  exists s, ts, zone. rewrite Z.geb_leb in Hge. apply Z.leb_le in Hge.
  repeat split; auto.
Qed.

Lemma insert_desc_sorted (x : MediaInfo.t) (l : list MediaInfo.t) :
  newest_first l -> newest_first (insert_desc x l).
Proof.
  unfold newest_first. induction l as [|y ys IH]; intros H; simpl.
  - constructor; constructor.
  - inversion H as [|? ? Hys Hy]; subst.
    destruct (MediaInfo.addedAt x >=? MediaInfo.addedAt y) eqn:Hge.
    + constructor; [exact H|]. rewrite Z.geb_leb in Hge. apply Z.leb_le in Hge.
      constructor; [lia|].
      eapply Forall_impl; [|exact Hy]. cbv beta. intros z Hz. lia.
    + constructor; [exact (IH Hys)|].
      apply (Permutation_Forall (Permutation_sym (insert_desc_perm x ys))).
      rewrite Z.geb_leb in Hge. apply Z.leb_gt in Hge.
      constructor; [lia|exact Hy].
Qed.

Lemma sort_desc_sorted (l : list MediaInfo.t) : newest_first (sort_desc l).
Proof.
  induction l as [|x xs IH]; simpl; [constructor|].
  now apply insert_desc_sorted.
Qed.

(** X6. The list [get_recent_media] returns is ordered newest first,
    whatever the client and the server. *)
Theorem listing_is_newest_first :
  forall (E : Env) (c c' : PlexClient.t) (library_key : string) (hours now : Z)
         (l : list MediaInfo.t),
    PlexClient.get_recent_media E library_key hours now c = (Ok l, c') ->
    newest_first l.
Proof.
  intros E c c' library_key hours now l H.
  assert (Hl : recent E c library_key hours now = l)
    by (unfold recent; now rewrite H).
  rewrite <- Hl.
  destruct (recent_cases E c library_key hours now) as [->|(c1 & root & _ & ->)].
  - constructor.
  - apply sort_desc_sorted.
Qed.

Lemma listing_is_newest_first_witness :
  PlexClient.get_recent_media Scenario2.env_listing "5" 24 1000000 Scenario.client
  = (Ok (recent Scenario2.env_listing Scenario.client "5" 24 1000000), Scenario.client) /\
  map MediaInfo.key (recent Scenario2.env_listing Scenario.client "5" 24 1000000)
  = [Some "/b"; Some "/a"; Some "/c"] /\
  newest_first (recent Scenario2.env_listing Scenario.client "5" 24 1000000).
Proof.
  assert (H : PlexClient.get_recent_media Scenario2.env_listing "5" 24 1000000
                Scenario.client
              = (Ok (recent Scenario2.env_listing Scenario.client "5" 24 1000000),
                 Scenario.client)) by reflexivity.
  split; [exact H|]. split; [reflexivity|].
  exact (@listing_is_newest_first Scenario2.env_listing Scenario.client Scenario.client
           "5" 24 1000000 _ H).
Defined.

Lemma stamped_insert_desc (t : Z) (x : MediaInfo.t) (l : list MediaInfo.t) :
  stamped t (insert_desc x l) = stamped t (x :: l).
Proof.
  unfold stamped. induction l as [|y ys IH]; [reflexivity|].
  cbn [insert_desc].
  destruct (MediaInfo.addedAt x >=? MediaInfo.addedAt y) eqn:Hge; [reflexivity|].
  rewrite Z.geb_leb in Hge. apply Z.leb_gt in Hge.
  cbn [filter] in *. rewrite IH.
  destruct (Z.eqb_spec (MediaInfo.addedAt x) t) as [Hx|Hx];
    destruct (Z.eqb_spec (MediaInfo.addedAt y) t) as [Hy|Hy]; try reflexivity.
  lia.
Qed.

Lemma stamped_sort_desc (t : Z) (l : list MediaInfo.t) :
  stamped t (sort_desc l) = stamped t l.
Proof.
  induction l as [|x xs IH]; [reflexivity|].
  cbn [sort_desc fold_right]. rewrite stamped_insert_desc.
  unfold stamped in *. cbn [filter]. fold (sort_desc xs). now rewrite IH.
Qed.

(** X7. The sort is stable: in a listing that succeeded, the entries that
    carry the same [addedAt] stand in the order in which the response holds
    their items (videos, then tracks, then photos). *)
Theorem listing_keeps_response_order_of_equal_stamps :
  forall (E : Env) (c : PlexClient.t) (library_key : string) (hours now : Z)
         (root : Element) (l : list MediaInfo.t),
    PlexClient._make_request E c ("/library/sections/" ++ library_key ++ "/all") = Ok root ->
    PlexClient.recent_media_body E c library_key hours now = Ok l ->
    forall t,
      stamped t l
      = stamped t (flat_map (window_entry E c (PlexClient.cutoff_of now hours))
                            (media_elements root)).
Proof.
  intros E c library_key hours now root l Hreq Hb t.
  unfold PlexClient.recent_media_body in Hb. rewrite Hreq in Hb. cbn [Py.bind] in Hb.
  destruct (fold_result _ (media_elements root) []) as [l0|e] eqn:Hf;
    cbn [Py.bind] in Hb; [|discriminate].
  apply Ok_inj in Hb. subst l. apply fold_result_entries in Hf. cbn [app] in Hf.
  subst l0. apply stamped_sort_desc.
Qed.

Lemma listing_keeps_response_order_of_equal_stamps_witness :
  stamped 950000 (recent Scenario2.env_listing Scenario.client "5" 24 1000000)
  = stamped 950000
      (flat_map (window_entry Scenario2.env_listing Scenario.client
                              (PlexClient.cutoff_of 1000000 24))
                (media_elements
                   (Scenario.container
                      [Scenario2.described "/a" "950000" "short";
                       Scenario2.described "/b" "990000" Scenario2.long_summary;
                       Scenario2.described "/c" "950000" "";
                       Scenario2.described "/old" "900000" "";
                       Elem "Video" [("key", "/nostamp")] [];
                       Scenario2.described "/nan" "yesterday" ""]))) /\
  map MediaInfo.key
      (stamped 950000 (recent Scenario2.env_listing Scenario.client "5" 24 1000000))
  = [Some "/a"; Some "/c"].
Proof.
  split; [|reflexivity].
  apply (@listing_keeps_response_order_of_equal_stamps Scenario2.env_listing
           Scenario.client "5" 24 1000000); reflexivity.
Defined.

(** X8. The window, in full: when the listing of a library succeeds, every
    entry listed was made from an item of the response whose [addedAt] is a
    number not below the cutoff that [fromtimestamp] converts, and carries
    its key and title; and every item of the response with such a stamp has
    an entry in the list.  The other items are left out: those with no
    stamp, an empty one or one that is no number, those whose stamp
    [fromtimestamp] refuses with a [ValueError] or a [TypeError], and those
    stamped before the cutoff. *)
Theorem listing_is_exactly_the_window :
  forall (E : Env) (c : PlexClient.t) (library_key zone : string) (hours now : Z)
         (root : Element) (l : list MediaInfo.t),
    PlexClient.server_timezone c = Some zone ->
    PlexClient._make_request E c ("/library/sections/" ++ library_key ++ "/all") = Ok root ->
    PlexClient.recent_media_body E c library_key hours now = Ok l ->
    (forall entry,
        In entry l ->
        exists item s ts,
          In item (media_elements root) /\
          get item "addedAt" = Some s /\ s <> "" /\
          py_int E s = Some ts /\
          PlexClient.cutoff_of now hours <= ts /\
          fromtimestamp E ts = Ok (MediaInfo.addedAt entry) /\
          MediaInfo.key entry = get item "key" /\
          MediaInfo.title entry = get item "title") /\
    (forall item s ts dt,
        In item (media_elements root) ->
        get item "addedAt" = Some s -> s <> "" ->
        py_int E s = Some ts ->
        PlexClient.cutoff_of now hours <= ts ->
        fromtimestamp E ts = Ok dt ->
        exists entry,
          In entry l /\ MediaInfo.key entry = get item "key" /\
          MediaInfo.addedAt entry = dt) /\
    (forall item,
        In item (media_elements root) ->
        (get item "addedAt" = None \/ get item "addedAt" = Some "" \/
         exists s, get item "addedAt" = Some s /\ py_int E s = None) ->
        window_entry E c (PlexClient.cutoff_of now hours) item = []) /\
    (forall item s ts e,
        In item (media_elements root) ->
        get item "addedAt" = Some s ->
        py_int E s = Some ts ->
        fromtimestamp E ts = Raise e ->
        catches [C_ValueError; C_TypeError] e = true ->
        window_entry E c (PlexClient.cutoff_of now hours) item = []) /\
    (forall item s ts dt,
        In item (media_elements root) ->
        get item "addedAt" = Some s ->
        py_int E s = Some ts ->
        fromtimestamp E ts = Ok dt ->
        ts < PlexClient.cutoff_of now hours ->
        window_entry E c (PlexClient.cutoff_of now hours) item = []).
Proof.
  intros E c library_key zone hours now root l Hz Hreq Hb.
  pose proof (recent_perm E c library_key hours now Hreq Hb) as Hperm.
  split; [|split; [|split; [|split]]].
  - intros entry Hin.
    apply (Permutation_in _ Hperm) in Hin.
    apply in_flat_map in Hin as (item & Hitem & Hentry).
    destruct (window_entry_inv E c _ item entry Hentry)
      as (s & ts & zone' & Hs & Hne & Hint & Hle & Hdt & _ & Heq).
    exists item, s, ts. rewrite Heq. cbn [MediaInfo.key MediaInfo.title MediaInfo.addedAt].
    repeat split; auto.
  - intros item s ts dt Hitem Hs Hne Hint Hle Hdt.
    eexists. split; [|split].
    + apply (Permutation_in _ (Permutation_sym Hperm)).
      apply in_flat_map. exists item. split; [exact Hitem|].
      unfold window_entry, PlexClient.recent_item, PlexClient.int_, PlexClient.localize.
      rewrite Hs. cbn [truthy fstr].
      destruct (String.eqb_spec s "") as [->|_]; [contradiction|]. cbn [negb].
      rewrite Hint. cbn [Py.bind]. rewrite Hdt. cbn [Py.bind].
      replace (ts >=? PlexClient.cutoff_of now hours) with true
        by (symmetry; apply Z.geb_le; lia).
      rewrite Hz. cbn [Py.bind Py.try_except app]. left. reflexivity.
    + reflexivity.
    + reflexivity.
  - intros item _ H.
    unfold window_entry, PlexClient.recent_item, PlexClient.int_.
    destruct H as [H|[H|(s & H & Hint)]]; rewrite H; cbn [truthy fstr];
      try reflexivity.
    destruct (negb (s =? "")%string); [|reflexivity].
    rewrite Hint. reflexivity.
  - intros item s ts e _ Hs Hint Hdt Hcatch.
    unfold window_entry, PlexClient.recent_item, PlexClient.int_.
    rewrite Hs. cbn [truthy fstr].
    destruct (negb (s =? "")%string); [|reflexivity].
    rewrite Hint. cbn [Py.bind]. rewrite Hdt.
    cbn [Py.bind Py.try_except Py.dispatch]. now rewrite Hcatch.
  - intros item s ts dt _ Hs Hint Hdt Hlt.
    unfold window_entry, PlexClient.recent_item, PlexClient.int_.
    rewrite Hs. cbn [truthy fstr].
    destruct (negb (s =? "")%string); [|reflexivity].
    rewrite Hint. cbn [Py.bind]. rewrite Hdt. cbn [Py.bind].
    replace (ts >=? PlexClient.cutoff_of now hours) with false
      by (symmetry; rewrite Z.geb_leb; apply Z.leb_gt; lia).
    reflexivity.
Qed.

Lemma listing_is_exactly_the_window_witness :
  PlexClient.cutoff_of 1000000 24 = 913600 /\
  map (fun item => (get item "key", get item "addedAt"))
      (media_elements
         (Scenario.container
            [Scenario2.described "/x" "913600" "";
             Scenario2.described "/far" "1000000000000" "";
             Scenario2.described "/y" "990000" Scenario2.accented_summary;
             Scenario2.described "/z" "913599" ""]))
  = [(Some "/x", Some "913600"); (Some "/far", Some "1000000000000");
     (Some "/y", Some "990000"); (Some "/z", Some "913599")] /\
  fromtimestamp Scenario2.env_listing 1000000000000
  = Raise (ValueError "year is out of range") /\
  map MediaInfo.key (recent Scenario2.env_listing Scenario.client "7" 24 1000000)
  = [Some "/y"; Some "/x"] /\
  window_entry Scenario2.env_listing Scenario.client (PlexClient.cutoff_of 1000000 24)
    (Scenario2.described "/far" "1000000000000" "") = [] /\
  window_entry Scenario2.env_listing Scenario.client (PlexClient.cutoff_of 1000000 24)
    (Scenario2.described "/z" "913599" "") = [].
Proof.
  destruct (@listing_is_exactly_the_window Scenario2.env_listing Scenario.client
              "7" "UTC" 24 1000000 _ _ eq_refl eq_refl eq_refl)
    as (_ & _ & _ & Hrefused & Hbefore).
  split; [reflexivity|]. split; [reflexivity|]. split; [reflexivity|].
  split; [reflexivity|]. split.
  - apply (Hrefused _ "1000000000000" 1000000000000 (ValueError "year is out of range"));
      [right; left; reflexivity|reflexivity|reflexivity|reflexivity|reflexivity].
  - apply (Hbefore _ "913599" 913599 913599);
      [right; right; right; left; reflexivity|reflexivity|reflexivity|reflexivity|reflexivity].
Defined.

(* ------------------------------------------------------------------------- *)
(** ** The summary *)

Lemma len_app (a b : string) : len (a ++ b)%string = (len a + len b)%nat.
Proof.
  induction a as [|ch a IH]; cbn [String.append len]; [reflexivity|].
  rewrite IH. now destruct (continues ch).
Qed.

Lemma len_slice_to (s : string) : forall n : nat, (len (slice_to n s) <= n)%nat.
Proof.
  induction s as [|ch s IH]; intros n; cbn [slice_to len]; [lia|].
  destruct (continues ch) eqn:Hch.
  - cbn [len]. rewrite Hch. apply IH.
  - destruct n as [|m]; cbn [len]; [lia|]. rewrite Hch. specialize (IH m). lia.
Qed.

Lemma truncate_summary_bound (s : string) :
  (len (PlexClient.truncate_summary s) <= 203)%nat /\
  ((len s <= 200)%nat -> PlexClient.truncate_summary s = s) /\
  ((200 < len s)%nat ->
   PlexClient.truncate_summary s = (slice_to 200 s ++ "...")%string).
Proof.
  unfold PlexClient.truncate_summary.
  destruct (Z.of_nat (len s) >? 200) eqn:Hlen.
  - apply Z.gtb_lt in Hlen.
    destruct (String.eqb_spec s "") as [->|_]; cbn [negb andb].
    + cbn [len] in Hlen. lia.
    + split; [|split; [intros H; lia|reflexivity]].
      rewrite len_app. pose proof (len_slice_to s 200).
      change (len "...") with 3%nat. lia.
  - rewrite Z.gtb_ltb in Hlen. apply Z.ltb_ge in Hlen.
    rewrite andb_false_r. split; [lia|]. split; [reflexivity|]. intros H. lia.
Qed.

(** X9. No entry of a listing carries a summary longer than 203 characters
    (200 and the ellipsis): a summary of at most 200 characters is carried
    as the server gave it, a longer one is cut after its 200th character and
    followed by three dots.  The length is counted in characters, not in
    bytes. *)
Theorem listed_summaries_are_short :
  forall (E : Env) (c : PlexClient.t) (library_key : string) (hours now : Z)
         (entry : MediaInfo.t),
    In entry (recent E c library_key hours now) ->
    (len (MediaInfo.summary entry) <= 203)%nat /\
    exists item,
      MediaInfo.summary entry = PlexClient.truncate_summary (get_default item "summary" "") /\
      MediaInfo.key entry = get item "key" /\
      ((len (get_default item "summary" "") <= 200)%nat ->
       MediaInfo.summary entry = get_default item "summary" "") /\
      ((200 < len (get_default item "summary" ""))%nat ->
       MediaInfo.summary entry
       = (slice_to 200 (get_default item "summary" "") ++ "...")%string).
Proof.
  intros E c library_key hours now entry Hin.
  destruct (recent_cases E c library_key hours now) as [H|(c' & root & _ & H)];
    rewrite H in Hin; [contradiction|].
  apply (Permutation_in _ (sort_desc_perm _)) in Hin.
  apply in_flat_map in Hin as (item & _ & Hentry).
  destruct (window_entry_inv E c' _ item entry Hentry)
    as (s & ts & zone & _ & _ & _ & _ & _ & _ & Heq).
  assert (Hsum : MediaInfo.summary entry
                 = PlexClient.truncate_summary (get_default item "summary" ""))
    by (rewrite Heq; reflexivity).
  assert (Hkey : MediaInfo.key entry = get item "key") by (rewrite Heq; reflexivity).
  destruct (truncate_summary_bound (get_default item "summary" "")) as (Hb & Hsame & Hcut).
  split; [now rewrite Hsum|].
  exists item. split; [exact Hsum|]. split; [exact Hkey|]. split.
  - intros Hshort. rewrite Hsum. now apply Hsame.
  - intros Hlong. rewrite Hsum. now apply Hcut.
Qed.

Lemma listed_summaries_are_short_witness :
  len Scenario2.long_summary = 256%nat /\
  map (fun m => len (MediaInfo.summary m))
      (recent Scenario2.env_listing Scenario.client "5" 24 1000000)
  = [203%nat; 5%nat; 0%nat] /\
  String.length Scenario2.accented_summary = 300%nat /\
  len Scenario2.accented_summary = 150%nat /\
  map MediaInfo.summary (recent Scenario2.env_listing Scenario.client "7" 24 1000000)
  = [Scenario2.accented_summary; ""] /\
  Forall (fun m => (len (MediaInfo.summary m) <= 203)%nat)
         (recent Scenario2.env_listing Scenario.client "5" 24 1000000).
Proof.
  split; [reflexivity|]. split; [reflexivity|]. split; [reflexivity|].
  split; [reflexivity|]. split; [reflexivity|].
  apply Forall_forall. intros entry Hin.
  exact (proj1 (@listed_summaries_are_short Scenario2.env_listing Scenario.client
                  "5" 24 1000000 entry Hin)).
Defined.

(* ------------------------------------------------------------------------- *)
(** ** Failures *)

Lemma fold_result_raises (E : Env) (c : PlexClient.t) (cutoff : Z)
      (items : list Element) (item : Element) (e : exn) :
  In item items ->
  PlexClient.recent_item E c cutoff [] item = Raise e ->
  forall acc, exists e', fold_result (PlexClient.recent_item E c cutoff) items acc = Raise e'.
Proof.
  intros Hin Hitem acc.
  destruct (fold_result (PlexClient.recent_item E c cutoff) items acc) as [l|e'] eqn:Hf;
    [|eauto].
  destruct (fold_result_items_ok E c cutoff items acc Hf item Hin) as [li Hli].
  congruence.
Qed.

(** X10. One bad stamp empties the listing: when the stamp of any one item
    of the response is a number that makes [fromtimestamp] raise something
    other than a [ValueError] or a [TypeError] (an overflow), the exception
    leaves the loop, and [get_recent_media] returns the empty list, whatever
    else the library holds. *)
Theorem overflowing_stamp_empties_listing :
  forall (E : Env) (c : PlexClient.t) (library_key : string) (hours now : Z)
         (root item : Element) (s : string) (ts : Z) (e : exn),
    connected c ->
    PlexClient._make_request E c ("/library/sections/" ++ library_key ++ "/all") = Ok root ->
    In item (media_elements root) ->
    get item "addedAt" = Some s -> s <> "" ->
    py_int E s = Some ts ->
    fromtimestamp E ts = Raise e ->
    catches [C_ValueError; C_TypeError] e = false ->
    PlexClient.get_recent_media E library_key hours now c = (Ok [], c).
Proof.
  intros E c library_key hours now root item s ts e Hc Hreq Hin Hs Hne Hint Hdt Hcatch.
  rewrite (get_recent_media_connected E library_key hours now Hc).
  assert (Hitem : PlexClient.recent_item E c (PlexClient.cutoff_of now hours) [] item
                  = Raise e).
  { unfold PlexClient.recent_item, PlexClient.int_. rewrite Hs. cbn [truthy fstr].
    destruct (String.eqb_spec s "") as [->|_]; [contradiction|]. cbn [negb].
    rewrite Hint. cbn [Py.bind]. rewrite Hdt. cbn [Py.bind Py.try_except Py.dispatch].
    now rewrite Hcatch. }
  destruct (fold_result_raises E c _ _ item Hin Hitem []) as [e' He'].
  rewrite (@recent_of_raise E c library_key hours now e' Hc); [reflexivity|].
  unfold PlexClient.recent_media_body. rewrite Hreq. cbn [Py.bind]. now rewrite He'.
Qed.

Lemma overflowing_stamp_empties_listing_witness :
  PlexClient.get_recent_media Scenario2.env_listing "6" 24 1000000 Scenario.client
  = (Ok [], Scenario.client) /\
  window_entry Scenario2.env_listing Scenario.client 913600
    (Scenario2.described "/d" "950000" "") <> [].
Proof.
  assert (Hc : connected Scenario.client) by (eexists; reflexivity).
  split; [|discriminate].
  apply (@overflowing_stamp_empties_listing Scenario2.env_listing Scenario.client
           "6" 24 1000000
           (Scenario.container
              [Scenario2.described "/d" "950000" "";
               Scenario2.described "/e" "100000000000000000000" ""])
           (Scenario2.described "/e" "100000000000000000000" "")
           "100000000000000000000" 100000000000000000000
           (Exception "OverflowError: timestamp out of range for platform time_t") Hc);
    try reflexivity.
  - right. left. reflexivity.
  - discriminate.
Defined.

(** X11. A client that cannot shake hands: when a method that needs the
    server is called on a client not yet connected and the handshake fails,
    the method returns its failure value without raising, and the client
    stays as it was, so that the next call tries the handshake again. *)
Theorem methods_fail_softly_when_not_connected :
  forall (E : Env) (c : PlexClient.t) (e : exn)
         (library_key agent_name : string) (media_key : option string) (hours now : Z),
    PlexClient.server_info c = None ->
    PlexClient._make_request E c "/" = Raise e ->
    PlexClient.get_libraries E c = (Ok [], c) /\
    PlexClient.get_recent_media E library_key hours now c = (Ok [], c) /\
    PlexClient.match_with_agent E library_key media_key agent_name c
    = (Ok (false, "Not connected to Plex server"), c) /\
    PlexClient.validate_library_config E library_key c
    = (Ok (false, "Unable to connect to Plex server"), c).
Proof.
  intros E c e library_key agent_name media_key hours now Hinfo Hreq.
  assert (Hens : PlexClient.ensure_connected E c = (Ok false, c)).
  { unfold PlexClient.ensure_connected, St.bind, St.gets. rewrite Hinfo.
    exact (connect_fails E c Hreq). }
  unfold PlexClient.get_libraries, PlexClient.get_recent_media,
    PlexClient.match_with_agent, PlexClient.validate_library_config, St.bind.
  rewrite Hens. repeat split; reflexivity.
Qed.

Lemma methods_fail_softly_when_not_connected_witness :
  PlexClient.get_libraries Scenario.env_refused Scenario2.fresh_client
  = (Ok [], Scenario2.fresh_client) /\
  PlexClient.get_recent_media Scenario.env_refused "5" 24 1000000 Scenario2.fresh_client
  = (Ok [], Scenario2.fresh_client) /\
  PlexClient.match_with_agent Scenario.env_refused "5" (Some "/lib/5/x1") "TheMovieDB"
    Scenario2.fresh_client
  = (Ok (false, "Not connected to Plex server"), Scenario2.fresh_client) /\
  PlexClient.validate_library_config Scenario.env_refused "5" Scenario2.fresh_client
  = (Ok (false, "Unable to connect to Plex server"), Scenario2.fresh_client).
Proof.
  exact (@methods_fail_softly_when_not_connected Scenario.env_refused
           Scenario2.fresh_client Scenario.refused "5" "TheMovieDB"
           (Some "/lib/5/x1") 24 1000000 eq_refl eq_refl).
Defined.

(** X12. An unchanged library lists less as time passes: on a connected
    client, a listing made later contains only entries that a listing made
    earlier contains. *)
Theorem later_listing_holds_nothing_new :
  forall (E : Env) (c : PlexClient.t) (library_key zone : string) (hours now now' : Z),
    connected c ->
    PlexClient.server_timezone c = Some zone ->
    0 <= hours ->
    now <= now' ->
    incl (recent E c library_key hours now') (recent E c library_key hours now).
Proof.
  intros E c library_key zone hours now now' Hc Hz Hh Hle.
  exact (@recent_window_mono E c zone Hz library_key hours now now' Hc Hh Hle).
Qed.

Lemma later_listing_holds_nothing_new_witness :
  incl (recent Scenario2.env_listing Scenario.client "5" 24 1040000)
       (recent Scenario2.env_listing Scenario.client "5" 24 1000000) /\
  map MediaInfo.key (recent Scenario2.env_listing Scenario.client "5" 24 1040000)
  = [Some "/b"].
Proof.
  assert (Hc : connected Scenario.client) by (eexists; reflexivity).
  split; [|reflexivity].
  apply (@later_listing_holds_nothing_new Scenario2.env_listing Scenario.client
           "5" "UTC" 24 1000000 1040000 Hc eq_refl); lia.
Defined.

(* ------------------------------------------------------------------------- *)
(** * Further properties: reconciliation *)

(** X13. The four ways a reconciliation ends well, on a connected client
    whose lookup succeeded.  An item already matched is refreshed.  An
    unmatched item with no candidate, or whose first candidate has no
    identifier, is reported as a success with nothing applied.  Otherwise
    the first candidate is applied, whatever the candidates after it. *)
Theorem reconciliation_outcomes :
  forall (E : Env) (c : PlexClient.t) (library_key agent_name : string)
         (media_key : option string) (media_root : Element),
    connected c ->
    PlexClient._make_request E c (fstr media_key) = Ok media_root ->
    (is_guid_matched (snd (looked_up media_root media_key)) = true ->
     http_put E (fstr media_key ++ "/refresh") [] = Ok tt ->
     reconcile E c library_key media_key agent_name
     = (true, "Refreshed matched media: " ++ fst (looked_up media_root media_key))) /\
    (forall matches_root,
        is_guid_matched (snd (looked_up media_root media_key)) = false ->
        PlexClient._make_request E c (fstr media_key ++ "/matches") = Ok matches_root ->
        (findall "SearchResult" matches_root = [] ->
         reconcile E c library_key media_key agent_name
         = (true, "No matches available for: " ++ fst (looked_up media_root media_key))) /\
        (forall first_match rest,
            findall "SearchResult" matches_root = first_match :: rest ->
            truthy (get first_match "guid") = false ->
            reconcile E c library_key media_key agent_name
            = (true, "Match found but no guid available for: "
                       ++ fst (looked_up media_root media_key))) /\
        (forall first_match rest guid,
            findall "SearchResult" matches_root = first_match :: rest ->
            get first_match "guid" = Some guid -> guid <> "" ->
            http_put E (fstr media_key ++ "/match") [("guid", guid)] = Ok tt ->
            reconcile E c library_key media_key agent_name
            = (true, "Matched: " ++ fst (looked_up media_root media_key) ++ " → "
                       ++ get_default first_match "name" "Unknown"))).
Proof.
  intros E c library_key agent_name media_key media_root Hc Hreq.
  pose proof (reconcile_unfold E library_key media_key agent_name Hc) as H.
  rewrite (match_body_unfold E c library_key media_key agent_name Hreq) in H.
  cbv zeta in H. split.
  - intros Hm Hput. rewrite Hm, Hput in H. cbn [Py.bind Py.try_except] in H.
    now apply Ok_inj in H.
  - intros matches_root Hm Hmatches. rewrite Hm in H.
    unfold PlexClient.apply_first_match in H. rewrite Hmatches in H.
    cbn [Py.bind] in H. cbv zeta in H. split; [|split].
    + intros Hnone. rewrite Hnone in H. cbn [Py.try_except] in H. now apply Ok_inj in H.
    + intros first_match rest Hfirst Hguid. rewrite Hfirst, Hguid in H.
      cbn [Py.try_except] in H. now apply Ok_inj in H.
    + intros first_match rest guid Hfirst Hguid Hne Hput.
      rewrite Hfirst, Hguid in H. cbn [truthy fstr] in H.
      rewrite (proj2 (String.eqb_neq guid "") Hne) in H.
      cbn [negb] in H. rewrite Hput in H. cbn [Py.bind Py.try_except] in H.
      now apply Ok_inj in H.
Qed.

Lemma reconciliation_outcomes_witness :
  reconcile Scenario2.env_matching Scenario.client "5" (Some "/m/1") "TheMovieDB"
  = (true, "Matched: One → First") /\
  reconcile Scenario2.env_matching Scenario.client "5" (Some "/m/2") "TheMovieDB"
  = (true, "Refreshed matched media: Two") /\
  reconcile Scenario2.env_matching Scenario.client "5" (Some "/m/3") "TheMovieDB"
  = (true, "Match found but no guid available for: Three").
Proof.
  assert (Hc : connected Scenario.client) by (eexists; reflexivity).
  split; [|split].
  - destruct (@reconciliation_outcomes Scenario2.env_matching Scenario.client
                "5" "TheMovieDB" (Some "/m/1") _ Hc eq_refl) as (_ & Hun).
    destruct (Hun _ eq_refl eq_refl) as (_ & _ & Hfirst).
    exact (Hfirst _ _ "tmdb://1" eq_refl eq_refl ltac:(discriminate) eq_refl).
  - destruct (@reconciliation_outcomes Scenario2.env_matching Scenario.client
                "5" "TheMovieDB" (Some "/m/2") _ Hc eq_refl) as (Hm & _).
    exact (Hm eq_refl eq_refl).
  - destruct (@reconciliation_outcomes Scenario2.env_matching Scenario.client
                "5" "TheMovieDB" (Some "/m/3") _ Hc eq_refl) as (_ & Hun).
    destruct (Hun _ eq_refl eq_refl) as (_ & Hnoguid & _).
    exact (Hnoguid _ _ eq_refl eq_refl).
Defined.

(** X14. A failure that is no HTTP error, such as a refused connection or a
    timeout, gives [(false, "Failed to process media ...")] wherever it
    strikes: the handler of the candidate phase lets it pass, and the last
    handler of [match_with_agent] catches it. *)
Theorem reconciliation_other_failures :
  forall (E : Env) (c : PlexClient.t) (library_key agent_name : string)
         (media_key : option string) (e : exn),
    connected c ->
    isinstance e C_HTTPError = false ->
    (PlexClient.match_body E c library_key media_key agent_name = Raise e ->
     reconcile E c library_key media_key agent_name
     = (false, "Failed to process media " ++ fstr media_key ++ " with agent "
                 ++ agent_name ++ ": " ++ str e)) /\
    (PlexClient._make_request E c (fstr media_key) = Raise e ->
     PlexClient.match_body E c library_key media_key agent_name = Raise e) /\
    (forall media_root,
        PlexClient._make_request E c (fstr media_key) = Ok media_root ->
        is_guid_matched (snd (looked_up media_root media_key)) = true ->
        http_put E (fstr media_key ++ "/refresh") [] = Raise e ->
        PlexClient.match_body E c library_key media_key agent_name = Raise e) /\
    (forall media_root,
        PlexClient._make_request E c (fstr media_key) = Ok media_root ->
        is_guid_matched (snd (looked_up media_root media_key)) = false ->
        PlexClient.apply_first_match E c media_key (fst (looked_up media_root media_key))
        = Raise e ->
        PlexClient.match_body E c library_key media_key agent_name = Raise e).
Proof.
  intros E c library_key agent_name media_key e Hc Hnot.
  assert (Hcatch : catches [C_HTTPError] e = false)
    by (cbn [catches existsb]; now rewrite Hnot).
  split; [|split; [|split]].
  - intros Hb. pose proof (reconcile_unfold E library_key media_key agent_name Hc) as H.
    rewrite Hb in H. cbn [Py.try_except Py.dispatch] in H.
    rewrite Hcatch, catches_Exception in H. now apply Ok_inj in H.
  - intros Hreq. unfold PlexClient.match_body. now rewrite Hreq.
  - intros media_root Hreq Hm Hput.
    rewrite (match_body_unfold E c library_key media_key agent_name Hreq).
    cbv zeta. now rewrite Hm, Hput.
  - intros media_root Hreq Hm Hcand.
    rewrite (match_body_unfold E c library_key media_key agent_name Hreq).
    cbv zeta. rewrite Hm, Hcand. cbn [Py.try_except Py.dispatch]. now rewrite Hcatch.
Qed.

Lemma reconciliation_other_failures_witness :
  reconcile Scenario2.env_matching Scenario.client "5" (Some "/m/4") "TheMovieDB"
  = (false, "Failed to process media /m/4 with agent TheMovieDB: Read timed out").
Proof.
  assert (Hc : connected Scenario.client) by (eexists; reflexivity).
  destruct (@reconciliation_other_failures Scenario2.env_matching Scenario.client
              "5" "TheMovieDB" (Some "/m/4") (RequestException "Read timed out")
              Hc eq_refl) as (Hfail & _ & _ & Hcand).
  apply Hfail. exact (Hcand _ eq_refl eq_refl eq_refl).
Defined.

(** X15. The agent is never sent to the server: on a connected client,
    whether a reconciliation succeeds does not depend on the agent name nor
    on the library key it is given, and neither does the message of a
    success.  They appear in the text of failures only. *)
Theorem reconciliation_ignores_the_agent :
  forall (E : Env) (c : PlexClient.t) (media_key : option string)
         (library_key library_key' agent_name agent_name' : string),
    connected c ->
    fst (reconcile E c library_key media_key agent_name)
    = fst (reconcile E c library_key' media_key agent_name') /\
    (fst (reconcile E c library_key media_key agent_name) = true ->
     reconcile E c library_key media_key agent_name
     = reconcile E c library_key' media_key agent_name').
Proof.
  intros E c media_key library_key library_key' agent_name agent_name' Hc.
  pose proof (reconcile_unfold E library_key media_key agent_name Hc) as H.
  pose proof (reconcile_unfold E library_key' media_key agent_name' Hc) as H'.
  change (PlexClient.match_body E c library_key' media_key agent_name')
    with (PlexClient.match_body E c library_key media_key agent_name) in H'.
  destruct (PlexClient.match_body E c library_key media_key agent_name) as [v|e].
  - cbn [Py.try_except] in H, H'. apply Ok_inj in H, H'. rewrite H, H'.
    split; reflexivity.
  - cbn [Py.try_except Py.dispatch] in H, H'.
    destruct (catches [C_HTTPError] e).
    + apply Ok_inj in H, H'. rewrite H, H'. cbn [fst]. split; [reflexivity|discriminate].
    + rewrite catches_Exception in H, H'. apply Ok_inj in H, H'. rewrite H, H'.
      cbn [fst]. split; [reflexivity|discriminate].
Qed.

Lemma reconciliation_ignores_the_agent_witness :
  reconcile Scenario2.env_matching Scenario.client "5" (Some "/m/1") "TheMovieDB"
  = reconcile Scenario2.env_matching Scenario.client "9" (Some "/m/1") "None of these".
Proof.
  assert (Hc : connected Scenario.client) by (eexists; reflexivity).
  exact (proj2 (@reconciliation_ignores_the_agent Scenario2.env_matching Scenario.client
                  (Some "/m/1") "5" "9" "TheMovieDB" "None of these" Hc) eq_refl).
Defined.

(** X16. An item the lookup answer does not contain is handled as an
    unmatched item titled "Unknown": it is never refreshed, and the first
    candidate the server offers for its key is applied all the same. *)
Theorem reconciliation_of_absent_item :
  forall (E : Env) (c : PlexClient.t) (library_key agent_name : string)
         (media_key : option string) (media_root matches_root : Element),
    connected c ->
    PlexClient._make_request E c (fstr media_key) = Ok media_root ->
    (forall item, In item (media_elements media_root) -> get item "key" <> media_key) ->
    PlexClient._make_request E c (fstr media_key ++ "/matches") = Ok matches_root ->
    looked_up media_root media_key = ("Unknown", None) /\
    (findall "SearchResult" matches_root = [] ->
     reconcile E c library_key media_key agent_name
     = (true, "No matches available for: Unknown")) /\
    (forall first_match rest guid,
        findall "SearchResult" matches_root = first_match :: rest ->
        get first_match "guid" = Some guid -> guid <> "" ->
        http_put E (fstr media_key ++ "/match") [("guid", guid)] = Ok tt ->
        reconcile E c library_key media_key agent_name
        = (true, "Matched: Unknown → " ++ get_default first_match "name" "Unknown")).
Proof.
  intros E c library_key agent_name media_key media_root matches_root Hc Hreq Habsent Hm.
  assert (Hlook : looked_up media_root media_key = ("Unknown", None)).
  { unfold looked_up.
    destruct (find _ (media_elements media_root)) as [item|] eqn:Hf; [|reflexivity].
    apply find_some in Hf as [Hin Hk]. apply opt_string_eqb_eq in Hk.
    now destruct (Habsent item Hin). }
  pose proof (reconcile_unfold E library_key media_key agent_name Hc) as H.
  rewrite (match_body_unfold E c library_key media_key agent_name Hreq) in H.
  cbv zeta in H. rewrite Hlook in H. cbn [fst snd] in H.
  change (is_guid_matched None) with false in H.
  unfold PlexClient.apply_first_match in H. rewrite Hm in H.
  cbn [Py.bind] in H. cbv zeta in H.
  split; [exact Hlook|]. split.
  - intros Hnone. rewrite Hnone in H. cbn [Py.try_except] in H. now apply Ok_inj in H.
  - intros first_match rest guid Hfirst Hguid Hne Hput.
    rewrite Hfirst, Hguid in H. cbn [truthy fstr] in H.
    rewrite (proj2 (String.eqb_neq guid "") Hne) in H.
    cbn [negb] in H. rewrite Hput in H. cbn [Py.bind Py.try_except] in H.
    now apply Ok_inj in H.
Qed.

Lemma reconciliation_of_absent_item_witness :
  reconcile Scenario2.env_matching Scenario.client "5" (Some "/m/5") "TheMovieDB"
  = (true, "No matches available for: Unknown").
Proof.
  assert (Hc : connected Scenario.client) by (eexists; reflexivity).
  destruct (@reconciliation_of_absent_item Scenario2.env_matching Scenario.client
              "5" "TheMovieDB" (Some "/m/5") (Scenario.container []) (Scenario.container [])
              Hc eq_refl ltac:(intros item []) eq_refl) as (_ & Hnone & _).
  exact (Hnone eq_refl).
Defined.

(* ------------------------------------------------------------------------- *)
(** * Further properties: scans *)

(** The rows a scan adds, however it ends. *)
Lemma scan_rows (E : Env) (clock : nat -> Z) (d : Database) :
  library_configs (Scheduler.db (snd (Scheduler.run_scan E clock d))) = library_configs d /\
  exists new,
    media_items (Scheduler.db (snd (Scheduler.run_scan E clock d)))
    = (media_items d ++ new)%list /\
    Forall (fun r => row_of_listing E (scan_client E) clock 1
                                    (Scheduler.enabled_configs d) r /\
                     ~ In (MediaItem.uc r) (map MediaItem.uc (media_items d))) new.
Proof.
  destruct (@scan_ledger E clock d) as [Hcfg [(Hl & _)|Hl]].
  - split; [exact Hcfg|].
    destruct (tally_libraries_rows E (scan_client E) clock (Scheduler.enabled_configs d)
                1 (Tally.start (media_items d))) as (new & (L & _) & _ & Hall).
    cbn [Tally.start Tally.ledger] in L, Hall.
    exists new. rewrite Hl. split; [exact L|exact Hall].
  - split; [exact Hcfg|]. exists []. rewrite Hl, app_nil_r. split; [reflexivity|constructor].
Qed.

(** The record and the ledger of a scan that returns after a handshake. *)
Lemma scan_counters (E : Env) (clock : nat -> Z) (d : Database) :
  handshake_ok E ->
  fst (Scheduler.run_scan E clock d) = Ok tt ->
  exists new,
    media_items (Scheduler.db (snd (Scheduler.run_scan E clock d)))
    = (media_items d ++ new)%list /\
    ScanLog.total_media_found (Scheduler.scan_log (snd (Scheduler.run_scan E clock d)))
    = window_sizes E (scan_client E) clock 1 (Scheduler.enabled_configs d) /\
    ScanLog.total_matched (Scheduler.scan_log (snd (Scheduler.run_scan E clock d)))
    = count_matched new /\
    ScanLog.total_errors (Scheduler.scan_log (snd (Scheduler.run_scan E clock d)))
    = count_failed new /\
    ScanLog.total_libraries (Scheduler.scan_log (snd (Scheduler.run_scan E clock d)))
    = Z.of_nat (List.length (Scheduler.enabled_configs d)) /\
    Z.of_nat (List.length new)
    <= window_sizes E (scan_client E) clock 1 (Scheduler.enabled_configs d) /\
    Scheduler.committed (snd (Scheduler.run_scan E clock d))
    = [ScanLog.new (clock 0%nat); Scheduler.scan_log (snd (Scheduler.run_scan E clock d))].
Proof.
  intros Hok Hret. pose proof (@returns_not_rejected E clock d Hok Hret) as Hacc.
  rewrite (@run_scan_connected E clock d Hok Hacc).
  cbn [snd Scheduler.db Scheduler.scan_log Scheduler.committed media_items library_configs
       ScanLog.total_media_found ScanLog.total_matched ScanLog.total_errors
       ScanLog.total_libraries].
  destruct (tally_libraries_rows E (scan_client E) clock (Scheduler.enabled_configs d)
              1 (Tally.start (media_items d))) as (new & (L & F & M & Er) & Hlen & _).
  cbn [Tally.start Tally.ledger Tally.found Tally.matched Tally.errors] in L, F, M, Er.
  exists new. rewrite L, F, M, Er. repeat split; try lia; assumption.
Qed.

(** X17. What a scan writes.  Every row a scan adds to the ledger is the row
    of an item that an enabled library of the database listed during the
    scan, the library listed at its turn: it carries the id and the agent
    name of that library, the key, title and type of the item and the
    outcome of the reconciliation of the item, with the message of the
    reconciliation exactly when it failed.  A disabled library gets no row,
    and the library configurations are left as they were. *)
Theorem scan_rows_come_from_enabled_libraries :
  forall (E : Env) (clock : nat -> Z) (d : Database),
    library_configs (Scheduler.db (snd (Scheduler.run_scan E clock d)))
    = library_configs d /\
    exists new,
      media_items (Scheduler.db (snd (Scheduler.run_scan E clock d)))
      = (media_items d ++ new)%list /\
      forall r,
        In r new ->
        exists i config media,
          nth_error (Scheduler.enabled_configs d) i = Some config /\
          In media (recent E (scan_client E) (LibraryConfig.library_key config) 24
                           (clock (S i))) /\
          In config (library_configs d) /\
          LibraryConfig.enabled config = true /\
          MediaItem.library_config_id r = LibraryConfig.id config /\
          MediaItem.agent_matched r = Some (LibraryConfig.agent_name config) /\
          MediaItem.plex_key r = MediaInfo.key media /\
          MediaItem.title r = MediaInfo.title media /\
          MediaItem.media_type r = MediaInfo.type media /\
          MediaItem.added_at r = MediaInfo.addedAt media /\
          MediaItem.match_successful r
          = fst (reconcile E (scan_client E) (LibraryConfig.library_key config)
                           (MediaInfo.key media) (LibraryConfig.agent_name config)) /\
          MediaItem.error_message r
          = (if MediaItem.match_successful r then None
             else Some (snd (reconcile E (scan_client E) (LibraryConfig.library_key config)
                                       (MediaInfo.key media)
                                       (LibraryConfig.agent_name config)))).
Proof.
  intros E clock d.
  destruct (@scan_rows E clock d) as (C & new & L & Hall).
  split; [exact C|]. exists new. split; [exact L|].
  intros r Hin. rewrite Forall_forall in Hall.
  destruct (Hall r Hin) as [(i & config & media & Hnth & Hm & ->) _].
  exists i, config, media.
  pose proof (nth_error_In _ _ Hnth) as Hcfg. unfold Scheduler.enabled_configs in Hcfg.
  apply filter_In in Hcfg as [Hcfg Hen].
  unfold media_row. cbn [MediaItem.library_config_id MediaItem.agent_matched
    MediaItem.plex_key MediaItem.title MediaItem.media_type MediaItem.match_successful
    MediaItem.error_message MediaItem.added_at].
  split; [exact Hnth|]. split; [exact Hm|]. split; [exact Hcfg|]. split; [exact Hen|].
  split; [reflexivity|]. split; [reflexivity|]. split; [reflexivity|].
  split; [reflexivity|]. split; [reflexivity|]. split; [reflexivity|].
  split; [reflexivity|]. now destruct (fst (reconcile E _ _ _ _)).
Qed.

Lemma scan_rows_come_from_enabled_libraries_witness :
  library_configs
    (Scheduler.db (snd (Scheduler.run_scan Scenario2.env_counters
                          (Scenario.at_time 1000000) Scenario2.db_counters)))
  = library_configs Scenario2.db_counters /\
  map (fun r => (MediaItem.uc r, MediaItem.match_successful r, MediaItem.error_message r))
      (media_items
         (Scheduler.db (snd (Scheduler.run_scan Scenario2.env_counters
                               (Scenario.at_time 1000000) Scenario2.db_counters))))
  = [((1, Some "/m/2"), true, None);
     ((1, Some "/m/1"), true, None);
     ((1, Some "/m/4"), false,
      Some "Failed to process media /m/4 with agent TheMovieDB: Read timed out");
     ((1, Some "/m/3"), true, None)] /\
  map MediaItem.library_config_id
      (media_items
         (Scheduler.db (snd (Scheduler.run_scan Scenario.env_second_library_down
                               (Scenario.at_time 1000000) Scenario.db_three_libraries))))
  = [1; 3].
Proof.
  split; [|split; reflexivity].
  exact (proj1 (@scan_rows_come_from_enabled_libraries Scenario2.env_counters
                  (Scenario.at_time 1000000) Scenario2.db_counters)).
Defined.

(** X18. Whatever a scan finds it records: when the handshake succeeded and
    every item the enabled libraries list carries a key, a title and a type,
    the scan returns, and every item that an enabled library listed during
    it has a row in the ledger for that library, whether its reconciliation
    succeeded or failed, so that no later scan takes it up again. *)
Theorem scan_records_every_listed_item :
  forall (E : Env) (clock : nat -> Z) (d : Database)
         (i : nat) (config : LibraryConfig.t) (media : MediaInfo.t),
    handshake_ok E ->
    listings_complete E (scan_client E) clock 1 (Scheduler.enabled_configs d) = true ->
    nth_error (Scheduler.enabled_configs d) i = Some config ->
    In media (recent E (scan_client E) (LibraryConfig.library_key config) 24 (clock (S i))) ->
    fst (Scheduler.run_scan E clock d) = Ok tt /\
    recorded (LibraryConfig.id config) (MediaInfo.key media)
             (media_items (Scheduler.db (snd (Scheduler.run_scan E clock d)))).
Proof.
  intros E clock d i config media Hok Hall Hnth Hin.
  pose proof (@listings_not_rejected E clock d Hall) as Hacc.
  rewrite (@run_scan_connected E clock d Hok Hacc). cbn [fst snd Scheduler.db media_items].
  split; [reflexivity|].
  eapply tally_libraries_records; [exact Hnth|exact Hin].
Qed.

Lemma scan_records_every_listed_item_witness :
  fst (Scheduler.run_scan Scenario.env_one_candidate (Scenario.at_time 1000000)
         Scenario.db_one_library) = Ok tt /\
  recorded 1 (Some "/lib/5/x1")
    (media_items
       (Scheduler.db (snd (Scheduler.run_scan Scenario.env_one_candidate
                             (Scenario.at_time 1000000) Scenario.db_one_library)))).
Proof.
  apply (@scan_records_every_listed_item Scenario.env_one_candidate
           (Scenario.at_time 1000000) Scenario.db_one_library 0
           (Scenario.library 1 "5" "Movies") Race.item eq_refl eq_refl eq_refl).
  left. reflexivity.
Defined.

(** X19. The counters a scan commits.  In every record a scan commits the
    counters are not negative and the items counted as matched or failed are
    not more than the items found.  When the scan returns, the record it
    committed last is the one it holds, and its [total_matched] and
    [total_errors] add up to the number of rows the scan added to the
    ledger. *)
Theorem scan_counters_are_bounded :
  forall (E : Env) (clock : nat -> Z) (d : Database),
    (forall record,
        In record (Scheduler.committed (snd (Scheduler.run_scan E clock d))) ->
        0 <= ScanLog.total_matched record /\
        0 <= ScanLog.total_errors record /\
        ScanLog.total_matched record + ScanLog.total_errors record
        <= ScanLog.total_media_found record) /\
    (fst (Scheduler.run_scan E clock d) = Ok tt ->
     last (Scheduler.committed (snd (Scheduler.run_scan E clock d)))
          (ScanLog.new (clock 0%nat))
     = Scheduler.scan_log (snd (Scheduler.run_scan E clock d)) /\
     ScanLog.total_matched (Scheduler.scan_log (snd (Scheduler.run_scan E clock d)))
     + ScanLog.total_errors (Scheduler.scan_log (snd (Scheduler.run_scan E clock d)))
     = Z.of_nat (List.length (media_items
                                (Scheduler.db (snd (Scheduler.run_scan E clock d)))))
       - Z.of_nat (List.length (media_items d))).
Proof.
  intros E clock d.
  assert (Hnew : forall record, record = ScanLog.new (clock 0%nat) ->
                   0 <= ScanLog.total_matched record /\
                   0 <= ScanLog.total_errors record /\
                   ScanLog.total_matched record + ScanLog.total_errors record
                   <= ScanLog.total_media_found record).
  { intros record ->. cbn. lia. }
  destruct (handshake_cases E) as [Hok|Hno].
  - destruct (@run_scan_cases E clock d Hok) as [[Hacc Hrun]|(_ & Hraise & _ & Hcom)].
    + assert (Hret : fst (Scheduler.run_scan E clock d) = Ok tt) by now rewrite Hrun.
      destruct (@scan_counters E clock d Hok Hret) as (new & L & F & M & Er & _ & Hlen & Hcom).
      pose proof (count_matched_failed new). pose proof (count_matched_nonneg new).
      pose proof (count_failed_nonneg new).
      split.
      * intros record Hin. rewrite Hcom in Hin.
        destruct Hin as [<-|[<-|[]]]; [now apply Hnew|]. rewrite F, M, Er. lia.
      * intros _. rewrite Hcom. cbn [last]. split; [reflexivity|].
        rewrite L, M, Er, length_app. lia.
    + split.
      * intros record Hin. rewrite Hcom in Hin.
        destruct Hin as [<-|[]]. now apply Hnew.
      * intros Hret. rewrite Hraise in Hret. discriminate.
  - rewrite (@run_scan_not_connected E clock d Hno).
    cbn [fst snd Scheduler.db Scheduler.scan_log Scheduler.committed]. split.
    + intros record [<-|[<-|[]]]; cbn; lia.
    + intros _. cbn. split; [reflexivity|lia].
Qed.

Lemma scan_counters_are_bounded_witness :
  Scheduler.committed
    (snd (Scheduler.run_scan Scenario2.env_counters (Scenario.at_time 1000000)
            Scenario2.db_counters))
  = [ScanLog.new 1000000;
     {| ScanLog.scan_started_at := 1000000;
        ScanLog.scan_completed_at := Some 1000000;
        ScanLog.total_libraries := 1;
        ScanLog.total_media_found := 4;
        ScanLog.total_matched := 2;
        ScanLog.total_errors := 1;
        ScanLog.status := "completed";
        ScanLog.error_message := None |}] /\
  ScanLog.total_matched
    (Scheduler.scan_log (snd (Scheduler.run_scan Scenario2.env_counters
                                (Scenario.at_time 1000000) Scenario2.db_counters)))
  + ScanLog.total_errors
      (Scheduler.scan_log (snd (Scheduler.run_scan Scenario2.env_counters
                                  (Scenario.at_time 1000000) Scenario2.db_counters)))
  = Z.of_nat (List.length
                (media_items
                   (Scheduler.db (snd (Scheduler.run_scan Scenario2.env_counters
                                         (Scenario.at_time 1000000)
                                         Scenario2.db_counters)))))
    - Z.of_nat (List.length (media_items Scenario2.db_counters)) /\
  Scheduler.committed
    (snd (Scheduler.run_scan Scenario2.env_untitled (Scenario.at_time 1000000)
            Scenario.db_one_library))
  = [ScanLog.new 1000000].
Proof.
  split; [reflexivity|]. split; [|reflexivity].
  exact (proj2 (proj2 (@scan_counters_are_bounded Scenario2.env_counters
                         (Scenario.at_time 1000000) Scenario2.db_counters) eq_refl)).
Defined.

(** X20. A scan never gives the ledger a pair it already holds: the pairs
    (library config id, item key) of the rows it adds are new to the ledger,
    and a ledger without a repeated pair is left without one, by the query
    of [scan_libraries] alone. *)
Theorem scan_adds_only_new_pairs :
  forall (E : Env) (clock : nat -> Z) (d : Database),
    NoDup (map MediaItem.uc (media_items d)) ->
    NoDup (map MediaItem.uc
               (media_items (Scheduler.db (snd (Scheduler.run_scan E clock d))))) /\
    exists new,
      media_items (Scheduler.db (snd (Scheduler.run_scan E clock d)))
      = (media_items d ++ new)%list /\
      forall r, In r new -> ~ In (MediaItem.uc r) (map MediaItem.uc (media_items d)).
Proof.
  intros E clock d Hnd. split.
  - now apply scan_keeps_ledger_unique.
  - destruct (@scan_rows E clock d) as (_ & new & L & Hall).
    exists new. split; [exact L|]. intros r Hin.
    rewrite Forall_forall in Hall. exact (proj2 (Hall r Hin)).
Qed.

Lemma scan_adds_only_new_pairs_witness :
  NoDup (map MediaItem.uc
             (media_items
                (Scheduler.db
                   (snd (Scheduler.run_scan Scenario.env_one_candidate
                           (Scenario.at_time 1000060)
                           (Scheduler.db
                              (snd (Scheduler.run_scan Scenario.env_one_candidate
                                      (Scenario.at_time 1000000)
                                      Scenario.db_one_library)))))))).
Proof.
  apply (@scan_adds_only_new_pairs Scenario.env_one_candidate (Scenario.at_time 1000060)).
  apply (@scan_adds_only_new_pairs Scenario.env_one_candidate (Scenario.at_time 1000000)).
  constructor.
Defined.

(* ------------------------------------------------------------------------- *)
(** * Further properties: the views of routes.py *)

Lemma get_libraries_connected (E : Env) (c : PlexClient.t) :
  connected c -> PlexClient.get_libraries E c = (Ok (libraries_of E c), c).
Proof.
  intros Hc.
  assert (H : exists l, PlexClient.get_libraries E c = (Ok l, c)).
  { unfold PlexClient.get_libraries, St.bind.
    rewrite (ensure_connected_connected E Hc). cbn [negb].
    unfold St.gets, St.lift.
    destruct (try_except_last_total (PlexClient.libraries_body E c) (fun _ => []))
      as [v ->]. eauto. }
  destruct H as [l H]. unfold libraries_of. now rewrite H.
Qed.

Lemma validate_library_config_connected (E : Env) (c : PlexClient.t) (library_key : string) :
  connected c ->
  PlexClient.validate_library_config E library_key c = (Ok (validation E c library_key), c).
Proof.
  intros Hc.
  assert (H : exists v, PlexClient.validate_library_config E library_key c = (Ok v, c)).
  { unfold PlexClient.validate_library_config, St.bind.
    rewrite (ensure_connected_connected E Hc). cbn [negb].
    unfold St.gets, St.lift.
    match goal with
    | |- context [Py.try_except ?b ?hs] =>
        assert (Hv : exists v, Py.try_except b hs = Ok v)
    end.
    { apply try_except_handlers_total.
      - intros e. destruct (PlexClient.status_code e =? 404); eauto.
      - intros e. eauto. }
    destruct Hv as [v ->]. eauto. }
  destruct H as [v H]. unfold validation. now rewrite H.
Qed.

Lemma validate_each_connected (E : Env) (c : PlexClient.t) (configs : list LibraryConfig.t) :
  connected c ->
  Routes.validate_each E configs c
  = (Ok (map (fun config =>
                (config,
                 fst (validation E c (LibraryConfig.library_key config)),
                 snd (validation E c (LibraryConfig.library_key config))))
             configs), c).
Proof.
  intros Hc. induction configs as [|config rest IH]; [reflexivity|].
  cbn [Routes.validate_each map]. unfold St.bind.
  rewrite (validate_library_config_connected E (LibraryConfig.library_key config) Hc).
  rewrite IH. reflexivity.
Qed.

Lemma handshake_refused (E : Env) :
  ~ handshake_ok E -> fst (PlexClient.connect E (PlexClient.init E)) = Ok false.
Proof. intros Hno. destruct (handshake_cases E) as [H|H]; [contradiction|exact H]. Qed.

(** X21. The validation page.  With the handshake done it checks every
    library configuration, in the order of the table, and then asks
    [scheduler_next_run] for the time of the next run: when that call
    returns, the page shows one result for each configuration, each the
    verdict and the message of [validate_library_config] for the key of
    that configuration, together with the time returned; when that call
    raises, the view raises the same exception.  When the handshake fails
    nothing is checked, [scheduler_next_run] is not called, and the view
    sends the browser to the configuration page with one message of the
    category danger. *)
Theorem validate_configs_checks_every_config :
  forall (E : Env) (d : Database),
    (handshake_ok E ->
     forall next_run, scheduler_next_run E = Ok next_run ->
     Routes.validate_configs E d
     = Ok {| Routes.flashes := [];
             Routes.body :=
               Routes.RenderValidate
                 (map (fun config =>
                         (config,
                          fst (validation E (scan_client E)
                                          (LibraryConfig.library_key config)),
                          snd (validation E (scan_client E)
                                          (LibraryConfig.library_key config))))
                      (library_configs d))
                 next_run |}) /\
    (handshake_ok E ->
     forall e, scheduler_next_run E = Raise e ->
     Routes.validate_configs E d = Raise e) /\
    (~ handshake_ok E ->
     exists message,
       Routes.validate_configs E d
       = Ok {| Routes.flashes := [(message, "danger")];
               Routes.body := Routes.Redirect "config" |}).
Proof.
  intros E d.
  assert (Hrun : handshake_ok E ->
                 Routes.validate_configs E d
                 = Py.bind (scheduler_next_run E)
                     (fun next_run =>
                        Ok {| Routes.flashes := [];
                              Routes.body :=
                                Routes.RenderValidate
                                  (map (fun config =>
                                          (config,
                                           fst (validation E (scan_client E)
                                                  (LibraryConfig.library_key config)),
                                           snd (validation E (scan_client E)
                                                  (LibraryConfig.library_key config))))
                                       (library_configs d))
                                  next_run |})).
  { intros Hok. destruct (handshake_client Hok) as [Hc _].
    unfold Routes.validate_configs. unfold handshake_ok in Hok. unfold scan_client in *.
    destruct (PlexClient.connect E (PlexClient.init E)) as [r cl].
    cbn [fst snd] in *. subst r. cbn [Py.bind negb].
    rewrite (validate_each_connected E (library_configs d) Hc). reflexivity. }
  split; [|split].
  - intros Hok next_run Hn. rewrite (Hrun Hok), Hn. reflexivity.
  - intros Hok e Hn. rewrite (Hrun Hok), Hn. reflexivity.
  - intros Hno. apply handshake_refused in Hno.
    unfold Routes.validate_configs.
    destruct (PlexClient.connect E (PlexClient.init E)) as [r cl].
    cbn [fst] in Hno. subst r. cbn [Py.bind negb]. eauto.
Qed.

Lemma validate_configs_checks_every_config_witness :
  Routes.validate_configs (Scenario2.env_prefs "UTC") Scenario2.db_prefs
  = Ok {| Routes.flashes := [];
          Routes.body :=
            Routes.RenderValidate
              [(Scenario.library 1 "5" "Movies", true, "Library 'Movies' is valid");
               (Scenario.library 2 "6" "Shows", false,
                "Library with ID 6 not found on Plex server");
               (Scenario.library 3 "7" "Music", false,
                "Error validating library 7: Read timed out")]
              "12:00" |} /\
  Routes.validate_configs Scenario2.env_no_next_run Scenario2.db_prefs
  = Raise Scenario2.no_job /\
  Routes.validate_configs Scenario.env_refused Scenario2.db_prefs
  = Ok {| Routes.flashes :=
            [("Failed to connect to Plex server. Please check your PLEX_URL and PLEX_TOKEN.",
              "danger")];
          Routes.body := Routes.Redirect "config" |}.
Proof.
  split; [|split; [|reflexivity]].
  - rewrite (proj1 (@validate_configs_checks_every_config (Scenario2.env_prefs "UTC")
                      Scenario2.db_prefs) eq_refl "12:00" eq_refl).
    reflexivity.
  - exact (proj1 (proj2 (@validate_configs_checks_every_config Scenario2.env_no_next_run
                           Scenario2.db_prefs))
             eq_refl Scenario2.no_job eq_refl).
Defined.

(** X22. The page that adds a library.  When the handshake fails it sends
    the browser back to the configuration page with one message of the
    category danger, and when the server lists no library, with one warning;
    [scheduler_next_run] is called in neither case.  When the handshake
    succeeded and the server listed at least one library, the view asks
    [scheduler_next_run] for the time of the next run: it offers the list
    [get_libraries] returns on the connected client, together with that
    time, when the call returns, and raises the exception of the call when
    it raises.  So a list is offered only after a handshake, it is never
    empty, and the view fails only when [scheduler_next_run] does. *)
Theorem add_config_get_offers_libraries :
  forall E : Env,
    (handshake_ok E ->
     libraries_of E (scan_client E) <> [] ->
     forall next_run, scheduler_next_run E = Ok next_run ->
     Routes.add_config_get E
     = Ok {| Routes.flashes := [];
             Routes.body :=
               Routes.RenderAdd (libraries_of E (scan_client E)) next_run |}) /\
    (handshake_ok E ->
     libraries_of E (scan_client E) <> [] ->
     forall e, scheduler_next_run E = Raise e ->
     Routes.add_config_get E = Raise e) /\
    (handshake_ok E ->
     libraries_of E (scan_client E) = [] ->
     exists message,
       Routes.add_config_get E
       = Ok {| Routes.flashes := [(message, "warning")];
               Routes.body := Routes.Redirect "config" |}) /\
    (~ handshake_ok E ->
     exists message,
       Routes.add_config_get E
       = Ok {| Routes.flashes := [(message, "danger")];
               Routes.body := Routes.Redirect "config" |}) /\
    (forall resp l next_run,
        Routes.add_config_get E = Ok resp ->
        Routes.body resp = Routes.RenderAdd l next_run ->
        handshake_ok E /\ l = libraries_of E (scan_client E) /\ l <> [] /\
        scheduler_next_run E = Ok next_run /\ Routes.flashes resp = []) /\
    (forall e,
        Routes.add_config_get E = Raise e ->
        handshake_ok E /\ libraries_of E (scan_client E) <> [] /\
        scheduler_next_run E = Raise e).
Proof.
  intros E. destruct (handshake_cases E) as [Hok|Hno].
  - destruct (handshake_client Hok) as [Hc _].
    pose proof Hok as Hok'.
    unfold Routes.add_config_get. unfold handshake_ok in Hok. unfold scan_client in *.
    destruct (PlexClient.connect E (PlexClient.init E)) as [r cl].
    cbn [fst snd] in *. subst r. cbn [Py.bind negb].
    rewrite (get_libraries_connected E Hc). cbn [fst Py.bind].
    destruct (libraries_of E cl) as [|x rest] eqn:Hl.
    + split; [intros _ H; now contradiction H|].
      split; [intros _ H; now contradiction H|].
      split; [intros _ _; eauto|].
      split; [intros H; contradiction|].
      split.
      * intros resp l next_run Hr Hb. injection Hr as <-. discriminate Hb.
      * intros e He. discriminate He.
    + destruct (scheduler_next_run E) as [t|e0] eqn:Hn; cbn [Py.bind].
      * split; [intros _ _ next_run Hq; now injection Hq as <-|].
        split; [intros _ _ e Hq; discriminate Hq|].
        split; [intros _ Hq; discriminate Hq|].
        split; [intros H; contradiction|].
        split.
        -- intros resp l next_run Hr Hb. injection Hr as <-.
           cbn [Routes.body Routes.flashes] in *. injection Hb as <- <-.
           repeat split; [exact Hok'|discriminate].
        -- intros e He. discriminate He.
      * split; [intros _ _ next_run Hq; discriminate Hq|].
        split; [intros _ _ e Hq; now injection Hq as <-|].
        split; [intros _ Hq; discriminate Hq|].
        split; [intros H; contradiction|].
        split.
        -- intros resp l next_run Hr. discriminate Hr.
        -- intros e He. injection He as <-.
           repeat split; [exact Hok'|discriminate].
  - assert (Hnot : ~ handshake_ok E).
    { unfold handshake_ok. rewrite Hno. discriminate. }
    unfold Routes.add_config_get.
    destruct (PlexClient.connect E (PlexClient.init E)) as [r cl].
    cbn [fst] in Hno. subst r. cbn [Py.bind negb].
    split; [intros H; contradiction|].
    split; [intros H; contradiction|].
    split; [intros H; contradiction|].
    split; [intros _; eauto|].
    split.
    + intros resp l next_run Hr Hb. injection Hr as <-. discriminate Hb.
    + intros e He. discriminate He.
Qed.

Lemma add_config_get_offers_libraries_witness :
  Routes.add_config_get (Scenario2.env_prefs "UTC")
  = Ok {| Routes.flashes := [];
          Routes.body :=
            Routes.RenderAdd
              [ {| LibrarySummary.key := Some "5";
                   LibrarySummary.title := Some "Movies";
                   LibrarySummary.type := Some "movie";
                   LibrarySummary.agent := "tv.plex.agents.movie" |};
                {| LibrarySummary.key := Some "6";
                   LibrarySummary.title := Some "Shows";
                   LibrarySummary.type := Some "show";
                   LibrarySummary.agent := "Unknown" |} ]
              "12:00" |} /\
  Routes.add_config_get Scenario2.env_no_next_run = Raise Scenario2.no_job.
Proof.
  split.
  - rewrite (proj1 (@add_config_get_offers_libraries (Scenario2.env_prefs "UTC"))
               eq_refl (fun Hc => ltac:(vm_compute in Hc; discriminate Hc))
               "12:00" eq_refl).
    reflexivity.
  - refine (proj1 (proj2 (@add_config_get_offers_libraries Scenario2.env_no_next_run))
              eq_refl _ Scenario2.no_job eq_refl).
    intros Hc. vm_compute in Hc. discriminate Hc.
Defined.

Lemma NoDup_snoc {A} (l : list A) (x : A) : NoDup l -> ~ In x l -> NoDup (l ++ [x]).
Proof.
  intros Hnd Hnot. apply (Permutation_NoDup (Permutation_cons_append l x)).
  now constructor.
Qed.

Lemma find_library_key (key : string) (configs : list LibraryConfig.t) :
  find (fun c => (LibraryConfig.library_key c =? key)%string) configs = None <->
  ~ In key (map LibraryConfig.library_key configs).
Proof.
  induction configs as [|c rest IH]; cbn [find map In]; [tauto|].
  destruct (String.eqb_spec (LibraryConfig.library_key c) key) as [Heq|Hne].
  - split; [discriminate|]. intros H. exfalso. apply H. now left.
  - rewrite IH. tauto.
Qed.

Lemma missing_fields_nil (r : Routes.request) :
  Routes.missing_fields r = [] <->
  truthy (Routes.form_get r "library_key") && truthy (Routes.form_get r "library_name")
  && truthy (Routes.form_get r "library_type") && truthy (Routes.form_get r "agent_name")
  = true.
Proof.
  unfold Routes.missing_fields.
  destruct (truthy (Routes.form_get r "library_key")),
           (truthy (Routes.form_get r "library_name")),
           (truthy (Routes.form_get r "library_type")),
           (truthy (Routes.form_get r "agent_name"));
    cbn [app andb]; split; intros H; try reflexivity; discriminate H.
Qed.

Lemma truthy_fstr (x : option string) : truthy x = true -> x = Some (fstr x) /\ fstr x <> "".
Proof.
  destruct x as [s|]; cbn [truthy fstr]; [|discriminate].
  intros H. split; [reflexivity|]. intros ->. discriminate H.
Qed.

(** X23. What posting the form that adds a library does.  A form that leaves
    out a required field, or leaves it empty, changes nothing and is answered
    with the list of exactly the fields missing, which is then not empty; a
    form for a library key that is configured already changes nothing; any
    other form appends one enabled configuration with the four fields of the
    form and leaves the ledger alone. *)
Theorem add_config_post_outcomes :
  forall (new_id : Z) (r : Routes.request) (d : Database),
    (Routes.missing_fields r <> [] ->
     Routes.add_config_post new_id r d
     = ({| Routes.flashes :=
             [("Missing required fields: " ++ Routes.join (Routes.missing_fields r),
               "danger")];
           Routes.body := Routes.Redirect "add_config" |}, d)) /\
    (Routes.missing_fields r = [] ->
     forall key, Routes.form_get r "library_key" = Some key ->
     In key (map LibraryConfig.library_key (library_configs d)) ->
     snd (Routes.add_config_post new_id r d) = d /\
     Routes.body (fst (Routes.add_config_post new_id r d)) = Routes.Redirect "config" /\
     map snd (Routes.flashes (fst (Routes.add_config_post new_id r d))) = ["warning"]) /\
    (Routes.missing_fields r = [] ->
     forall key, Routes.form_get r "library_key" = Some key ->
     ~ In key (map LibraryConfig.library_key (library_configs d)) ->
     exists name type agent,
       Routes.form_get r "library_name" = Some name /\
       Routes.form_get r "library_type" = Some type /\
       Routes.form_get r "agent_name" = Some agent /\
       key <> "" /\ name <> "" /\ type <> "" /\ agent <> "" /\
       snd (Routes.add_config_post new_id r d)
       = {| library_configs :=
              library_configs d ++
                [{| LibraryConfig.id := new_id;
                    LibraryConfig.library_key := key;
                    LibraryConfig.library_name := name;
                    LibraryConfig.library_type := type;
                    LibraryConfig.agent_name := agent;
                    LibraryConfig.enabled := true |}];
            media_items := media_items d |} /\
       Routes.flashes (fst (Routes.add_config_post new_id r d))
       = [("Configuration added for library: " ++ name, "success")]).
Proof.
  intros new_id r d. split; [|split].
  - intros Hm. unfold Routes.add_config_post.
    destruct (truthy (Routes.form_get r "library_key")
              && truthy (Routes.form_get r "library_name")
              && truthy (Routes.form_get r "library_type")
              && truthy (Routes.form_get r "agent_name")) eqn:Hall.
    + exfalso. apply Hm. now apply missing_fields_nil.
    + reflexivity.
  - intros Hm key Hkey Hin. apply missing_fields_nil in Hm.
    unfold Routes.add_config_post. rewrite Hm. cbn [negb]. rewrite Hkey. cbn [fstr].
    destruct (find (fun c => (LibraryConfig.library_key c =? key)%string)
                   (library_configs d)) eqn:Hf.
    + repeat split.
    + exfalso. apply find_library_key in Hf. contradiction.
  - intros Hm key Hkey Hnot. apply missing_fields_nil in Hm.
    unfold Routes.add_config_post. rewrite Hm. cbn [negb].
    apply andb_prop in Hm as [Hm Ha]. apply andb_prop in Hm as [Hm Ht].
    apply andb_prop in Hm as [Hk Hn].
    apply truthy_fstr in Hk as [Hk1 Hk2]. apply truthy_fstr in Hn as [Hn1 Hn2].
    apply truthy_fstr in Ht as [Ht1 Ht2]. apply truthy_fstr in Ha as [Ha1 Ha2].
    rewrite Hkey in Hk2 |- *. cbn [fstr] in Hk2 |- *.
    apply find_library_key in Hnot. rewrite Hnot.
    exists (fstr (Routes.form_get r "library_name")),
           (fstr (Routes.form_get r "library_type")),
           (fstr (Routes.form_get r "agent_name")).
    cbn [fst snd Routes.flashes]. repeat split; assumption.
Qed.

Lemma add_config_post_outcomes_witness :
  Routes.add_config_post 4
    (Scenario2.post [("library_name", "Music"); ("agent_name", "")])
    Scenario.db_three_libraries
  = ({| Routes.flashes :=
          [("Missing required fields: Library Key, Library Type, Agent Name", "danger")];
        Routes.body := Routes.Redirect "add_config" |},
     Scenario.db_three_libraries) /\
  Routes.missing_fields (Scenario2.add_form "4" "Music") = [].
Proof.
  split; [|reflexivity].
  apply (proj1 (@add_config_post_outcomes 4
                  (Scenario2.post [("library_name", "Music"); ("agent_name", "")])
                  Scenario.db_three_libraries)).
  intros Hc. vm_compute in Hc. discriminate Hc.
Defined.

(** X24. The library keys stay unique: when no two configurations share a
    library key, none do after a request to the page that adds a library,
    whatever the form holds; the request never touches the ledger, and it
    leaves the configurations it found in place. *)
Theorem add_config_keeps_library_keys_unique :
  forall (E : Env) (new_id : Z) (r : Routes.request) (d : Database),
    NoDup (map LibraryConfig.library_key (library_configs d)) ->
    NoDup (map LibraryConfig.library_key
               (library_configs (snd (Routes.add_config E new_id r d)))) /\
    media_items (snd (Routes.add_config E new_id r d)) = media_items d /\
    exists new,
      library_configs (snd (Routes.add_config E new_id r d))
      = (library_configs d ++ new)%list /\
      (List.length new <= 1)%nat.
Proof.
  intros E new_id r d Hnd. unfold Routes.add_config.
  destruct (Routes.method r =? "GET")%string.
  - cbn [snd]. split; [exact Hnd|]. split; [reflexivity|].
    exists []. split; [now rewrite app_nil_r|cbn; lia].
  - unfold Routes.add_config_post.
    destruct (negb _).
    + cbn [snd]. split; [exact Hnd|]. split; [reflexivity|].
      exists []. split; [now rewrite app_nil_r|cbn; lia].
    + destruct (find _ (library_configs d)) eqn:Hf.
      * cbn [snd]. split; [exact Hnd|]. split; [reflexivity|].
        exists []. split; [now rewrite app_nil_r|cbn; lia].
      * cbn [snd library_configs media_items]. split; [|split; [reflexivity|]].
        -- rewrite map_app. cbn [map LibraryConfig.library_key].
           apply find_library_key in Hf.
           apply NoDup_snoc; assumption.
        -- eexists. split; [reflexivity|cbn; lia].
Qed.

Lemma add_config_keeps_library_keys_unique_witness :
  NoDup (map LibraryConfig.library_key
             (library_configs
                (snd (Routes.add_config Scenario.env_one_candidate 4
                        (Scenario2.add_form "4" "Music") Scenario.db_three_libraries)))) /\
  map LibraryConfig.library_key
      (library_configs
         (snd (Routes.add_config Scenario.env_one_candidate 4
                 (Scenario2.add_form "4" "Music") Scenario.db_three_libraries)))
  = ["1"; "2"; "3"; "4"] /\
  snd (Routes.add_config Scenario.env_one_candidate 4
         (Scenario2.add_form "3" "Concerts again") Scenario.db_three_libraries)
  = Scenario.db_three_libraries.
Proof.
  split; [|split; reflexivity].
  apply (@add_config_keeps_library_keys_unique Scenario.env_one_candidate 4
           (Scenario2.add_form "4" "Music") Scenario.db_three_libraries).
  cbn. repeat constructor; cbn; intuition discriminate.
Defined.

Lemma get_config_some (config_id : Z) (d : Database) (config : LibraryConfig.t) :
  Routes.get_config config_id d = Some config ->
  In config (library_configs d) /\ LibraryConfig.id config = config_id.
Proof.
  unfold Routes.get_config. intros H. apply find_some in H as [Hin Heq].
  split; [exact Hin|]. now apply Z.eqb_eq.
Qed.

Lemma get_config_none (config_id : Z) (d : Database) :
  Routes.get_config config_id d = None <->
  ~ In config_id (map LibraryConfig.id (library_configs d)).
Proof.
  unfold Routes.get_config.
  induction (library_configs d) as [|c rest IH]; cbn [find map In]; [tauto|].
  destruct (Z.eqb_spec (LibraryConfig.id c) config_id) as [Heq|Hne].
  - split; [discriminate|]. intros H. exfalso. apply H. now left.
  - rewrite IH. tauto.
Qed.

Lemma replace_config_map {B} (f : LibraryConfig.t -> B) (config_id : Z)
      (v c : LibraryConfig.t) (configs : list LibraryConfig.t) :
  find (fun c => LibraryConfig.id c =? config_id) configs = Some c ->
  f v = f c ->
  map f (Routes.replace_config config_id v configs) = map f configs.
Proof.
  intros Hf Hv. induction configs as [|c0 rest IH]; [discriminate|].
  cbn [find Routes.replace_config] in *.
  destruct (LibraryConfig.id c0 =? config_id).
  - injection Hf as ->. cbn [map]. now rewrite Hv.
  - cbn [map]. now rewrite (IH Hf).
Qed.

Lemma find_replace_config (config_id : Z) (v c : LibraryConfig.t)
      (configs : list LibraryConfig.t) :
  find (fun c => LibraryConfig.id c =? config_id) configs = Some c ->
  LibraryConfig.id v = config_id ->
  find (fun c => LibraryConfig.id c =? config_id)
       (Routes.replace_config config_id v configs) = Some v.
Proof.
  intros Hf Hv. induction configs as [|c0 rest IH]; [discriminate|].
  cbn [find Routes.replace_config] in *.
  destruct (LibraryConfig.id c0 =? config_id) eqn:H0.
  - cbn [find]. now rewrite (proj2 (Z.eqb_eq _ _) Hv).
  - cbn [find]. rewrite H0. exact (IH Hf).
Qed.

Lemma In_replace_config (config_id : Z) (v x : LibraryConfig.t)
      (configs : list LibraryConfig.t) :
  NoDup (map LibraryConfig.id configs) ->
  In x (Routes.replace_config config_id v configs) ->
  x = v \/ (In x configs /\ LibraryConfig.id x <> config_id).
Proof.
  induction configs as [|c0 rest IH]; intros Hnd Hin; [contradiction|].
  cbn [Routes.replace_config map] in *. inversion Hnd as [|? ? Hnot Hnd']; subst.
  destruct (Z.eqb_spec (LibraryConfig.id c0) config_id) as [Heq|Hne].
  - destruct Hin as [<-|Hin]; [now left|]. right. split; [now right|].
    intros Hx. apply Hnot. rewrite Heq, <- Hx. now apply in_map.
  - destruct Hin as [<-|Hin]; [right; split; [now left|exact Hne]|].
    destruct (IH Hnd' Hin) as [->|[H1 H2]]; [now left|].
    right. split; [now right|exact H2].
Qed.

Lemma In_remove_config (config_id : Z) (c : LibraryConfig.t)
      (configs : list LibraryConfig.t) :
  In c configs -> LibraryConfig.id c <> config_id ->
  In c (Routes.remove_config config_id configs).
Proof.
  induction configs as [|c0 rest IH]; intros Hin Hne; [contradiction|].
  cbn [Routes.remove_config].
  destruct (Z.eqb_spec (LibraryConfig.id c0) config_id) as [Heq|Hne0].
  - destruct Hin as [<-|Hin]; [contradiction|exact Hin].
  - destruct Hin as [<-|Hin]; [now left|]. right. now apply IH.
Qed.

Lemma remove_config_incl (config_id : Z) (c : LibraryConfig.t)
      (configs : list LibraryConfig.t) :
  In c (Routes.remove_config config_id configs) -> In c configs.
Proof.
  induction configs as [|c0 rest IH]; intros Hin; [contradiction|].
  cbn [Routes.remove_config] in Hin.
  destruct (LibraryConfig.id c0 =? config_id); [now right|].
  destruct Hin as [<-|Hin]; [now left|]. right. now apply IH.
Qed.

Lemma remove_config_length (config_id : Z) (c : LibraryConfig.t)
      (configs : list LibraryConfig.t) :
  find (fun c => LibraryConfig.id c =? config_id) configs = Some c ->
  S (List.length (Routes.remove_config config_id configs)) = List.length configs.
Proof.
  induction configs as [|c0 rest IH]; intros Hf; [discriminate|].
  cbn [find Routes.remove_config] in *.
  destruct (LibraryConfig.id c0 =? config_id); [reflexivity|].
  cbn [List.length]. now rewrite (IH Hf).
Qed.

Lemma remove_config_gone (config_id : Z) (configs : list LibraryConfig.t) :
  NoDup (map LibraryConfig.id configs) ->
  ~ In config_id (map LibraryConfig.id (Routes.remove_config config_id configs)).
Proof.
  induction configs as [|c0 rest IH]; intros Hnd; [intros []|].
  cbn [Routes.remove_config map] in *. inversion Hnd as [|? ? Hnot Hnd']; subst.
  destruct (Z.eqb_spec (LibraryConfig.id c0) config_id) as [Heq|Hne].
  - now rewrite <- Heq.
  - cbn [map In]. intros [H|H]; [contradiction|]. now apply (IH Hnd').
Qed.

Lemma edit_config_table (E : Env) (config_id : Z) (r : Routes.request) (d : Database) :
  map LibraryConfig.id (library_configs (snd (Routes.edit_config E config_id r d)))
  = map LibraryConfig.id (library_configs d) /\
  media_items (snd (Routes.edit_config E config_id r d)) = media_items d.
Proof.
  unfold Routes.edit_config.
  destruct (Routes.get_config config_id d) as [config|] eqn:Hg; [|now split].
  destruct (Routes.method r =? "GET")%string; [now split|].
  cbn [snd library_configs media_items]. split; [|reflexivity].
  unfold Routes.get_config in Hg. now apply replace_config_map with (c := config).
Qed.

(** X25. Editing a configuration changes its name, its agent and whether it
    is enabled, and nothing else: the ids, the library keys and the library
    types of the table and the whole ledger are as before, a GET changes
    nothing at all, and an id that is not in the table is answered with 404.
    After a POST the configuration is enabled exactly when the form holds the
    field enabled, and a name or an agent the form leaves out is kept. *)
Theorem edit_config_keeps_identity :
  forall (E : Env) (config_id : Z) (r : Routes.request) (d : Database),
    map LibraryConfig.id (library_configs (snd (Routes.edit_config E config_id r d)))
    = map LibraryConfig.id (library_configs d) /\
    map LibraryConfig.library_key (library_configs (snd (Routes.edit_config E config_id r d)))
    = map LibraryConfig.library_key (library_configs d) /\
    map LibraryConfig.library_type (library_configs (snd (Routes.edit_config E config_id r d)))
    = map LibraryConfig.library_type (library_configs d) /\
    media_items (snd (Routes.edit_config E config_id r d)) = media_items d /\
    (Routes.method r = "GET" -> snd (Routes.edit_config E config_id r d) = d) /\
    (~ In config_id (map LibraryConfig.id (library_configs d)) ->
     Routes.edit_config E config_id r d
     = (Ok {| Routes.flashes := []; Routes.body := Routes.NotFound |}, d)) /\
    (forall config,
        Routes.get_config config_id d = Some config ->
        Routes.method r <> "GET" ->
        exists config',
          Routes.get_config config_id (snd (Routes.edit_config E config_id r d))
          = Some config' /\
          LibraryConfig.enabled config' = Routes.form_has r "enabled" /\
          LibraryConfig.library_name config'
          = match Routes.form_get r "library_name" with
            | Some v => v
            | None => LibraryConfig.library_name config
            end /\
          LibraryConfig.agent_name config'
          = match Routes.form_get r "agent_name" with
            | Some v => v
            | None => LibraryConfig.agent_name config
            end).
Proof.
  intros E config_id r d. unfold Routes.edit_config.
  destruct (Routes.get_config config_id d) as [config|] eqn:Hg.
  - pose proof (@get_config_some _ _ _ Hg) as [Hin Hid].
    destruct (String.eqb_spec (Routes.method r) "GET") as [Hm|Hm].
    + cbn [snd]. repeat split; try reflexivity.
      * intros Hnot. apply get_config_none in Hnot. congruence.
      * intros c _ Hne. contradiction.
    + cbn [snd library_configs media_items]. unfold Routes.get_config in Hg.
      split; [now apply replace_config_map with (c := config)|].
      split; [now apply replace_config_map with (c := config)|].
      split; [now apply replace_config_map with (c := config)|].
      split; [reflexivity|]. split; [intros H; contradiction|].
      split.
      * intros Hnot. apply get_config_none in Hnot.
        unfold Routes.get_config in Hnot. congruence.
      * intros c Hc _. injection Hc as <-. eexists. split.
        -- unfold Routes.get_config. cbn [library_configs].
           apply find_replace_config with (c := config); [exact Hg|exact Hid].
        -- cbn [LibraryConfig.enabled LibraryConfig.library_name
                LibraryConfig.agent_name]. repeat split.
  - cbn [snd]. repeat split; try reflexivity. intros c Hc. discriminate Hc.
Qed.

Lemma edit_config_keeps_identity_witness :
  map LibraryConfig.id
      (library_configs
         (snd (Routes.edit_config Scenario.env_one_candidate 1
                 (Scenario2.post [("library_name", "Films")])
                 Scenario.db_three_libraries)))
  = map LibraryConfig.id (library_configs Scenario.db_three_libraries) /\
  map LibraryConfig.enabled
      (library_configs
         (snd (Routes.edit_config Scenario.env_one_candidate 1
                 (Scenario2.post [("library_name", "Films")])
                 Scenario.db_three_libraries)))
  = [false; true; true] /\
  map LibraryConfig.library_name
      (library_configs
         (snd (Routes.edit_config Scenario.env_one_candidate 1
                 (Scenario2.post [("library_name", "Films")])
                 Scenario.db_three_libraries)))
  = ["Films"; "Shows"; "Concerts"].
Proof.
  split; [|split; reflexivity].
  exact (proj1 (@edit_config_keeps_identity Scenario.env_one_candidate 1
                  (Scenario2.post [("library_name", "Films")])
                  Scenario.db_three_libraries)).
Defined.

(** X26. Deleting a configuration takes its media items with it, as the
    cascade of the model says: no row of the ledger refers to the deleted id
    afterwards, the rows and the configurations of the other libraries are
    all still there, the table has one row less, and when the ids were
    unique the id is gone from the table. *)
Theorem delete_config_cascades :
  forall (config_id : Z) (d : Database) (config : LibraryConfig.t),
    Routes.get_config config_id d = Some config ->
    media_items (snd (Routes.delete_config config_id d))
    = filter (fun row => negb (MediaItem.library_config_id row =? config_id))
             (media_items d) /\
    (forall row, In row (media_items (snd (Routes.delete_config config_id d))) ->
                 MediaItem.library_config_id row <> config_id) /\
    (forall c, In c (library_configs d) -> LibraryConfig.id c <> config_id ->
               In c (library_configs (snd (Routes.delete_config config_id d)))) /\
    (forall c, In c (library_configs (snd (Routes.delete_config config_id d))) ->
               In c (library_configs d)) /\
    S (List.length (library_configs (snd (Routes.delete_config config_id d))))
    = List.length (library_configs d) /\
    (NoDup (map LibraryConfig.id (library_configs d)) ->
     ~ In config_id
          (map LibraryConfig.id (library_configs (snd (Routes.delete_config config_id d))))).
Proof.
  intros config_id d config Hg. pose proof (@get_config_some _ _ _ Hg) as [Hin Hid].
  unfold Routes.delete_config. rewrite Hg. cbn [snd media_items library_configs].
  rewrite Hid. split; [reflexivity|]. split; [|split; [|split; [|split]]].
  - intros row Hrow. apply filter_In in Hrow as [_ Hrow].
    apply negb_true_iff in Hrow. now apply Z.eqb_neq.
  - intros c Hc Hne. now apply In_remove_config.
  - intros c Hc. now apply remove_config_incl in Hc.
  - now apply remove_config_length with (c := config).
  - intros Hnd. now apply remove_config_gone.
Qed.

Lemma delete_config_cascades_witness :
  map MediaItem.library_config_id (media_items Scenario2.db_scanned) = [1; 3] /\
  map MediaItem.library_config_id
      (media_items (snd (Routes.delete_config 1 Scenario2.db_scanned))) = [3] /\
  map LibraryConfig.id (library_configs (snd (Routes.delete_config 1 Scenario2.db_scanned)))
  = [2; 3].
Proof.
  split; [reflexivity|]. split; [|reflexivity].
  rewrite (proj1 (@delete_config_cascades 1 Scenario2.db_scanned
                    (Scenario.library 1 "1" "Movies") eq_refl)).
  reflexivity.
Defined.

(** X27. An id that is not in the table is answered with 404 by the page
    that edits and by the page that deletes, and the database is left as it
    was. *)
Theorem unknown_config_changes_nothing :
  forall (E : Env) (config_id : Z) (r : Routes.request) (d : Database),
    ~ In config_id (map LibraryConfig.id (library_configs d)) ->
    Routes.edit_config E config_id r d
    = (Ok {| Routes.flashes := []; Routes.body := Routes.NotFound |}, d) /\
    Routes.delete_config config_id d
    = ({| Routes.flashes := []; Routes.body := Routes.NotFound |}, d).
Proof.
  intros E config_id r d Hnot. apply get_config_none in Hnot.
  unfold Routes.edit_config, Routes.delete_config. rewrite Hnot. split; reflexivity.
Qed.

Lemma unknown_config_changes_nothing_witness :
  Routes.edit_config Scenario.env_one_candidate 9 (Scenario2.post [("enabled", "on")])
                     Scenario2.db_scanned
  = (Ok {| Routes.flashes := []; Routes.body := Routes.NotFound |}, Scenario2.db_scanned) /\
  Routes.delete_config 9 Scenario2.db_scanned
  = ({| Routes.flashes := []; Routes.body := Routes.NotFound |}, Scenario2.db_scanned).
Proof.
  apply (@unknown_config_changes_nothing Scenario.env_one_candidate 9
           (Scenario2.post [("enabled", "on")]) Scenario2.db_scanned).
  vm_compute. intros [H|[H|[H|[]]]]; discriminate H.
Defined.

(** X28. Every media item belongs to a library of the database, and this
    stays so: the pages that add, edit and delete a configuration and a scan
    each leave a database without orphaned rows when they find one. *)
Theorem no_orphans_is_kept :
  forall (E : Env) (clock : nat -> Z) (new_id config_id : Z) (r : Routes.request)
         (d : Database),
    no_orphans d ->
    no_orphans (snd (Routes.add_config E new_id r d)) /\
    no_orphans (snd (Routes.edit_config E config_id r d)) /\
    no_orphans (snd (Routes.delete_config config_id d)) /\
    no_orphans (Scheduler.db (snd (Scheduler.run_scan E clock d))).
Proof.
  intros E clock new_id config_id r d Hd. split; [|split; [|split]].
  - unfold Routes.add_config. destruct (Routes.method r =? "GET")%string; [exact Hd|].
    unfold Routes.add_config_post. destruct (negb _); [exact Hd|].
    destruct (find _ (library_configs d)); [exact Hd|].
    cbn [snd]. intros row Hrow. cbn [media_items library_configs] in *.
    rewrite map_app. apply in_or_app. left. now apply Hd.
  - destruct (edit_config_table E config_id r d) as (Hid & Hm).
    intros row Hrow. rewrite Hid. rewrite Hm in Hrow. now apply Hd.
  - unfold Routes.delete_config.
    destruct (Routes.get_config config_id d) as [config|] eqn:Hg; [|exact Hd].
    pose proof (@get_config_some _ _ _ Hg) as [_ Hid].
    cbn [snd]. intros row Hrow. cbn [media_items library_configs] in *.
    apply filter_In in Hrow as [Hrow Hne]. apply negb_true_iff in Hne.
    apply Z.eqb_neq in Hne. rewrite Hid in Hne.
    apply Hd in Hrow. apply in_map_iff in Hrow as (c & Hc & Hin).
    apply in_map_iff. exists c. split; [exact Hc|].
    apply In_remove_config; [exact Hin|]. now rewrite Hc.
  - destruct (@scan_rows E clock d) as (C & new & L & Hall).
    intros row Hrow. rewrite C. rewrite L in Hrow.
    apply in_app_or in Hrow as [Hrow|Hrow]; [now apply Hd|].
    rewrite Forall_forall in Hall.
    destruct (Hall row Hrow) as [(i & config & media & Hnth & _ & ->) _].
    apply nth_error_In in Hnth. unfold Scheduler.enabled_configs in Hnth.
    apply filter_In in Hnth as [Hcfg _].
    unfold media_row. cbn [MediaItem.library_config_id]. now apply in_map.
Qed.

Lemma no_orphans_is_kept_witness :
  no_orphans (snd (Routes.delete_config 1 Scenario2.db_scanned)) /\
  no_orphans (Scheduler.db (snd (Scheduler.run_scan Scenario.env_second_library_down
                                   (Scenario.at_time 1000000)
                                   Scenario.db_three_libraries))) /\
  media_items Scenario.db_three_libraries = [].
Proof.
  assert (H0 : no_orphans Scenario.db_three_libraries) by (intros row []).
  pose proof (proj2 (proj2 (proj2
                (@no_orphans_is_kept Scenario.env_second_library_down
                   (Scenario.at_time 1000000) 0 0 (Scenario2.post [])
                   Scenario.db_three_libraries H0)))) as H1.
  split; [|split; [exact H1|reflexivity]].
  exact (proj1 (proj2 (proj2
           (@no_orphans_is_kept Scenario.env_second_library_down
              (Scenario.at_time 1000000) 0 1 (Scenario2.post [])
              Scenario2.db_scanned H1)))).
Defined.

(** X29. A library that has been disabled is not scanned: after a POST to
    the page that edits it without the field enabled, a scan adds no row for
    that library, whatever the server lists for it; the rows it has are the
    ones it had. *)
Theorem disabled_library_is_not_scanned :
  forall (E : Env) (clock : nat -> Z) (config_id : Z) (r : Routes.request)
         (d : Database) (config : LibraryConfig.t),
    NoDup (map LibraryConfig.id (library_configs d)) ->
    Routes.get_config config_id d = Some config ->
    Routes.method r <> "GET" ->
    Routes.form_has r "enabled" = false ->
    forall row,
      In row (media_items
                (Scheduler.db (snd (Scheduler.run_scan E clock
                                      (snd (Routes.edit_config E config_id r d)))))) ->
      MediaItem.library_config_id row = config_id ->
      In row (media_items d).
Proof.
  intros E clock config_id r d config Hnd Hg Hm Hen row Hrow Hid.
  assert (Hd1 : exists v,
             LibraryConfig.enabled v = false /\
             snd (Routes.edit_config E config_id r d)
             = {| library_configs := Routes.replace_config config_id v (library_configs d);
                  media_items := media_items d |}).
  { unfold Routes.edit_config. rewrite Hg.
    rewrite (proj2 (String.eqb_neq _ _) Hm). cbn [snd]. eexists. split; [|reflexivity].
    cbn [LibraryConfig.enabled]. exact Hen. }
  destruct Hd1 as (v & Hv & Hd1). rewrite Hd1 in Hrow.
  match type of Hrow with
  | context [Scheduler.run_scan E clock ?x] =>
      destruct (@scan_rows E clock x) as (_ & new & L & Hall)
  end.
  rewrite L in Hrow. cbn [media_items] in Hrow.
  apply in_app_or in Hrow as [Hrow|Hrow]; [exact Hrow|].
  exfalso. rewrite Forall_forall in Hall.
  destruct (Hall row Hrow) as [(i & c0 & media & Hnth & _ & ->) _].
  apply nth_error_In in Hnth. unfold Scheduler.enabled_configs in Hnth.
  apply filter_In in Hnth as [Hcfg Hc0]. cbn [library_configs] in Hcfg.
  unfold media_row in Hid. cbn [MediaItem.library_config_id] in Hid.
  destruct (@In_replace_config _ _ _ _ Hnd Hcfg) as [->|[_ Hne]]; [congruence|contradiction].
Qed.

Lemma disabled_library_is_not_scanned_witness :
  map MediaItem.library_config_id
      (media_items
         (Scheduler.db
            (snd (Scheduler.run_scan Scenario.env_second_library_down
                    (Scenario.at_time 1000000)
                    (snd (Routes.edit_config Scenario.env_second_library_down 1
                            (Scenario2.post [("library_name", "Films")])
                            Scenario.db_three_libraries))))))
  = [3] /\
  forall row,
    In row (media_items
              (Scheduler.db
                 (snd (Scheduler.run_scan Scenario.env_second_library_down
                         (Scenario.at_time 1000000)
                         (snd (Routes.edit_config Scenario.env_second_library_down 1
                                 (Scenario2.post [("library_name", "Films")])
                                 Scenario.db_three_libraries)))))) ->
    MediaItem.library_config_id row <> 1.
Proof.
  split; [reflexivity|]. intros row Hrow Hid.
  refine (@disabled_library_is_not_scanned Scenario.env_second_library_down
            (Scenario.at_time 1000000) 1 (Scenario2.post [("library_name", "Films")])
            Scenario.db_three_libraries (Scenario.library 1 "1" "Movies")
            _ eq_refl _ eq_refl row Hrow Hid).
  - cbn. repeat constructor; cbn; intuition discriminate.
  - discriminate.
Defined.

(** X30. A library that has been deleted is not scanned either: when the ids
    of the table are unique, no row of the ledger refers to the deleted id
    after a later scan. *)
Theorem deleted_library_is_not_scanned :
  forall (E : Env) (clock : nat -> Z) (config_id : Z) (d : Database)
         (config : LibraryConfig.t),
    NoDup (map LibraryConfig.id (library_configs d)) ->
    Routes.get_config config_id d = Some config ->
    forall row,
      In row (media_items
                (Scheduler.db (snd (Scheduler.run_scan E clock
                                      (snd (Routes.delete_config config_id d)))))) ->
      MediaItem.library_config_id row <> config_id.
Proof.
  intros E clock config_id d config Hnd Hg row Hrow.
  pose proof (@get_config_some _ _ _ Hg) as [_ Hcid].
  assert (Hd1 : snd (Routes.delete_config config_id d)
                = {| library_configs := Routes.remove_config config_id (library_configs d);
                     media_items :=
                       filter (fun row => negb (MediaItem.library_config_id row =? config_id))
                              (media_items d) |}).
  { unfold Routes.delete_config. rewrite Hg. cbn [snd]. now rewrite Hcid. }
  rewrite Hd1 in Hrow.
  assert (Hold : forall row0,
             In row0 (filter (fun row => negb (MediaItem.library_config_id row =? config_id))
                             (media_items d)) ->
             MediaItem.library_config_id row0 <> config_id).
  { intros row0 H0. apply filter_In in H0 as [_ H0]. apply negb_true_iff in H0.
    now apply Z.eqb_neq. }
  match type of Hrow with
  | context [Scheduler.run_scan E clock ?x] =>
      destruct (@scan_rows E clock x) as (_ & new & L & Hall)
  end.
  rewrite L in Hrow. cbn [media_items] in Hrow.
  apply in_app_or in Hrow as [Hrow|Hrow]; [now apply Hold|].
  rewrite Forall_forall in Hall.
  destruct (Hall row Hrow) as [(i & c0 & media & Hnth & _ & ->) _].
  apply nth_error_In in Hnth. unfold Scheduler.enabled_configs in Hnth.
  apply filter_In in Hnth as [Hcfg _]. cbn [library_configs] in Hcfg.
  unfold media_row. cbn [MediaItem.library_config_id]. intros Heq.
  pose proof (in_map LibraryConfig.id _ _ Hcfg) as Hin. rewrite Heq in Hin.
  exact (@remove_config_gone config_id _ Hnd Hin).
Qed.

Lemma deleted_library_is_not_scanned_witness :
  Forall (fun row => MediaItem.library_config_id row <> 1)
         (media_items
            (Scheduler.db
               (snd (Scheduler.run_scan Scenario.env_second_library_down
                       (Scenario.at_time 1000060)
                       (snd (Routes.delete_config 1 Scenario2.db_scanned)))))) /\
  map MediaItem.library_config_id
      (media_items
         (Scheduler.db
            (snd (Scheduler.run_scan Scenario.env_second_library_down
                    (Scenario.at_time 1000060)
                    (snd (Routes.delete_config 1 Scenario2.db_scanned))))))
  = [3].
Proof.
  split; [|reflexivity]. apply Forall_forall. intros row Hrow.
  refine (@deleted_library_is_not_scanned Scenario.env_second_library_down
            (Scenario.at_time 1000060) 1 Scenario2.db_scanned
            (Scenario.library 1 "1" "Movies") _ eq_refl row Hrow).
  vm_compute. repeat constructor; cbn; intuition discriminate.
Defined.
